(* ===== verification/_CoqProject ===== *)
-Q . S2P
Prelude.v
PyValue.v
Model.v
ExcelImport.v
Query.v
Workflow.v
Stats.v
Crud.v
Auth.v
System.v
Server.v
