(* ===== verification/Prelude.v ===== *)
(** * OpenCourt: a verification development of the open-court backend

    The program is one Django REST Framework module,
    src/backend/core/views.py.  Its parts, leaves first:
    - the record table [OpenCourtApplication], read and written through the
      ORM (the model and serializer files are not among the sources);
    - the Import Engine [upload_excel] (lines 162-256): checks the uploaded
      file, reads the active sheet with openpyxl and upserts every data row
      by serial number, reporting failing rows as ["Row <n>: ..."];
    - the Query/Filter Engine [get_queryset] (lines 82-115) and the view
      set [OpenCourtApplicationViewSet] (lines 74-78) that serves listings;
    - the Status/Feedback Workflow [update_status] and [update_feedback]
      (lines 122-159);
    - the Statistics Aggregator [dashboard_stats] (lines 259-315) and the
      value lists [police_stations] and [categories] (lines 317-330);
    - the view set's generic actions (create, retrieve, update,
      partial update, destroy) through its serializer;
    - access control (lines 24-71): [login_view], [logout_view] and
      [current_user] on Django's [authenticate] and simplejwt's tokens, and
      [IsAuthenticated] with [JWTAuthentication] in front of every other
      view.
    Every operation takes the caller as an explicit [user] and the table as
    an explicit [db], and returns the response with the new table: the
    request-scoped state of Django becomes explicit state passing.

    Files, in dependency order:
    - [Prelude] (this file): the result monad [result] with [Ok]/[Err] and
      the notation [x <- c ;; k] that models Python exceptions, the
      development's tactics ([res_inv], [case_bool], [decide_closed]), the
      hint databases [oc] and [oc_rw], and the lemmas on lists the
      components share.
    - [PyValue]: spreadsheet cell values [pyval] as openpyxl returns them
      with [values_only=True] (None, bool, int, float, str, date,
      datetime, time, timedelta; a float by the digits of its shortest
      [repr], printed with CPython's layout), the
      exceptions [py_exc], and the Python and Django functions the row body
      calls: truth value [truthy], [or] ([py_or]), [str] ([py_str]),
      [str.isdigit] ([py_isdigit]), [int] ([py_int], with CPython's
      digit limit), [str.endswith]
      ([py_endswith]), [str(e)] ([exc_str]) and Django's [parse_date].
    - [Model]: the data model ([Status], [Feedback], [role], [user],
      [application]), the request payload of the import, responses
      (200/201/204/400/401/404), the table [db], and [Module Store]: the ORM calls the
      views make ([update_or_create] with the field coercions of CharField,
      DateField and IntegerField on SQLite, [save], lookups), with the table
      invariant [inv] (distinct primary keys below the id sequence, unique
      serial numbers).  [StoreView] sees a table as a finite map (stdpp
      [gmap]) from serial number to stored fields.
    - [ExcelImport]: [Module Upload] translates [upload_excel] (the row
      body [row_payload], [upsert], [process_row], the loop
      [process_rows], the view [upload_excel]); [UploadSpec] gives each row
      its meaning independent of the table ([row_decode], [spec_rows]) and
      proves the loop refines a last-write-wins map update; [CellFacts]
      proves the date and days normalisations; [UploadCorrect] proves the
      view's properties.
    - [Query]: [Module Listing] translates [get_queryset] filter by filter
      and the view set's listing [viewset_queryset], and states the spec's
      filter contract [listing_spec] separately; [ListingFacts] proves the
      filters meet it, the role scope, case insensitivity of search, and
      that the served listing shows every STAFF user the records of other
      stations.
    - [Workflow]: the two actions with DRF's [get_object] (404) and their
      functional behaviour on every branch; [remarks] is any JSON value of
      the body, stored as its [str()] when truthy.
    - [Stats]: the dashboard, grouped counts as group-then-order, and the
      top-ten and total properties.
    - [Crud]: the view set's [create], [retrieve], [update] and [destroy]
      (DRF's ModelViewSet; [create_with] takes the [perform_create] hook,
      [create] runs DRF's default, [perform_create_nested] is the class's
      unreachable one) through the serializer [validate] (modelled from the
      spec: [sr_no] required, non-blank and unique, choices for status and
      feedback, [days] within [0, 2^31-1]); they keep [inv] and the days
      bound, create leaves no creator, and destroy removes records.
    - [Auth]: the tokens ([Module Jwt]) behind a typeclass interface
      [TokenCodec] with its laws [TokenCodecLaws], discharged by a concrete
      instance [tag_codec]; [Module Auth] with the user and token tables,
      [login_view], [logout_view], [current_user] and [jwt_authenticate];
      the theorems are proved in a [Section] against the laws.
    - [System]: the views composed into one request handler [handle] over
      the shared table (the import, the workflow actions, the listing, the
      dashboard and value lists, and the view set's CRUD), [run] on
      sequences of requests, and the inductive [reachable] of the tables
      reached from the empty database; the invariants of every reachable
      table by rule induction, the exact requests that can remove a serial
      number, and a session where a re-import discards a review.
    - [Server]: authentication in front of the views: [serve] answers one
      request of the deployed API, [run_server] a timed sequence, and
      [server_reachable] the states of a deployment; every reachable state
      keeps both invariants and well-typed rows (non-blank serial numbers,
      creators that are users of the user table), every table write comes
      from an authenticated active user, and a logged-out refresh token is
      never accepted again.

    Groups of theorems: the import keeps [inv] and days within range
    (invariant, bounds); it refines the map update of its rows (refinement);
    its counters account for every row and a re-import only updates
    (functional); request-level failures leave the table unchanged (error);
    the column contract of a row, the row errors raised by a numeric date
    cell or an overflowing days value, and the spec's end-to-end import;
    cell normalisation round-trips decimal and ISO text (roundtrip); the
    listing selects exactly the rows the spec's filter contract of
    section 4.1 describes (equivalence) and is scoped for STAFF (safety),
    while the routed listing shows a STAFF user other stations' records; the workflow
    actions set what they are asked and refuse everything else with 400 or
    404; the dashboard counts are consistent with each other and with the
    listing; every reachable table keeps the invariant and the bound, every
    row of a deployed server is well typed for the model (type), and a
    serial number leaves the table only through the view set's DELETE or a
    PUT/PATCH renaming it (safety); [int] refuses more than 4300 digits
    (bounds); login issues tokens that decode to the caller's
    (roundtrip), logout is permanent for the refresh token (safety) and
    reachable from every login (liveness), but does not revoke the access
    token, and a logout without a token revokes nothing.  Each theorem
    with hypotheses has a witness at a concrete input in the
    [...Examples] module of its file.

    Bounds and assumptions.  Integers are Python integers ([Z]) until they
    reach the database, where SQLite's INTEGER is signed 64-bit: values
    outside [-2^63, 2^63-1] make the driver raise [OverflowError]
    ([orm_int]).  [update_or_create] fetches at most 21 rows
    (MAX_GET_RESULTS) before raising MultipleObjectsReturned, whose message
    says "more than 20" past that.  [int()] of a string follows CPython
    3.11 and later (and the security releases of 3.10): more than 4300
    decimal digits raise [ValueError] before any other check.  The row loop
    and all list functions are structural recursion, so nothing needs
    fuel and every function of the model is total.  Strings are sequences of
    Latin-1 characters ([ascii] of Rocq's String, all 256 codes): enough for
    the characters the code inspects (ASCII digits, the superscripts that
    [str.isdigit] accepts, ASCII case folding of SQLite's LIKE).  The ORM
    runs on SQLite with Django 3.2 semantics (the serializer's days
    validator takes the default [PositiveIntegerField] range
    [0, 2^31-1], while the import, which runs no validators, can store
    days up to 2^63-1); the order of rows of equal
    count in [order_by('-count')] is unspecified and the model fixes a
    stable sort, the theorems using only its sortedness and permutation.
    A row that raises is rolled back ([update_or_create] runs in an atomic
    block), so its table is the one before the row.  simplejwt runs with
    its blacklist application and default lifetimes (five minutes for an
    access token, one day for a refresh token); token ids ([jti], uuid4)
    are drawn from a counter, which makes them fresh; time is an explicit
    argument in seconds.  A token's string is related to the token only
    by the laws of [TokenCodec] (decoding inverts encoding and accepts
    nothing else), which is what HMAC signing with a secret key provides.

    Floats.  The code never computes with a float: it tests its truth,
    prints it with [str] (CPython's [repr]) and, were [isdigit] to accept
    its text, would truncate it with [int].  A float is therefore given by
    the digits of its shortest round-trip decimal form and the position of
    the decimal point, which determines all three; infinities and NaNs do
    not occur in a spreadsheet.

    Not modelled: the internals of openpyxl (a workbook is given as its
    sheet's rows or the message of the exception it raises, its cells as
    the Python values it yields), and characters beyond Latin-1; base64, JSON and HMAC of the JWTs, and password
    hashing (a stored password is compared as text); the error body of an
    invalid serializer beyond its first field; the routing file and the
    serializer file, which are not among the sources and follow the spec.
    [str()] of an integer of more than 4300 digits, which CPython also
    refuses, cannot arise: openpyxl reads numeric cells with [int()]
    itself, so such a workbook is unreadable.  The two workflow actions
    are modelled as written, and [System] includes them, although they are
    never routed. *)

From stdpp Require Export base list strings.
From Stdlib Require Export ZArith Lia.

Declare Scope oc_scope.
Delimit Scope oc_scope with oc.
Open Scope oc_scope.

(** ** The result monad

    Python code raises exceptions; a computation that may raise is a value of
    [result E A]: [Ok a] is normal completion, [Err e] is the exception. *)

Inductive result (E A : Type) : Type :=
| Ok (a : A)
| Err (e : E).
Arguments Ok {E A} a.
Arguments Err {E A} e.

Definition rbind {E A B} (c : result E A) (k : A -> result E B) : result E B :=
  match c with
  | Ok a => k a
  | Err e => Err e
  end.

Definition rmap {E A B} (f : A -> B) (c : result E A) : result E B :=
  rbind c (fun a => Ok (f a)).

Notation "x <- c ;; k" := (rbind c (fun x => k))
  (at level 100, c at next level, right associativity) : oc_scope.

(** Whether a computation completed normally. *)
Definition is_ok {E A} (c : result E A) : bool :=
  match c with Ok _ => true | Err _ => false end.

Lemma rbind_Ok_inv {E A B} (c : result E A) (k : A -> result E B) b :
  rbind c k = Ok b -> exists a, c = Ok a /\ k a = Ok b.
Proof. destruct c; simpl; [eauto | discriminate]. Qed.

Lemma rbind_Err_inv {E A B} (c : result E A) (k : A -> result E B) e :
  rbind c k = Err e -> c = Err e \/ exists a, c = Ok a /\ k a = Err e.
Proof. destruct c; simpl; [eauto | intros [= ->]; auto]. Qed.

Lemma rbind_Ok {E A B} (a : A) (k : A -> result E B) : rbind (Ok a) k = k a.
Proof. reflexivity. Qed.

Lemma rbind_Err {E A B} (e : E) (k : A -> result E B) : rbind (Err e) k = Err e.
Proof. reflexivity. Qed.

(** ** Tactics of the development *)

(** Invert every [rbind ... = Ok _] hypothesis into its two halves. *)
Ltac res_inv :=
  repeat match goal with
  | H : rbind ?c ?k = Ok _ |- _ =>
      let a := fresh "a" in let Hc := fresh "Hc" in
      apply rbind_Ok_inv in H as (a & Hc & H)
  end; simplify_eq.

(** Case analysis on the boolean tests of a definition, reflected into Prop. *)
Ltac case_bool :=
  repeat match goal with
  | |- context [if ?b then _ else _] =>
      lazymatch b with
      | context [if _ then _ else _] => fail
      | _ => destruct b eqn:?
      end
  end.

(** Proves a decidable proposition on closed data by evaluating its
    decision procedure. *)
Ltac decide_closed :=
  match goal with |- ?P => apply (bool_decide_unpack P); vm_compute; reflexivity end.

Create HintDb oc discriminated.
Create Rewrite HintDb oc_rw.

(** ** Strings

    stdpp makes [String.append] ([+:+]) opaque to [simpl]; these equations
    compute it on a known head. *)

Lemma str_app_nil (s : string) : "" +:+ s = s.
Proof. reflexivity. Qed.

Lemma str_app_cons (c : Ascii.ascii) (s1 s2 : string) :
  String c s1 +:+ s2 = String c (s1 +:+ s2).
Proof. reflexivity. Qed.

#[export] Hint Rewrite str_app_nil str_app_cons : oc_rw.

(** ** Generic lemmas on lists shared by the components *)

Section ListLemmas.
Context {A : Type}.

(** A list all of whose elements come from [l] or satisfy [P] satisfies
    [P] when [l] does: the shape of every "the table only gains good rows"
    argument. *)
Lemma Forall_sub (P : A -> Prop) l l' :
  Forall P l -> (forall y, In y l' -> In y l \/ P y) -> Forall P l'.
Proof.
  rewrite !Forall_forall. intros Hl Hsub y Hy%list_elem_of_In.
  destruct (Hsub y Hy) as [Hy'|Hy']; [apply Hl; by apply list_elem_of_In|exact Hy'].
Qed.

(** A filter every element passes keeps the list; one none passes empties it. *)
Lemma filter_all_true (p : A -> bool) l :
  (forall x, In x l -> p x = true) -> List.filter p l = l.
Proof.
  induction l as [|x l IH]; intros H; simpl; [done|].
  rewrite H by (left; done). f_equal. apply IH. intros y Hy. apply H. by right.
Qed.

Lemma filter_all_false (p : A -> bool) l :
  (forall x, In x l -> p x = false) -> List.filter p l = [].
Proof.
  induction l as [|x l IH]; intros H; simpl; [done|].
  rewrite H by (left; done). apply IH. intros y Hy. apply H. by right.
Qed.

(** Counting with a boolean predicate, as SQL's COUNT(...) WHERE does. *)
Definition count_if (p : A -> bool) (l : list A) : nat :=
  length (List.filter p l).

Lemma count_if_app (p : A -> bool) l1 l2 :
  count_if p (l1 ++ l2) = count_if p l1 + count_if p l2.
Proof.
  unfold count_if. induction l1 as [|x l1 IH]; simpl; [done|].
  destruct (p x); simpl; lia.
Qed.

Lemma count_if_cons (p : A -> bool) x l :
  count_if p (x :: l) = (if p x then 1 else 0) + count_if p l.
Proof. unfold count_if. simpl. by destruct (p x). Qed.

Lemma count_if_le (p : A -> bool) l : count_if p l <= length l.
Proof.
  unfold count_if. induction l as [|x l IH]; simpl; [lia|].
  destruct (p x); simpl; lia.
Qed.

Lemma count_if_ext (p q : A -> bool) l :
  (forall x, In x l -> p x = q x) -> count_if p l = count_if q l.
Proof.
  intros H. unfold count_if. f_equal. apply filter_ext_in. exact H.
Qed.

(** Four disjoint, exhaustive tests split a count into four parts. *)
Lemma count_if_partition4 (p1 p2 p3 p4 : A -> bool) l :
  (forall x, In x l ->
     (if p1 x then 1 else 0) + (if p2 x then 1 else 0) +
     (if p3 x then 1 else 0) + (if p4 x then 1 else 0) = 1) ->
  count_if p1 l + count_if p2 l + count_if p3 l + count_if p4 l = length l.
Proof.
  unfold count_if. induction l as [|x l IH]; intros H; simpl; [lia|].
  specialize (IH (fun y Hy => H y (or_intror Hy))).
  specialize (H x (or_introl eq_refl)).
  destruct (p1 x), (p2 x), (p3 x), (p4 x); simpl in *; lia.
Qed.
End ListLemmas.

Section SumCounts.
Context {A K : Type}.

(** A sum over keys of counts over a list [x :: l] splits off [x]. *)
Lemma sum_count_if_cons (f : K -> A -> bool) x (l : list A) (ks : list K) :
  sum_list_with (fun k => count_if (f k) (x :: l)) ks =
  sum_list_with (fun k => if f k x then 1 else 0) ks + sum_list_with (fun k => count_if (f k) l) ks.
Proof. induction ks as [|k ks IH]; simpl; [done|]. rewrite count_if_cons. lia. Qed.

Lemma sum_list_with_map {B C} (f : B -> nat) (g : C -> B) (l : list C) :
  sum_list_with f (map g l) = sum_list_with (fun x => f (g x)) l.
Proof. induction l; simpl; auto. Qed.

Lemma sum_count_if_nil (f : K -> A -> bool) (ks : list K) :
  sum_list_with (fun k => count_if (f k) []) ks = 0.
Proof. induction ks; simpl; auto. Qed.

Section Indicator.
Context (eqb : K -> K -> bool) (Heqb : forall x y, reflect (x = y) (eqb x y)).

Lemma sum_indicator_absent (x : K) (ks : list K) :
  x ∉ ks -> sum_list_with (fun k => if eqb x k then 1 else 0) ks = 0.
Proof.
  induction ks as [|k ks IH]; intros Hx; simpl; [done|].
  apply not_elem_of_cons in Hx as [Hne Hx].
  destruct (Heqb x k); [done|]. by rewrite IH.
Qed.

(** Over keys without duplicates, the indicator of a listed key sums to
    one. *)
Lemma sum_indicator (x : K) (ks : list K) :
  NoDup ks -> x ∈ ks -> sum_list_with (fun k => if eqb x k then 1 else 0) ks = 1.
Proof.
  induction ks as [|k ks IH]; intros Hnd Hx; simpl; [by apply elem_of_nil in Hx|].
  apply NoDup_cons in Hnd as [Hk Hnd]. destruct (Heqb x k) as [<-|Hne].
  - by rewrite sum_indicator_absent.
  - apply elem_of_cons in Hx as [?|Hx]; [done|]. by rewrite IH.
Qed.
End Indicator.
End SumCounts.

#[export] Hint Resolve count_if_le : oc.
#[export] Hint Rewrite @count_if_app @rbind_Ok @rbind_Err : oc_rw.
