(* ===== verification/PyValue.v ===== *)
(** * Python values read from a spreadsheet row

    [openpyxl]'s [iter_rows(values_only=True)] yields tuples of Python
    values; [upload_excel] (src/backend/core/views.py) tests them for
    truthiness, converts them with [str] and [int], and parses date text with
    Django's [parse_date].  This file models those values (floats by the
    digits of their [repr]) and builtins, and
    the exceptions they raise.  Strings are [String.string]: an [ascii] is a
    Latin-1 code point (U+0000..U+00FF). *)

From S2P Require Import Prelude.
From Stdlib Require Import Ascii DecimalString DecimalZ DecimalN.
Open Scope string_scope.

(** ** Values *)

(** A [datetime.date]; a Python date object always has
    [1 <= year <= 9999], [1 <= month <= 12] and a day within the month. *)
Record date := mkDate { year : Z; month : Z; day : Z }.

(** A [datetime.time], also the time part of a [datetime.datetime]. *)
Record time := mkTime { hour : Z; minute : Z; second : Z; microsecond : Z }.

(** A [datetime.timedelta] in its normal form: [days], then
    [0 <= seconds < 86400] and [0 <= microseconds < 10^6]. *)
Record delta := mkDelta { td_days : Z; td_seconds : Z; td_micro : Z }.

(** A finite [float] by the digits of its shortest round-trip decimal
    form, which is what [repr] prints: the value is
    [(-1)^f_neg * 0.d1...dn * 10^f_decpt] with [f_digits = d1...dn]
    without trailing zeros, or [f_digits = 0] for [0.0] and [-0.0].
    A spreadsheet has no infinities or NaNs. *)
Record pyfloat := mkFloat { f_neg : bool; f_digits : Z; f_decpt : Z }.

(** The cell values [openpyxl] yields: empty cells, booleans, integers,
    floats (a number cell with a fractional part), text, dates and
    date-times (date formats), times (a time-only format on a fraction of
    a day) and timedeltas (the [[h]:mm:ss] formats). *)
Inductive pyval :=
| PNone
| PBool (b : bool)
| PInt (n : Z)
| PFloat (f : pyfloat)
| PStr (s : string)
| PDate (d : date)
| PDateTime (d : date) (t : time)
| PTime (t : time)
| PDelta (td : delta).

#[export] Instance date_eq_dec : EqDecision date.
Proof. solve_decision. Defined.
#[export] Instance time_eq_dec : EqDecision time.
Proof. solve_decision. Defined.
#[export] Instance delta_eq_dec : EqDecision delta.
Proof. solve_decision. Defined.
#[export] Instance pyfloat_eq_dec : EqDecision pyfloat.
Proof. solve_decision. Defined.
#[export] Instance pyval_eq_dec : EqDecision pyval.
Proof. solve_decision. Defined.

(** Python truthiness ([if x:], [x or y], [not x]). *)
Definition truthy (v : pyval) : bool :=
  match v with
  | PNone => false
  | PBool b => b
  | PInt n => negb (n =? 0)%Z
  | PFloat f => negb (f_digits f =? 0)%Z
  | PStr s => negb (String.eqb s "")
  | PDate _ | PDateTime _ _ | PTime _ => true
  | PDelta td => negb ((td_days td =? 0) && (td_seconds td =? 0) && (td_micro td =? 0))%Z
  end.

(** [x or y] *)
Definition py_or (x y : pyval) : pyval := if truthy x then x else y.

(** ** Exceptions *)

Inductive py_exc :=
| IndexError                       (** [row[i]] with [i >= len(row)] *)
| ValueError (msg : string)        (** [int()], [datetime.date()] *)
| TypeError (msg : string)
| OverflowError (msg : string)     (** the SQLite driver on a too large int *)
| ValidationError (msg : string)   (** a model field rejecting a value *)
| MultipleObjectsReturned (n : nat). (** [QuerySet.get()] matching [n > 1] rows *)

(** ** [str()] *)

(** Decimal notation of an integer, as [str(int)] prints it. *)
Definition z_str (n : Z) : string := NilEmpty.string_of_int (Z.to_int n).

(** The [w] low decimal digits of [n], most significant first (the
    ["%0wd"] format of a number with at most [w] digits). *)
Definition digit_char (k : Z) : ascii := ascii_of_nat (48 + Z.to_nat k).

Fixpoint fixed_digits (w : nat) (n : Z) : string :=
  match w with
  | O => ""
  | S w' => fixed_digits w' (n / 10) +:+ String (digit_char (n mod 10)) ""
  end.

(** [date.isoformat()]: ["YYYY-MM-DD"]. *)
Definition date_iso (d : date) : string :=
  fixed_digits 4 (year d) +:+ "-" +:+ fixed_digits 2 (month d) +:+ "-" +:+
  fixed_digits 2 (day d).

(** [time.isoformat()]: ["HH:MM:SS"], with [".ffffff"] when there are
    microseconds. *)
Definition time_iso (t : time) : string :=
  fixed_digits 2 (hour t) +:+ ":" +:+ fixed_digits 2 (minute t) +:+ ":" +:+
  fixed_digits 2 (second t) +:+
  (if (microsecond t =? 0)%Z then "" else "." +:+ fixed_digits 6 (microsecond t)).

(** [str(timedelta)]: ["H:MM:SS"], after ["D day, "] or ["D days, "]
    when there are days, with [".ffffff"] when there are microseconds. *)
Definition delta_str (td : delta) : string :=
  let ss := td_seconds td in
  (if (td_days td =? 0)%Z then ""
   else z_str (td_days td) +:+ (if (Z.abs (td_days td) =? 1)%Z then " day, " else " days, ")) +:+
  z_str (ss / 3600) +:+ ":" +:+ fixed_digits 2 (ss / 60 mod 60) +:+ ":" +:+ fixed_digits 2 (ss mod 60) +:+
  (if (td_micro td =? 0)%Z then "" else "." +:+ fixed_digits 6 (td_micro td)).

(** [n] zeros. *)
Definition zeros (n : Z) : string := String.string_of_list_ascii (List.repeat "0"%char (Z.to_nat n)).

(** [repr(float)] (CPython's [float_repr_style = 'short']): scientific
    notation with a signed exponent of at least two digits when the
    decimal point position is [<= -4] or [> 16], positional notation
    otherwise, with [".0"] after an integral value. *)
Definition float_repr (f : pyfloat) : string :=
  let sign := if f_neg f then "-" else "" in
  let ds := z_str (f_digits f) in
  let n := Z.of_nat (String.length ds) in
  let p := f_decpt f in
  sign +:+
  (if (f_digits f =? 0)%Z then "0.0"
   else if ((p <=? -4) || (16 <? p))%Z then
     let e := (p - 1)%Z in
     String.substring 0 1 ds +:+
     (if (n =? 1)%Z then "" else "." +:+ String.substring 1 (Z.to_nat n - 1) ds) +:+
     "e" +:+ (if (e <? 0)%Z then "-" else "+") +:+
     (if (Z.abs e <? 10)%Z then "0" else "") +:+ z_str (Z.abs e)
   else if (p <=? 0)%Z then "0." +:+ zeros (- p) +:+ ds
   else if (n <=? p)%Z then ds +:+ zeros (p - n) +:+ ".0"
   else String.substring 0 (Z.to_nat p) ds +:+ "." +:+ String.substring (Z.to_nat p) (Z.to_nat (n - p)) ds).

(** [int(float)]: truncation toward zero. *)
Definition float_trunc (f : pyfloat) : Z :=
  let n := Z.of_nat (String.length (z_str (f_digits f))) in
  let k := (f_decpt f - n)%Z in
  let m := if (0 <=? k)%Z then (f_digits f * 10 ^ k)%Z else (f_digits f / 10 ^ (- k))%Z in
  if f_neg f then (- m)%Z else m.

Definition py_str (v : pyval) : string :=
  match v with
  | PNone => "None"
  | PBool true => "True"
  | PBool false => "False"
  | PInt n => z_str n
  | PFloat f => float_repr f
  | PStr s => s
  | PDate d => date_iso d
  | PDateTime d t => date_iso d +:+ " " +:+ time_iso t
  | PTime t => time_iso t
  | PDelta td => delta_str td
  end.

(** The name [type(v).__name__] reports in [TypeError] messages. *)
Definition type_name (v : pyval) : string :=
  match v with
  | PNone => "NoneType"
  | PBool _ => "bool"
  | PInt _ => "int"
  | PFloat _ => "float"
  | PStr _ => "str"
  | PDate _ => "datetime.date"
  | PDateTime _ _ => "datetime.datetime"
  | PTime _ => "datetime.time"
  | PDelta _ => "datetime.timedelta"
  end.

(** ** [str.isdigit()] and [int()] *)

(** The ASCII digits ['0'..'9'] (Unicode category Nd within Latin-1). *)
Definition is_decimal_char (c : ascii) : bool :=
  let n := nat_of_ascii c in (48 <=? n)%nat && (n <=? 57)%nat.

(** [str.isdigit] holds of a character with a Unicode digit value: within
    Latin-1 the decimal digits and the superscripts ['¹'] (U+00B9),
    ['²'] (U+00B2) and ['³'] (U+00B3). *)
Definition is_digit_char (c : ascii) : bool :=
  is_decimal_char c ||
  let n := nat_of_ascii c in (n =? 178)%nat || (n =? 179)%nat || (n =? 185)%nat.

Fixpoint all_chars (p : ascii -> bool) (s : string) : bool :=
  match s with
  | EmptyString => true
  | String c s' => p c && all_chars p s'
  end.

(** [s.isdigit()]: non-empty, and every character a digit. *)
Definition py_isdigit (s : string) : bool :=
  match s with
  | EmptyString => false
  | _ => all_chars is_digit_char s
  end.

(** CPython's default [sys.get_int_max_str_digits()] (3.11 on, and the
    security releases of 3.10): [int()] of a decimal string refuses more
    digits than this. *)
Definition int_max_str_digits : nat := 4300.

(** The number of decimal digits CPython's parser scans before the first
    other character. *)
Fixpoint decimal_prefix_len (s : string) : nat :=
  match s with
  | EmptyString => O
  | String c s' => if is_decimal_char c then S (decimal_prefix_len s') else O
  end.

Definition int_limit_msg (k : nat) : string :=
  "Exceeds the limit (" +:+ z_str (Z.of_nat int_max_str_digits) +:+
  " digits) for integer string conversion: value has " +:+ z_str (Z.of_nat k) +:+
  " digits; use sys.set_int_max_str_digits() to increase the limit".

(** CPython's ["invalid literal for int() with base %d: %.200R"]: the
    [repr] of a digit string is the string between single quotes (digits
    are printable and hold no quote), and [%.200R] keeps its first 200
    characters. *)
Definition int_literal_msg (s : string) : string :=
  "invalid literal for int() with base 10: " +:+ String.substring 0 200 ("'" +:+ s +:+ "'").

(** [int(s)] on a string [s] for which [s.isdigit()] holds, the only
    strings the import passes to [int]: [ValueError] when the digits
    scanned exceed the limit (checked first, on the scanned prefix), the
    value of the decimal digits, and [ValueError] when a superscript digit
    is present ([int] accepts only decimal digits). *)
Definition int_of_digit_string (s : string) : result py_exc Z :=
  if (int_max_str_digits <? decimal_prefix_len s)%nat then
    Err (ValueError (int_limit_msg (decimal_prefix_len s)))
  else
    match s, NilEmpty.uint_of_string s with
    | String _ _, Some u => Ok (Z.of_uint u)
    | _, _ => Err (ValueError (int_literal_msg s))
    end.

(** [int(v)] *)
Definition py_int (v : pyval) : result py_exc Z :=
  match v with
  | PInt n => Ok n
  | PFloat f => Ok (float_trunc f)
  | PBool b => Ok (if b then 1 else 0)%Z
  | PStr s => int_of_digit_string s
  | _ => Err (TypeError ("int() argument must be a string, a bytes-like object or a real number, not '"
                          +:+ type_name v +:+ "'"))
  end.

(** ** String methods *)

(** [s.startswith(p)] *)
Fixpoint py_startswith (p s : string) : bool :=
  match p, s with
  | EmptyString, _ => true
  | String a p', String b s' => Ascii.eqb a b && py_startswith p' s'
  | _, _ => false
  end.

Definition str_rev (s : string) : string :=
  String.string_of_list_ascii (List.rev (String.list_ascii_of_string s)).

(** [s.endswith(p)] *)
Definition py_endswith (p s : string) : bool :=
  py_startswith (str_rev p) (str_rev s).

(** ** [datetime.date(year, month, day)] and Django's [parse_date] *)

Definition is_leap (y : Z) : bool :=
  ((y mod 4 =? 0) && (negb (y mod 100 =? 0) || (y mod 400 =? 0)))%Z.

Definition days_in_month (y m : Z) : Z :=
  match m with
  | 2%Z => if is_leap y then 29 else 28
  | 4%Z | 6%Z | 9%Z | 11%Z => 30
  | _ => 31
  end.

(** The date fields a [datetime.date] accepts. *)
Definition valid_date (d : date) : bool :=
  ((1 <=? year d) && (year d <=? 9999) && (1 <=? month d) && (month d <=? 12) &&
   (1 <=? day d) && (day d <=? days_in_month (year d) (month d)))%Z.

(** The constructor [datetime.date(y, m, d)], with CPython's checks in their
    order and their messages. *)
Definition mk_date (y m d : Z) : result py_exc date :=
  if negb ((1 <=? y) && (y <=? 9999))%Z then
    Err (ValueError ("year " +:+ z_str y +:+ " is out of range"))
  else if negb ((1 <=? m) && (m <=? 12))%Z then
    Err (ValueError "month must be in 1..12")
  else if negb ((1 <=? d) && (d <=? days_in_month y m))%Z then
    Err (ValueError "day is out of range for month")
  else Ok (mkDate y m d).

Definition digit_val (c : ascii) : option Z :=
  if is_decimal_char c then Some (Z.of_nat (nat_of_ascii c - 48)) else None.

(** [$] without [re.MULTILINE]: the end of the string, or a final newline. *)
Definition at_end (s : string) : bool :=
  match s with
  | EmptyString => true
  | String c EmptyString => Ascii.eqb c "010"
  | _ => false
  end.

(** [(?P<month>\d{1,2})-]: two digits and the dash, or, when the regex
    engine backtracks, one digit and the dash. *)
Definition match_month (s : string) : option (Z * string) :=
  match s with
  | String a (String b rest) =>
      match digit_val a with
      | None => None
      | Some x =>
          if Ascii.eqb b "-" then Some (x, rest)
          else match digit_val b, rest with
               | Some y, String c rest' =>
                   if Ascii.eqb c "-" then Some (10 * x + y, rest')%Z else None
               | _, _ => None
               end
      end
  | _ => None
  end.

(** [(?P<day>\d{1,2})$]: two digits at the end, or one digit at the end. *)
Definition match_day (s : string) : option Z :=
  match s with
  | String a rest =>
      match digit_val a with
      | None => None
      | Some x =>
          if at_end rest then Some x
          else match rest with
               | String b rest' =>
                   match digit_val b with
                   | Some y => if at_end rest' then Some (10 * x + y)%Z else None
                   | None => None
                   end
               | EmptyString => None
               end
      end
  | EmptyString => None
  end.

(** Django's [django.utils.dateparse.parse_date]: [date_re.match(value)]
    with [date_re = r'(?P<year>\d{4})-(?P<month>\d{1,2})-(?P<day>\d{1,2})$'];
    [None] when the text does not match, and [datetime.date] on the three
    groups, which raises [ValueError] on an impossible date, when it does. *)
Definition parse_date (s : string) : result py_exc (option date) :=
  match s with
  | String a (String b (String c (String e (String dash rest)))) =>
      match digit_val a, digit_val b, digit_val c, digit_val e with
      | Some ya, Some yb, Some yc, Some ye =>
          if Ascii.eqb dash "-" then
            match match_month rest with
            | Some (m, rest') =>
                match match_day rest' with
                | Some dd =>
                    dt <- mk_date (1000 * ya + 100 * yb + 10 * yc + ye) m dd ;;
                    Ok (Some dt)
                | None => Ok None
                end
            | None => Ok None
            end
          else Ok None
      | _, _, _, _ => Ok None
      end
  | _ => Ok None
  end.

(** ** [str(e)] of the exceptions *)

(** [str(e)]; a [MultipleObjectsReturned] names the model
    [OpenCourtApplication] and counts at most 20 rows, since [get()] fetches
    21 rows at most (Django's [MAX_GET_RESULTS]). *)
Definition exc_str (e : py_exc) : string :=
  match e with
  | IndexError => "tuple index out of range"
  | ValueError m | TypeError m | OverflowError m => m
  | ValidationError m => "['" +:+ m +:+ "']"
  | MultipleObjectsReturned n =>
      "get() returned more than one OpenCourtApplication -- it returned " +:+
      (if (n <? 21)%nat then z_str (Z.of_nat n) else "more than 20") +:+ "!"
  end.

(** ** Lemmas: digits, [str] and [int] *)

Lemma digit_val_digit_char k : (0 <= k < 10)%Z -> digit_val (digit_char k) = Some k.
Proof.
  intros Hk. unfold digit_val, digit_char, is_decimal_char.
  rewrite nat_ascii_embedding by lia.
  replace (48 <=? 48 + Z.to_nat k)%nat with true by (symmetry; apply Nat.leb_le; lia).
  replace (48 + Z.to_nat k <=? 57)%nat with true by (symmetry; apply Nat.leb_le; lia).
  simpl. f_equal. lia.
Qed.

Lemma digit_char_not k c :
  (0 <= k < 10)%Z -> (nat_of_ascii c < 48 \/ 57 < nat_of_ascii c)%nat ->
  Ascii.eqb (digit_char k) c = false.
Proof.
  intros Hk Hc. apply Ascii.eqb_neq. intros <-. unfold digit_char in Hc.
  rewrite nat_ascii_embedding in Hc by lia. lia.
Qed.

(** The digits of a [w]-digit number [n]: the first [w - 1] digits are
    those of [n / 10], the last is [n mod 10]. *)
Lemma mod10_bound n : (0 <= n mod 10 < 10)%Z.
Proof. apply Z.mod_pos_bound. lia. Qed.

#[export] Hint Resolve mod10_bound : oc.

Lemma all_decimal_string_of_uint u :
  all_chars is_decimal_char (NilEmpty.string_of_uint u) = true.
Proof. induction u; simpl; auto. Qed.

(** [str(n)] of a positive [n] is a non-empty string of decimal digits. *)
Lemma z_str_pos n : (0 < n)%Z ->
  exists u, z_str n = NilEmpty.string_of_uint u /\ Z.of_uint u = n /\
            NilEmpty.string_of_uint u <> EmptyString.
Proof.
  intros Hn. destruct n as [|p|p]; try lia.
  exists (Pos.to_uint p). split; [reflexivity|].
  assert (Z.of_uint (Pos.to_uint p) = Z.pos p) as E.
  { pose proof (DecimalZ.of_to (Z.pos p)) as H. exact H. }
  split; [exact E|]. intros Hs.
  assert (NilEmpty.uint_of_string (NilEmpty.string_of_uint (Pos.to_uint p)) = Some Decimal.Nil) as H
    by (rewrite Hs; reflexivity).
  rewrite NilEmpty.usu in H. injection H as H. rewrite H in E. discriminate E.
Qed.

(** [str(n)] of a non-negative [n] is the decimal notation [int] reads back. *)
Lemma z_str_nonneg n : (0 <= n)%Z ->
  exists u, z_str n = NilEmpty.string_of_uint u /\ Z.of_uint u = n /\
            NilEmpty.string_of_uint u <> EmptyString.
Proof.
  intros Hn. destruct (Z.eq_dec n 0) as [->|]; [|apply z_str_pos; lia].
  exists (Decimal.D0 Decimal.Nil). repeat split; discriminate.
Qed.

Lemma all_chars_decimal_digit s :
  all_chars is_decimal_char s = true -> all_chars is_digit_char s = true.
Proof.
  induction s as [|c s IH]; simpl; [done|].
  intros [Hc Hs]%andb_prop. apply andb_true_intro. split; [|auto].
  unfold is_digit_char. by rewrite Hc.
Qed.

Lemma decimal_prefix_len_all s :
  all_chars is_decimal_char s = true -> decimal_prefix_len s = String.length s.
Proof.
  induction s as [|c s IH]; simpl; [done|]. intros [-> Hs]%andb_prop. by rewrite IH.
Qed.

Lemma decimal_prefix_len_le s : (decimal_prefix_len s <= String.length s)%nat.
Proof. induction s as [|c s IH]; simpl; [lia|]. destruct (is_decimal_char c); simpl; lia. Qed.

(** [int(str(n)) = n] for [n >= 0] printed within the digit limit. *)
Lemma int_of_z_str n :
  (0 <= n)%Z -> (String.length (z_str n) <= int_max_str_digits)%nat ->
  int_of_digit_string (z_str n) = Ok n.
Proof.
  intros Hn Hl. destruct (z_str_nonneg n Hn) as (u & Hs & Hu & Hne).
  unfold int_of_digit_string. rewrite Hs in *.
  rewrite decimal_prefix_len_all by apply all_decimal_string_of_uint.
  destruct (Nat.ltb_spec int_max_str_digits (String.length (NilEmpty.string_of_uint u))); [lia|].
  remember (NilEmpty.string_of_uint u) as s eqn:Es.
  destruct s as [|a s0]; [done|]. rewrite Es, NilEmpty.usu. by rewrite Hu.
Qed.

Lemma str_app_nonempty_r (a b : string) : b <> "" -> a +:+ b <> "".
Proof. destruct a; [done|discriminate]. Qed.

(** [str(v)] of a truthy value is non-empty. *)
Lemma py_str_truthy v : truthy v = true -> py_str v <> "".
Proof.
  intros Ht. destruct v as [|[]|n|f|s|dd|dd tt|tt|td]; cbn [truthy py_str] in *; try discriminate.
  - destruct (Z.eqb_spec n 0); [discriminate|].
    destruct (Z.ltb_spec 0 n) as [Hp|Hp].
    + destruct (z_str_pos n Hp) as (u & -> & _ & Hne). exact Hne.
    + destruct n; [lia|lia|discriminate].
  - unfold float_repr. apply str_app_nonempty_r. case_bool;
      repeat (first [discriminate | apply str_app_nonempty_r]).
  - intros ->. discriminate.
  - unfold delta_str. do 2 apply str_app_nonempty_r. discriminate.
Qed.

(** [str(n)] is a non-empty, hence truthy, string. *)
Lemma truthy_z_str n : (0 <= n)%Z -> truthy (PStr (z_str n)) = true.
Proof.
  intros Hn. destruct (z_str_nonneg n Hn) as (u & -> & _ & Hne).
  simpl. by destruct (NilEmpty.string_of_uint u).
Qed.

(** [str(n).isdigit()] for [n >= 0]. *)
Lemma isdigit_z_str n : (0 <= n)%Z -> py_isdigit (z_str n) = true.
Proof.
  intros Hn. destruct (z_str_nonneg n Hn) as (u & -> & _ & Hne).
  pose proof (all_chars_decimal_digit _ (all_decimal_string_of_uint u)) as H.
  unfold py_isdigit. destruct (NilEmpty.string_of_uint u); [done|exact H].
Qed.

Lemma uint_of_string_decimal s u :
  NilEmpty.uint_of_string s = Some u -> all_chars is_decimal_char s = true.
Proof.
  revert u. induction s as [|a s IH]; intros u; simpl; [done|].
  destruct (NilEmpty.uint_of_string s) as [v|] eqn:E; [|done].
  intros H. apply DecimalString.uint_of_char_spec in H.
  rewrite (IH v eq_refl), andb_true_r.
  intuition (subst; reflexivity).
Qed.

(** [int(s)] of a digit string that holds a non-decimal digit, within
    the limit, raises. *)
Lemma int_of_digit_string_non_decimal s :
  all_chars is_decimal_char s = false -> (decimal_prefix_len s <= int_max_str_digits)%nat ->
  int_of_digit_string s = Err (ValueError (int_literal_msg s)).
Proof.
  intros Hs Hl. unfold int_of_digit_string.
  destruct (Nat.ltb_spec int_max_str_digits (decimal_prefix_len s)); [lia|].
  destruct s as [|a s0]; [discriminate Hs|].
  destruct (NilEmpty.uint_of_string (String a s0)) as [u|] eqn:E; [|done].
  by rewrite (uint_of_string_decimal _ u E) in Hs.
Qed.

(** [int(s)] of more digits than the limit raises, whatever follows. *)
Lemma int_of_digit_string_limit s :
  (int_max_str_digits < decimal_prefix_len s)%nat ->
  int_of_digit_string s = Err (ValueError (int_limit_msg (decimal_prefix_len s))).
Proof. intros Hl. unfold int_of_digit_string. by destruct (Nat.ltb_spec int_max_str_digits (decimal_prefix_len s)); [|lia]. Qed.

Lemma int_of_digit_string_nonneg s n : int_of_digit_string s = Ok n -> (0 <= n)%Z.
Proof.
  unfold int_of_digit_string. destruct (int_max_str_digits <? decimal_prefix_len s)%nat; [discriminate|].
  destruct s; [discriminate|].
  destruct (NilEmpty.uint_of_string _); intros H; [|discriminate].
  injection H as <-. unfold Z.of_uint. lia.
Qed.

Lemma all_chars_app p s1 s2 : all_chars p (s1 +:+ s2) = all_chars p s1 && all_chars p s2.
Proof. induction s1 as [|c s1 IH]; simpl; [done|]. by rewrite IH, andb_assoc. Qed.

(** [repr(float)] always holds a ['.'] or an ['e']: it is never a digit
    string. *)
Lemma all_digit_float_repr f : all_chars is_digit_char (float_repr f) = false.
Proof.
  unfold float_repr. rewrite all_chars_app. case_bool; rewrite ?all_chars_app;
    cbn -[z_str zeros String.substring andb]; rewrite ?andb_false_r, ?andb_false_l; reflexivity.
Qed.

Lemma isdigit_float_repr f : py_isdigit (float_repr f) = false.
Proof. pose proof (all_digit_float_repr f) as H. unfold py_isdigit. by destruct (float_repr f). Qed.

(** A date prints with dashes, so it is never a digit string. *)
Lemma isdigit_date_iso d : py_isdigit (date_iso d) = false.
Proof.
  unfold py_isdigit.
  assert (all_chars is_digit_char (date_iso d) = false) as H.
  { unfold date_iso. rewrite all_chars_app. autorewrite with oc_rw.
    cbn [all_chars]. by rewrite !andb_false_r. }
  by destruct (date_iso d).
Qed.

(** A negative number prints with a leading minus sign. *)
Lemma isdigit_z_str_neg n : (n < 0)%Z -> py_isdigit (z_str n) = false.
Proof. intros Hn. destruct n; try lia. reflexivity. Qed.

(** ** Lemmas: dates *)

Lemma digits4 y : (0 <= y < 10000)%Z ->
  (1000 * (y / 10 / 10 / 10 mod 10) + 100 * (y / 10 / 10 mod 10) +
   10 * (y / 10 mod 10) + y mod 10)%Z = y.
Proof.
  intros H.
  assert (y / 10 / 10 / 10 < 10)%Z
    by (rewrite !Z.div_div by lia; apply Z.div_lt_upper_bound; lia).
  assert (0 <= y / 10 / 10 / 10)%Z
    by (apply Z.div_pos; [apply Z.div_pos; [apply Z.div_pos|]|]; lia).
  rewrite (Z.mod_small (y / 10 / 10 / 10)) by lia.
  pose proof (Z.div_mod y 10). pose proof (Z.div_mod (y / 10) 10).
  pose proof (Z.div_mod (y / 10 / 10) 10). lia.
Qed.

Lemma digits2 m : (0 <= m < 100)%Z -> (10 * (m / 10 mod 10) + m mod 10)%Z = m.
Proof.
  intros H.
  assert (0 <= m / 10 < 10)%Z by (split; [apply Z.div_pos|apply Z.div_lt_upper_bound]; lia).
  rewrite (Z.mod_small (m / 10)) by lia. pose proof (Z.div_mod m 10). lia.
Qed.

Lemma days_in_month_le y m : (days_in_month y m <= 31)%Z.
Proof. unfold days_in_month. repeat case_match; lia. Qed.

Lemma mk_date_valid y m d :
  valid_date (mkDate y m d) = true -> mk_date y m d = Ok (mkDate y m d).
Proof.
  unfold valid_date, mk_date; simpl. intros H.
  repeat rewrite andb_true_iff in H. rewrite !Z.leb_le in H.
  destruct H as [[[[[H1 H2] H3] H4] H5] H6].
  rewrite (proj2 (Z.leb_le 1 y) H1), (proj2 (Z.leb_le y 9999) H2),
          (proj2 (Z.leb_le 1 m) H3), (proj2 (Z.leb_le m 12) H4),
          (proj2 (Z.leb_le 1 d) H5), (proj2 (Z.leb_le d _) H6).
  reflexivity.
Qed.

(** [parse_date(d.isoformat()) == d]: Django's parser reads back the ISO
    text of every date. *)
Lemma parse_date_iso d : valid_date d = true -> parse_date (date_iso d) = Ok (Some d).
Proof.
  destruct d as [y m dd]. intros Hv. pose proof Hv as Hv'.
  unfold valid_date in Hv'; simpl in Hv'.
  repeat rewrite andb_true_iff in Hv'. rewrite !Z.leb_le in Hv'.
  unfold date_iso, fixed_digits; cbn [year month day]. autorewrite with oc_rw.
  unfold parse_date. rewrite !digit_val_digit_char by auto with oc.
  cbn [Ascii.eqb Bool.eqb]. unfold match_month.
  rewrite digit_val_digit_char, digit_char_not by (auto with oc; compute; lia).
  rewrite digit_val_digit_char by auto with oc. cbn [Ascii.eqb Bool.eqb].
  unfold match_day. rewrite digit_val_digit_char by auto with oc.
  unfold at_end. rewrite digit_char_not by (auto with oc; compute; lia).
  rewrite digit_val_digit_char by auto with oc.
  pose proof (days_in_month_le y m).
  rewrite digits4, (digits2 m), (digits2 dd) by lia.
  rewrite mk_date_valid by exact Hv. reflexivity.
Qed.
