(* ===== verification/Model.v ===== *)
(** * The data model: users, application records and the record store

    The views of src/backend/core/views.py read and write the table of
    [OpenCourtApplication] rows through Django's ORM and test the fields of
    [request.user].  This file holds the records, the enumerations the code
    compares against, the store (the table and its id sequence) with the ORM
    operations the views call ([filter], [get], [update_or_create], [save]),
    and the HTTP responses.  The ORM's behaviour is that of Django 3.2 on
    SQLite, the project's default database. *)

From S2P Require Import Prelude PyValue.
From stdpp Require Import gmap.
Open Scope string_scope.

(** ** Enumerations *)

(** [OpenCourtApplication.status]: the values [update_status] accepts. *)
Module Status.
Inductive t := PENDING | HEARD | REFERRED | CLOSED.

#[global] Instance eq_dec : EqDecision t.
Proof. solve_decision. Defined.

Definition to_string (s : t) : string :=
  match s with
  | PENDING => "PENDING" | HEARD => "HEARD"
  | REFERRED => "REFERRED" | CLOSED => "CLOSED"
  end.

(** [new_status in ['PENDING', 'HEARD', 'REFERRED', 'CLOSED']] *)
Definition of_string (s : string) : option t :=
  if String.eqb s "PENDING" then Some PENDING
  else if String.eqb s "HEARD" then Some HEARD
  else if String.eqb s "REFERRED" then Some REFERRED
  else if String.eqb s "CLOSED" then Some CLOSED
  else None.
End Status.

(** [OpenCourtApplication.feedback]. *)
Module Feedback.
Inductive t := PENDING | POSITIVE | NEGATIVE.

#[global] Instance eq_dec : EqDecision t.
Proof. solve_decision. Defined.

Definition to_string (f : t) : string :=
  match f with
  | PENDING => "PENDING" | POSITIVE => "POSITIVE" | NEGATIVE => "NEGATIVE"
  end.
End Feedback.

(** [User.role]. *)
Inductive role := STAFF | ADMIN.

#[export] Instance role_eq_dec : EqDecision role.
Proof. solve_decision. Defined.

(** ** Records *)

(** [request.user]: the fields the views read; a null [police_station] is
    the empty string (both are false for [if user.police_station]). *)
Record user := mkUser {
  user_id : Z;
  username : string;
  user_role : role;
  user_station : string
}.

(** A row of the [OpenCourtApplication] table.  Text columns hold what
    [CharField] stores ([str()] of the value saved), [dairy_ps] may be NULL,
    [created_by] is the id of a user or NULL. *)
Record application := mkApplication {
  app_id : Z;
  sr_no : string;
  dairy_no : string;
  name : string;
  contact : string;
  marked_to : string;
  app_date : option date;
  marked_by : string;
  timeline : string;
  police_station : string;
  division : string;
  category : string;
  status : Status.t;
  days : option Z;
  feedback : Feedback.t;
  remarks : string;
  dairy_ps : option string;
  created_by : option Z
}.

(** The [application_data] dictionary [upload_excel] passes as [defaults]
    to [update_or_create]: the Python values before the ORM stores them. *)
Record payload := mkPayload {
  p_dairy_no : pyval;
  p_name : pyval;
  p_contact : pyval;
  p_marked_to : pyval;
  p_date : pyval;
  p_marked_by : pyval;
  p_timeline : pyval;
  p_police_station : pyval;
  p_division : pyval;
  p_category : pyval;
  p_status : Status.t;
  p_days : option Z;
  p_feedback : Feedback.t;
  p_dairy_ps : pyval
}.

(** The same fields as the table stores them. *)
Record fields := mkFields {
  f_dairy_no : string;
  f_name : string;
  f_contact : string;
  f_marked_to : string;
  f_date : option date;
  f_marked_by : string;
  f_timeline : string;
  f_police_station : string;
  f_division : string;
  f_category : string;
  f_status : Status.t;
  f_days : option Z;
  f_feedback : Feedback.t;
  f_dairy_ps : option string
}.

(** ** HTTP responses *)

Inductive response (A : Type) :=
| Response200 (body : A)
| Response201 (body : A)
| Response204
| Response400 (error : string)
| Response401 (error : string)
| Response404.
Arguments Response200 {A} body.
Arguments Response201 {A} body.
Arguments Response204 {A}.
Arguments Response400 {A} error.
Arguments Response401 {A} error.
Arguments Response404 {A}.

(** ** The store

    The table of applications, in insertion order, and the next value of the
    table's id sequence. *)
Record db := mkDb { rows : list application; next_id : Z }.

Module Store.

(** [OpenCourtApplication.objects.filter(sr_no=k)] *)
Definition find_by_sr (d : db) (k : string) : list application :=
  List.filter (fun r => String.eqb (sr_no r) k) (rows d).

(** [OpenCourtApplication.objects.get(pk=i)], [None] for [DoesNotExist]. *)
Definition lookup_id (d : db) (i : Z) : option application :=
  List.find (fun r => (app_id r =? i)%Z) (rows d).

(** [instance.save()] of an instance already in the table: an UPDATE of
    the row with its primary key. *)
Definition save (d : db) (r : application) : db :=
  mkDb (map (fun x => if (app_id x =? app_id r)%Z then r else x) (rows d))
       (next_id d).

(** [CharField]: a non-null value is stored as [str(value)]. *)
Definition orm_char (v : pyval) : string := py_str v.

(** A nullable [CharField]: [None] is stored as NULL. *)
Definition orm_nullable_char (v : pyval) : option string :=
  match v with PNone => None | _ => Some (py_str v) end.

(** [DateField.get_prep_value]: a date is kept, a datetime loses its time,
    text is re-parsed with [parse_date]; anything else makes [parse_date]
    raise [TypeError].  Django quotes the value in its messages with the
    curly quotes U+201C and U+201D, which Latin-1 strings cannot hold, so
    the text branch writes the value unquoted; no caller of the model
    reaches that branch (the import parses text itself, line 201). *)
Definition orm_date (v : pyval) : result py_exc (option date) :=
  match v with
  | PNone => Ok None
  | PDate d | PDateTime d _ => Ok (Some d)
  | PStr s =>
      match parse_date s with
      | Ok (Some d) => Ok (Some d)
      | Ok None => Err (ValidationError (s +:+ " value has an invalid date format. It must be in YYYY-MM-DD format."))
      | Err _ => Err (ValidationError (s +:+ " value has the correct format (YYYY-MM-DD) but it is an invalid date."))
      end
  | PBool _ | PInt _ | PFloat _ | PTime _ | PDelta _ => Err (TypeError "expected string or bytes-like object")
  end.

(** SQLite's INTEGER is a signed 64-bit integer; the [sqlite3] driver
    refuses to bind a Python int outside that range. *)
Definition sqlite_int_min : Z := (- 2 ^ 63)%Z.
Definition sqlite_int_max : Z := (2 ^ 63 - 1)%Z.

Definition orm_int (o : option Z) : result py_exc (option Z) :=
  match o with
  | None => Ok None
  | Some n =>
      if ((sqlite_int_min <=? n) && (n <=? sqlite_int_max))%Z then Ok (Some n)
      else Err (OverflowError "Python int too large to convert to SQLite INTEGER")
  end.

(** The values an INSERT or UPDATE of the [defaults] writes: the date
    column is prepared first, the integer is bound when the statement
    runs. *)
Definition coerce (p : payload) : result py_exc fields :=
  dt <- orm_date (p_date p) ;;
  dy <- orm_int (p_days p) ;;
  Ok (mkFields (orm_char (p_dairy_no p)) (orm_char (p_name p))
               (orm_char (p_contact p)) (orm_char (p_marked_to p)) dt
               (orm_char (p_marked_by p)) (orm_char (p_timeline p))
               (orm_char (p_police_station p)) (orm_char (p_division p))
               (orm_char (p_category p)) (p_status p) dy (p_feedback p)
               (orm_nullable_char (p_dairy_ps p))).

(** [OpenCourtApplication(sr_no=k, **defaults)] with the next id; the
    fields outside [defaults] keep the model's defaults (empty remarks,
    no creator). *)
Definition new_application (i : Z) (k : string) (f : fields) : application :=
  mkApplication i k (f_dairy_no f) (f_name f) (f_contact f) (f_marked_to f)
    (f_date f) (f_marked_by f) (f_timeline f) (f_police_station f)
    (f_division f) (f_category f) (f_status f) (f_days f) (f_feedback f)
    "" (f_dairy_ps f) None.

(** [setattr(obj, k, v)] for every [(k, v)] of [defaults]. *)
Definition apply_fields (r : application) (f : fields) : application :=
  mkApplication (app_id r) (sr_no r) (f_dairy_no f) (f_name f) (f_contact f)
    (f_marked_to f) (f_date f) (f_marked_by f) (f_timeline f)
    (f_police_station f) (f_division f) (f_category f) (f_status f)
    (f_days f) (f_feedback f) (remarks r) (f_dairy_ps f) (created_by r).

(** [QuerySet.update_or_create(sr_no=k, defaults=p)]: [get(sr_no=k)];
    on [DoesNotExist] an INSERT, on one match an UPDATE of the defaults,
    on several matches [MultipleObjectsReturned]. *)
Definition update_or_create (d : db) (k : string) (p : payload)
    : result py_exc (application * bool * db) :=
  match find_by_sr d k with
  | [] =>
      f <- coerce p ;;
      let r := new_application (next_id d) k f in
      Ok (r, true, mkDb (rows d ++ [r]) (next_id d + 1)%Z)
  | [x] =>
      f <- coerce p ;;
      let r := apply_fields x f in
      Ok (r, false, save d r)
  | xs => Err (MultipleObjectsReturned (length xs))
  end.

(** ** Well-formedness of the table

    Primary keys are distinct and below the sequence's next value. *)
Definition wf (d : db) : Prop :=
  NoDup (map app_id (rows d)) /\ Forall (fun r => (app_id r < next_id d)%Z) (rows d).

(** The serial number identifies a record (spec section 3). *)
Definition sr_unique (d : db) : Prop := NoDup (map sr_no (rows d)).

(** The invariant of the table the operations keep. *)
Definition inv (d : db) : Prop := wf d /\ sr_unique d.

(** The invariant is decidable, so it is checked by evaluation on a
    concrete table. *)
#[global] Instance inv_dec d : Decision (inv d).
Proof. unfold inv, wf, sr_unique. apply _. Defined.

(** The stored days values: non-negative (spec section 3) and within
    SQLite's INTEGER. *)
Definition days_in_range (d : db) : Prop :=
  Forall (fun r => match days r with
                   | Some n => (0 <= n <= sqlite_int_max)%Z
                   | None => True
                   end) (rows d).

#[global] Instance days_in_range_dec d : Decision (days_in_range d).
Proof.
  unfold days_in_range. apply Forall_dec. intros r. destruct (days r); apply _.
Defined.

(** A row conforms to the model's column types beyond what its Rocq type
    says: [sr_no] is a non-blank [CharField], and [created_by] is NULL or
    the id of a user of the user table [uids] (foreign-key integrity). *)
Definition row_typed (uids : list Z) (r : application) : Prop :=
  sr_no r <> "" /\ match created_by r with None => True | Some i => i ∈ uids end.

Definition rows_typed (uids : list Z) (d : db) : Prop := Forall (row_typed uids) (rows d).

#[global] Instance rows_typed_dec uids d : Decision (rows_typed uids d).
Proof.
  unfold rows_typed. apply Forall_dec. intros r. unfold row_typed. destruct (created_by r); apply _.
Defined.
End Store.

(** ** Lemmas on the store *)

Section NoDupMap.
Context {A B : Type}.

(** A projection without duplicates identifies the elements of a list. *)
Lemma nodup_map_inj_in (f : A -> B) (l : list A) x y :
  NoDup (map f l) -> In x l -> In y l -> f x = f y -> x = y.
Proof.
  induction l as [|z l IH]; simpl; [tauto|].
  intros Hnd Hx Hy Hf. apply NoDup_cons in Hnd as [Hz Hnd].
  destruct Hx as [<-|Hx], Hy as [<-|Hy]; auto.
  - exfalso. apply Hz. rewrite Hf. apply list_elem_of_In, in_map, Hy.
  - exfalso. apply Hz. rewrite <- Hf. apply list_elem_of_In, in_map, Hx.
Qed.
End NoDupMap.

Module StoreFacts.
Import Store.

Lemma save_map_eq {B} (g : application -> B) d x r :
  wf d -> In x (rows d) -> app_id r = app_id x -> g r = g x ->
  map g (rows (save d r)) = map g (rows d).
Proof.
  intros [Hnd _] Hx Hid Hg. unfold save; simpl. rewrite map_map.
  apply map_ext_in. intros y Hy.
  destruct (Z.eqb_spec (app_id y) (app_id r)) as [E|E]; [|done].
  rewrite (nodup_map_inj_in app_id (rows d) y x); auto; congruence.
Qed.

Lemma save_length d r : length (rows (save d r)) = length (rows d).
Proof. unfold save; simpl. apply length_map. Qed.

Lemma in_find_by_sr d k x : In x (find_by_sr d k) <-> In x (rows d) /\ sr_no x = k.
Proof.
  unfold find_by_sr. rewrite filter_In. by rewrite String.eqb_eq.
Qed.

Lemma find_by_sr_nil d k : find_by_sr d k = [] <-> ~ In k (map sr_no (rows d)).
Proof.
  split.
  - intros H Hk. apply in_map_iff in Hk as (x & <- & Hx).
    assert (In x (find_by_sr d (sr_no x))) as Hin by (by apply in_find_by_sr).
    rewrite H in Hin. done.
  - intros H. destruct (find_by_sr d k) as [|x xs] eqn:E; [done|].
    exfalso. assert (In x (find_by_sr d k)) as Hin by (rewrite E; left; done).
    apply in_find_by_sr in Hin as [Hx <-]. apply H, in_map, Hx.
Qed.

(** Under [sr_unique], [filter(sr_no=k)] has at most one row. *)
Lemma find_by_sr_unique d k :
  sr_unique d -> length (find_by_sr d k) <= 1.
Proof.
  unfold sr_unique, find_by_sr. generalize (rows d) as l.
  induction l as [|x l IH]; simpl; [lia|]. intros Hnd.
  apply NoDup_cons in Hnd as [Hx Hnd].
  destruct (String.eqb_spec (sr_no x) k) as [<-|]; simpl; [|auto].
  enough (List.filter (fun r => String.eqb (sr_no r) (sr_no x)) l = []) as -> by done.
  apply (find_by_sr_nil (mkDb l 0)). simpl. intros Hin. apply Hx.
  by apply list_elem_of_In.
Qed.

Lemma save_wf d x r :
  wf d -> In x (rows d) -> app_id r = app_id x -> wf (save d r).
Proof.
  intros Hwf Hx Hi. split.
  - rewrite (save_map_eq app_id d x); [apply Hwf|..]; auto.
  - destruct Hwf as [_ Hlt]. unfold save; simpl. apply Forall_map.
    rewrite Forall_forall in *. intros y Hy.
    destruct (Z.eqb_spec (app_id y) (app_id r)) as [E|E]; auto.
    rewrite Hi. rewrite <- Hi, <- E. auto.
Qed.

Lemma save_sr_unique d x r :
  wf d -> sr_unique d -> In x (rows d) -> app_id r = app_id x -> sr_no r = sr_no x ->
  sr_unique (save d r).
Proof.
  intros Hwf Hu Hx Hi Hs. unfold sr_unique. by rewrite (save_map_eq sr_no d x).
Qed.

Lemma in_save_inv d r r' :
  In r' (rows (save d r)) -> r' = r \/ (In r' (rows d) /\ app_id r' <> app_id r).
Proof.
  unfold save; simpl. intros (y & <- & Hy)%in_map_iff.
  destruct (Z.eqb_spec (app_id y) (app_id r)); auto.
Qed.

Lemma in_save d x r :
  In x (rows d) -> app_id r = app_id x -> In r (rows (save d r)).
Proof.
  intros Hx Hi. unfold save; simpl. apply in_map_iff. exists x.
  by rewrite Hi, Z.eqb_refl.
Qed.

Lemma find_by_sr_single d r :
  sr_unique d -> In r (rows d) -> find_by_sr d (sr_no r) = [r].
Proof.
  intros Hu Hr. pose proof (find_by_sr_unique d (sr_no r) Hu) as Hlen.
  assert (In r (find_by_sr d (sr_no r))) as Hin by (by apply in_find_by_sr).
  destruct (find_by_sr d (sr_no r)) as [|x [|y xs]]; simpl in *; [done| |lia].
  destruct Hin as [->|[]]. done.
Qed.

Lemma lookup_id_some d i r : lookup_id d i = Some r -> In r (rows d) /\ app_id r = i.
Proof.
  unfold lookup_id. intros H. apply find_some in H as [Hin Hi].
  split; [done|]. by apply Z.eqb_eq.
Qed.

Lemma lookup_id_in d x : wf d -> In x (rows d) -> lookup_id d (app_id x) = Some x.
Proof.
  intros [Hnd _] Hx. unfold lookup_id.
  destruct (List.find (fun r => (app_id r =? app_id x)%Z) (rows d)) as [y|] eqn:E.
  - apply find_some in E as [Hy Hid]. apply Z.eqb_eq in Hid.
    f_equal. by apply (nodup_map_inj_in app_id (rows d)).
  - exfalso. apply (find_none _ _ E) in Hx. by rewrite Z.eqb_refl in Hx.
Qed.

(** Reading a key after saving a row with that key. *)
Lemma lookup_id_save d x r i :
  wf d -> In x (rows d) -> app_id r = app_id x ->
  lookup_id (save d r) i = if (i =? app_id r)%Z then Some r else lookup_id d i.
Proof.
  intros Hwf Hx Hid. destruct (Z.eqb_spec i (app_id r)) as [->|Hne].
  - apply lookup_id_in; [by apply (save_wf d x)|by apply (in_save d x)].
  - unfold lookup_id, save; simpl. clear -Hne.
    induction (rows d) as [|y l IH]; [done|]. simpl.
    destruct (Z.eqb_spec (app_id y) (app_id r)) as [E|E]; simpl.
    + replace (app_id r =? i)%Z with false by (symmetry; apply Z.eqb_neq; lia).
      replace (app_id y =? i)%Z with false by (symmetry; apply Z.eqb_neq; lia). apply IH.
    + destruct (app_id y =? i)%Z; [done|apply IH].
Qed.

(** Saving a row under the key and serial number of an existing row
    keeps the invariant. *)
Lemma save_inv d x r :
  inv d -> In x (rows d) -> app_id r = app_id x -> sr_no r = sr_no x -> inv (save d r).
Proof.
  intros [Hwf Hu] Hx Hi Hs. split; [by apply (save_wf d x)|by apply (save_sr_unique d x)].
Qed.

(** Saving a new version of an existing row: it is read back under its
    key, the other keys read as before, and the invariant holds. *)
Lemma save_existing d x r :
  inv d -> In x (rows d) -> app_id r = app_id x -> sr_no r = sr_no x ->
  lookup_id (save d r) (app_id x) = Some r /\
  (forall i, i <> app_id x -> lookup_id (save d r) i = lookup_id d i) /\
  inv (save d r).
Proof.
  intros Hinv Hx Hi Hs. pose proof (proj1 Hinv) as Hwf.
  split; [|split; [|by apply (save_inv d x)]].
  - rewrite (lookup_id_save d x r) by done. by rewrite Hi, Z.eqb_refl.
  - intros i Hne. rewrite (lookup_id_save d x r) by done.
    destruct (Z.eqb_spec i (app_id r)); [lia|done].
Qed.

Lemma coerce_days p f :
  coerce p = Ok f -> f_days f = p_days p /\
  (forall n, p_days p = Some n -> (n <= sqlite_int_max)%Z).
Proof.
  unfold coerce, orm_int. intros H. res_inv.
  destruct (p_days p) as [n|]; simpl in *; [|by simplify_eq].
  destruct ((sqlite_int_min <=? n) && (n <=? sqlite_int_max))%Z eqn:E; simplify_eq.
  split; [done|]. intros m [= <-]. apply andb_true_iff in E as [_ E]. lia.
Qed.

Lemma coerce_status p f : coerce p = Ok f -> f_status f = p_status p /\ f_feedback f = p_feedback p.
Proof. unfold coerce. intros H. res_inv. done. Qed.

(** The outcome of [update_or_create] as a table change: an INSERT
    appends a fresh row with key [k]; an UPDATE rewrites the one row with
    key [k] in place. *)
Lemma update_or_create_cases d k p r c d' :
  update_or_create d k p = Ok (r, c, d') ->
  exists f, coerce p = Ok f /\
  ((c = true /\ find_by_sr d k = [] /\ r = new_application (next_id d) k f /\
    d' = mkDb (rows d ++ [r]) (next_id d + 1)%Z) \/
   (c = false /\ exists x, find_by_sr d k = [x] /\ r = apply_fields x f /\
    d' = save d r)).
Proof.
  unfold update_or_create. destruct (find_by_sr d k) as [|x [|y xs]] eqn:E;
    intros H; try discriminate;
    destruct (coerce p) as [f|e] eqn:Hc; simpl in H; inversion H; subst; eauto 10.
Qed.

Lemma update_or_create_wf d k p r c d' :
  wf d -> update_or_create d k p = Ok (r, c, d') -> wf d'.
Proof.
  intros Hwf H. apply update_or_create_cases in H as (f & _ & [(-> & _ & -> & ->)|(-> & x & Hx & -> & ->)]).
  - destruct Hwf as [Hnd Hlt]. split; simpl.
    + rewrite map_app. apply NoDup_app. repeat split; [done| |by apply NoDup_singleton].
      intros i Hi Hi'. apply list_elem_of_singleton in Hi' as ->.
      apply list_elem_of_In, in_map_iff in Hi as (y & Hy & Hin).
      rewrite Forall_forall in Hlt. specialize (Hlt y (proj2 (list_elem_of_In _ _) Hin)). simpl in *. lia.
    + apply Forall_app. split; [|constructor; simpl; [lia|constructor]].
      eapply Forall_impl; [exact Hlt|]. simpl. intros; lia.
  - apply (save_wf d x); [done| |done].
    apply (in_find_by_sr d k). rewrite Hx. left. done.
Qed.

(** The keys after [update_or_create]: one more key [k] for an INSERT,
    the same keys for an UPDATE. *)
Lemma update_or_create_keys d k p r c d' :
  wf d -> update_or_create d k p = Ok (r, c, d') ->
  map sr_no (rows d') = (map sr_no (rows d) ++ (if c then [k] else []))%list /\
  In k (map sr_no (rows d')).
Proof.
  intros Hwf H. apply update_or_create_cases in H as (f & _ & [(-> & _ & -> & ->)|(-> & x & Hx & -> & ->)]).
  - simpl. rewrite map_app. split; [done|]. apply in_app_iff. right. left. done.
  - assert (In x (rows d) /\ sr_no x = k) as [Hin <-] by (apply in_find_by_sr; rewrite Hx; left; done).
    rewrite app_nil_r. rewrite (save_map_eq sr_no d x); auto.
    split; [done|]. by apply in_map.
Qed.

(** [days_in_range] through membership: a table whose rows are rows of
    a table in range, or rows with an admissible days value, is in range. *)
Lemma days_in_range_sub d d' :
  days_in_range d ->
  (forall y, In y (rows d') -> In y (rows d) \/
     match days y with Some n => (0 <= n <= sqlite_int_max)%Z | None => True end) ->
  days_in_range d'.
Proof. apply Forall_sub. Qed.

Lemma rows_typed_sub uids d d' :
  rows_typed uids d -> (forall y, In y (rows d') -> In y (rows d) \/ row_typed uids y) ->
  rows_typed uids d'.
Proof. apply Forall_sub. Qed.

Lemma update_or_create_sr_unique d k p r c d' :
  wf d -> sr_unique d -> update_or_create d k p = Ok (r, c, d') -> sr_unique d'.
Proof.
  intros Hwf Hu H. pose proof (update_or_create_keys _ _ _ _ _ _ Hwf H) as [Hk _].
  unfold sr_unique. rewrite Hk. destruct c; [|by rewrite app_nil_r].
  apply update_or_create_cases in H as (f & _ & [(_ & Hnil & _)|(? & _)]); [|done].
  apply NoDup_app. repeat split; [done| |by apply NoDup_singleton].
  intros i Hi Hi'. apply list_elem_of_singleton in Hi' as ->.
  apply (proj1 (find_by_sr_nil d k) Hnil). by apply list_elem_of_In.
Qed.
End StoreFacts.

(** ** The table as a map from serial numbers

    The abstraction under which the table is the dictionary the import
    promises: serial number to the fields the import writes. *)
Module StoreView.
Import Store StoreFacts.

Definition fields_of (r : application) : fields :=
  mkFields (dairy_no r) (name r) (contact r) (marked_to r) (app_date r)
    (marked_by r) (timeline r) (police_station r) (division r) (category r)
    (status r) (days r) (feedback r) (dairy_ps r).

Definition kv (r : application) : string * fields := (sr_no r, fields_of r).

Definition view (d : db) : gmap string fields := list_to_map (map kv (rows d)).

Lemma fields_of_new i k f : fields_of (new_application i k f) = f.
Proof. by destruct f. Qed.

Lemma fields_of_apply r f : fields_of (apply_fields r f) = f.
Proof. by destruct f. Qed.

Lemma keys_kv l : (map kv l).*1 = map sr_no l.
Proof. rewrite <- list_fmap_compose. reflexivity. Qed.

Lemma view_snoc d r i :
  ~ In (sr_no r) (map sr_no (rows d)) ->
  view (mkDb (rows d ++ [r]) i) = <[sr_no r := fields_of r]> (view d).
Proof.
  intros Hk. unfold view; simpl. rewrite map_app. simpl.
  apply list_to_map_snoc. rewrite keys_kv. by rewrite list_elem_of_In.
Qed.

Lemma list_to_map_kv_cons y l :
  list_to_map (kv y :: l) =@{gmap string fields} <[sr_no y := fields_of y]> (list_to_map l).
Proof. reflexivity. Qed.

Lemma list_to_map_replace (l : list application) x r :
  NoDup (map app_id l) -> NoDup (map sr_no l) -> In x l ->
  app_id r = app_id x -> sr_no r = sr_no x ->
  list_to_map (map kv (map (fun y => if (app_id y =? app_id r)%Z then r else y) l))
    =@{gmap string fields} <[sr_no x := fields_of r]> (list_to_map (map kv l)).
Proof.
  intros Hid Hsr Hx Hi Hs. induction l as [|y l IH]; [done|].
  apply NoDup_cons in Hid as [Hyid Hid], Hsr as [Hysr Hsr]. simpl in Hx.
  cbn [map]. rewrite !list_to_map_kv_cons.
  destruct Hx as [<-|Hx].
  - rewrite Hi, Z.eqb_refl, Hs, insert_insert_eq.
    f_equal. f_equal. rewrite <- (map_id l) at 2. f_equal. apply map_ext_in.
    intros z Hz. destruct (Z.eqb_spec (app_id z) (app_id y)) as [e|]; [|done].
    exfalso. apply Hyid. rewrite <- e. apply list_elem_of_In, in_map, Hz.
  - destruct (Z.eqb_spec (app_id y) (app_id r)) as [E|E].
    { exfalso. apply Hyid. rewrite E, Hi. apply list_elem_of_In, in_map, Hx. }
    rewrite IH by done. apply insert_insert_ne.
    intros Hyx. apply Hysr. rewrite Hyx. apply list_elem_of_In, in_map, Hx.
Qed.

Lemma view_save d x r :
  wf d -> sr_unique d -> In x (rows d) -> app_id r = app_id x -> sr_no r = sr_no x ->
  view (save d r) = <[sr_no x := fields_of r]> (view d).
Proof.
  intros [Hid _] Hsr Hx Hi Hs. unfold view, save; simpl.
  by apply list_to_map_replace.
Qed.

End StoreView.

