(* ===== verification/ExcelImport.v ===== *)
(** * The spreadsheet import: [upload_excel]

    [upload_excel] (src/backend/core/views.py, lines 162-256) checks the
    uploaded file, opens its active sheet and, for every row after the
    header, builds the [application_data] dictionary from fixed columns and
    upserts it by serial number.  A row that raises is reported as
    ["Row <n>: <str(e)>"] and the loop goes on.  This file models the row
    body, the loop and the view, and proves the invariants of the table, the
    bookkeeping of the counters, the refinement of the loop by a
    last-write-wins map, the normalisation of the date and days cells
    ([CellFacts]), the column contract and the exceptions a row can raise
    ([ColumnFacts]), and applies the theorems to concrete uploads
    ([UploadExamples]). *)

From S2P Require Import Prelude PyValue Model.
From stdpp Require Import gmap.
From Stdlib Require Import Ascii.
Open Scope string_scope.

Module Upload.
Import Store.

(** ** The row body (lines 190-240) *)

(** [row[i]]: a tuple index out of range raises [IndexError]. *)
Definition row_get (row : list pyval) (i : nat) : result py_exc pyval :=
  match nth_error row i with
  | Some v => Ok v
  | None => Err IndexError
  end.

(** Lines 197-201: a datetime loses its time, text goes through
    [parse_date] (which may raise), anything else is kept. *)
Definition normalize_date (v : pyval) : result py_exc pyval :=
  match v with
  | PDateTime d _ => Ok (PDate d)
  | PStr s =>
      o <- parse_date s ;;
      Ok (match o with Some d => PDate d | None => PNone end)
  | _ => Ok v
  end.

(** Lines 204-208: [int(days_value)] when [days_value] is truthy and
    [str(days_value).isdigit()], else [None]. *)
Definition normalize_days (v : pyval) : result py_exc (option Z) :=
  if truthy v && py_isdigit (py_str v) then
    n <- py_int v ;; Ok (Some n)
  else Ok None.

(** Lines 191-225: the serial number and the [application_data]
    dictionary of a row, or [None] for a row skipped by
    [if not sr_no: continue]. *)
Definition row_payload (row : list pyval) : result py_exc (option (pyval * payload)) :=
  sr <- row_get row 0 ;;
  if negb (truthy sr) then Ok None else
  date_raw <- row_get row 5 ;;
  date_value <- normalize_date date_raw ;;
  days_raw <- row_get row 12 ;;
  days_value <- normalize_days days_raw ;;
  c1 <- row_get row 1 ;;
  c2 <- row_get row 2 ;;
  c3 <- row_get row 3 ;;
  c4 <- row_get row 4 ;;
  c6 <- row_get row 6 ;;
  c7 <- row_get row 7 ;;
  c8 <- row_get row 8 ;;
  c9 <- row_get row 9 ;;
  c10 <- row_get row 10 ;;
  let dps := if (14 <? length row)%nat then nth 14 row PNone else PStr "" in
  Ok (Some (sr, mkPayload (py_or c1 (PStr "")) (py_or c2 (PStr ""))
                (if truthy c3 then PStr (py_str c3) else PStr "")
                (py_or c4 (PStr "")) date_value (py_or c6 (PStr ""))
                (py_or c7 (PStr "")) (py_or c8 (PStr "")) (py_or c9 (PStr ""))
                (py_or c10 (PStr "")) Status.PENDING days_value
                Feedback.PENDING dps)).

(** What a row did. *)
Inductive outcome := Skipped | Created | Updated.

#[export] Instance outcome_eq_dec : EqDecision outcome.
Proof. solve_decision. Defined.

(** [application.created_by = request.user] *)
Definition set_created_by (r : application) (uid : Z) : application :=
  mkApplication (app_id r) (sr_no r) (dairy_no r) (name r) (contact r)
    (marked_to r) (app_date r) (marked_by r) (timeline r) (police_station r)
    (division r) (category r) (status r) (days r) (feedback r) (remarks r)
    (dairy_ps r) (Some uid).

(** Lines 228-240: [update_or_create(sr_no=sr_no, defaults=...)], then,
    for an update only, [created_by = request.user] and [save()]. *)
Definition upsert (u : user) (d : db) (sr : pyval) (p : payload)
    : result py_exc (outcome * db) :=
  res <- update_or_create d (orm_char sr) p ;;
  match res with
  | (app, true, d1) => Ok (Created, d1)
  | (app, false, d1) => Ok (Updated, save d1 (set_created_by app (user_id u)))
  end.

(** The body of the [try] of lines 190-240. *)
Definition process_row (u : user) (d : db) (row : list pyval)
    : result py_exc (outcome * db) :=
  o <- row_payload row ;;
  match o with
  | None => Ok (Skipped, d)
  | Some (sr, p) => upsert u d sr p
  end.

(** ** The loop (lines 184-243) *)

Record counters := mkCounters {
  created_count : nat;
  updated_count : nat;
  errors : list string
}.

Definition no_counters : counters := mkCounters 0 0 [].

(** [errors.append(f"Row {row_num}: {str(e)}")] *)
Definition row_error (row_num : Z) (e : py_exc) : string :=
  "Row " +:+ z_str row_num +:+ ": " +:+ exc_str e.

Definition count (o : outcome) (c : counters) : counters :=
  match o with
  | Skipped => c
  | Created => mkCounters (S (created_count c)) (updated_count c) (errors c)
  | Updated => mkCounters (created_count c) (S (updated_count c)) (errors c)
  end.

(** [for row_num, row in enumerate(..., start=row_num)]: a row that raises
    leaves the table as it was ([update_or_create] runs in a transaction)
    and adds its message. *)
Fixpoint process_rows (u : user) (d : db) (rs : list (list pyval))
    (row_num : Z) (c : counters) : counters * db :=
  match rs with
  | [] => (c, d)
  | row :: rest =>
      match process_row u d row with
      | Ok (o, d') => process_rows u d' rest (row_num + 1) (count o c)
      | Err e =>
          process_rows u d rest (row_num + 1)
            (mkCounters (created_count c) (updated_count c)
                        (errors c ++ [row_error row_num e])%list)
      end
  end.

(** ** The view (lines 162-256) *)

(** The contents of an uploaded file as [openpyxl.load_workbook] sees it:
    the rows of its active sheet, or the message of the exception it
    raises on a file it cannot read. *)
Inductive workbook :=
| Workbook (sheet : list (list pyval))
| Unreadable (msg : string).

Record upload := mkUpload { file_name : string; file_content : workbook }.

(** The JSON body of a successful import. *)
Record import_body := mkImportBody {
  message : string;
  created : nat;
  updated : nat;
  error_list : list string
}.

(** [request.FILES['file']]: a [MultiValueDict] returns the last file
    sent under the key. *)
Definition files_get (files : list (string * upload)) (k : string) : option upload :=
  List.fold_left (fun acc kv => if String.eqb (fst kv) k then Some (snd kv) else acc)
    files None.

(** [excel_file.name.endswith(('.xlsx', '.xls'))] *)
Definition excel_name (s : string) : bool :=
  py_endswith ".xlsx" s || py_endswith ".xls" s.

Definition upload_excel (u : user) (files : list (string * upload)) (d : db)
    : response import_body * db :=
  match files_get files "file" with
  | None => (Response400 "No file provided", d)
  | Some f =>
      if negb (excel_name (file_name f)) then
        (Response400 "File must be Excel format (. xlsx or .xls)", d)
      else
        match file_content f with
        | Unreadable msg => (Response400 ("Error processing file: " +:+ msg), d)
        | Workbook sheet =>
            let '(c, d') := process_rows u d (List.skipn 1 sheet) 2 no_counters in
            (Response200 (mkImportBody "Excel file processed successfully"
                            (created_count c) (updated_count c) (errors c)), d')
        end
  end.
End Upload.

(** ** The meaning of a row, independent of the table *)

Module UploadSpec.
Import Store StoreFacts StoreView Upload.

Definition keys (d : db) : list string := map sr_no (rows d).

(** What a row asks of the table: nothing (skipped), an upsert of fields
    under a key, or the exception its decoding raises. *)
Definition row_decode (row : list pyval) : result py_exc (option (string * fields)) :=
  o <- row_payload row ;;
  match o with
  | None => Ok None
  | Some (sr, p) => f <- coerce p ;; Ok (Some (orm_char sr, f))
  end.

(** The abstract import: a last-write-wins dictionary update per row. *)
Definition spec_row (m : gmap string fields) (row : list pyval) : gmap string fields :=
  match row_decode row with
  | Ok (Some (k, f)) => <[k := f]> m
  | _ => m
  end.

Definition spec_rows (rs : list (list pyval)) (m : gmap string fields) : gmap string fields :=
  List.fold_left spec_row rs m.

(** The rows the import upserts, and the messages of those that raise. *)
Definition row_ok (row : list pyval) : bool :=
  match row_decode row with Ok (Some _) => true | _ => false end.

Fixpoint row_errors (rs : list (list pyval)) (n : Z) : list string :=
  match rs with
  | [] => []
  | row :: rest =>
      match row_decode row with
      | Err e => row_error n e :: row_errors rest (n + 1)
      | Ok _ => row_errors rest (n + 1)
      end
  end.

(** [if not sr_no: continue]: a present, falsy first cell. *)
Definition row_skipped (row : list pyval) : bool :=
  match nth_error row 0 with Some v => negb (truthy v) | None => false end.

Lemma row_payload_None row : row_payload row = Ok None <-> row_skipped row = true.
Proof.
  unfold row_payload, row_skipped. unfold row_get at 1.
  destruct (nth_error row 0) as [v|]; simpl; [|split; discriminate].
  destruct (truthy v); simpl; [|done].
  split; [|discriminate]. intros H. res_inv.
Qed.

Lemma row_decode_skipped row : row_decode row = Ok None <-> row_skipped row = true.
Proof.
  rewrite <- row_payload_None. unfold row_decode.
  destruct (row_payload row) as [[[sr p]|]|e]; simpl; [|done|done].
  destruct (coerce p); simpl; split; discriminate.
Qed.

(** [upsert] cannot meet [MultipleObjectsReturned] on unique serials, so
    its only exception is the one of [coerce]. *)
Lemma upsert_err u d sr p e :
  inv d -> coerce p = Err e -> upsert u d sr p = Err e.
Proof.
  intros [_ Hu] Hc. unfold upsert, update_or_create.
  pose proof (find_by_sr_unique d (orm_char sr) Hu).
  destruct (find_by_sr d (orm_char sr)) as [|x [|y xs]]; simpl in *;
    rewrite ?Hc; simpl; [done|done|lia].
Qed.

Lemma fields_of_set_created_by r uid : fields_of (set_created_by r uid) = fields_of r.
Proof. reflexivity. Qed.

(** An upsert of a key into a table with unique keys: an UPDATE when the
    key is present, an INSERT otherwise; either way the dictionary view
    gains [k := f]. *)
Lemma upsert_spec u d sr p f :
  inv d -> coerce p = Ok f ->
  exists d', upsert u d sr p =
    Ok (if decide (orm_char sr ∈ keys d) then Updated else Created, d') /\
    inv d' /\ view d' = <[orm_char sr := f]> (view d) /\
    keys d' = (keys d ++ if decide (orm_char sr ∈ keys d) then [] else [orm_char sr])%list.
Proof.
  intros [Hwf Hu] Hc. unfold upsert. set (k := orm_char sr).
  pose proof (find_by_sr_unique d k Hu) as Hlen.
  destruct (find_by_sr d k) as [|x [|y xs]] eqn:E; simpl in Hlen; [| |lia].
  - assert (~ In k (keys d)) as Hk by (by apply find_by_sr_nil).
    destruct (decide (k ∈ keys d)) as [Hin|_]; [by rewrite list_elem_of_In in Hin|].
    destruct (update_or_create d k p) as [[[r c] d1]|e] eqn:U;
      [|unfold update_or_create in U; rewrite E, Hc in U; discriminate].
    pose proof (update_or_create_cases _ _ _ _ _ _ U) as (f' & Hc' & [(-> & _ & -> & ->)|(_ & z & Hz & _)]);
      [|congruence]. rewrite Hc in Hc'. injection Hc' as <-. simpl.
    eexists. split; [done|]. split; [split|split].
    + by eapply update_or_create_wf.
    + by eapply update_or_create_sr_unique.
    + rewrite view_snoc by done. by rewrite fields_of_new.
    + unfold keys; simpl. by rewrite map_app.
  - assert (In x (rows d) /\ sr_no x = k) as [Hx Hxk] by (apply in_find_by_sr; rewrite E; left; done).
    destruct (decide (k ∈ keys d)) as [_|Hn];
      [|rewrite list_elem_of_In, <- Hxk in Hn; exfalso; apply Hn, in_map, Hx].
    unfold update_or_create. rewrite E, Hc. simpl. set (r := apply_fields x f).
    assert (Hwf1 : wf (save d r)) by (by apply (save_wf d x)).
    assert (Hr1 : In r (rows (save d r))) by (by apply (in_save d x)).
    eexists. split; [done|]. split; [split|split].
    + by apply (save_wf _ r).
    + apply (save_sr_unique _ r); try done. by apply (save_sr_unique d x).
    + rewrite (view_save _ r), fields_of_set_created_by; try done;
        [|by apply (save_sr_unique d x)].
      rewrite (view_save d x) by done. subst r. rewrite fields_of_apply.
      simpl. rewrite Hxk. apply insert_insert_eq.
    + unfold keys. rewrite app_nil_r.
      rewrite (save_map_eq sr_no _ r), (save_map_eq sr_no d x); done.
Qed.

(** The row body on a table with unique serials is determined by the
    row's decoding: an exception, a skip, or an upsert of [k := f]. *)
Lemma process_row_spec u d row :
  inv d ->
  match row_decode row with
  | Err e => process_row u d row = Err e
  | Ok None => process_row u d row = Ok (Skipped, d)
  | Ok (Some (k, f)) =>
      exists d', process_row u d row =
        Ok (if decide (k ∈ keys d) then Updated else Created, d') /\
      inv d' /\ view d' = <[k := f]> (view d) /\
      keys d' = (keys d ++ if decide (k ∈ keys d) then [] else [k])%list
  end.
Proof.
  intros Hinv. unfold row_decode, process_row.
  destruct (row_payload row) as [[[sr p]|]|e]; simpl; [|done|done].
  destruct (coerce p) as [f|e] eqn:Hc; simpl.
  - by apply upsert_spec.
  - by apply upsert_err.
Qed.

Lemma keys_length d d' l :
  keys d' = (keys d ++ l)%list -> length (rows d') = (length (rows d) + length l)%nat.
Proof.
  intros H. apply (f_equal length) in H. unfold keys in H.
  by rewrite length_app, !length_map in H.
Qed.

(** The row an upsert writes: it carries the key and the fields, its
    creator is the caller on an update and none on an insert, and every
    other row of the new table was already in the old one. *)
Lemma upsert_rows u d sr p f :
  inv d -> coerce p = Ok f ->
  exists o d' r, upsert u d sr p = Ok (o, d') /\ In r (rows d') /\
    sr_no r = orm_char sr /\ fields_of r = f /\
    created_by r = (if decide (orm_char sr ∈ keys d) then Some (user_id u) else None) /\
    (forall r', In r' (rows d') -> In r' (rows d) \/ r' = r).
Proof.
  intros [Hwf Hu] Hc. unfold upsert. set (k := orm_char sr).
  pose proof (find_by_sr_unique d k Hu) as Hlen.
  destruct (find_by_sr d k) as [|x [|y xs]] eqn:E; simpl in Hlen; [| |lia].
  - assert (~ In k (keys d)) as Hk by (by apply find_by_sr_nil).
    destruct (decide (k ∈ keys d)) as [Hin|_]; [by rewrite list_elem_of_In in Hin|].
    unfold update_or_create. rewrite E, Hc. simpl.
    do 3 eexists. split; [done|]. split; [apply in_app_iff; right; left; done|].
    split; [done|]. split; [apply fields_of_new|]. split; [done|].
    intros r' [Hr'|[<-|[]]]%in_app_iff; auto.
  - assert (In x (rows d) /\ sr_no x = k) as [Hx Hxk] by (apply in_find_by_sr; rewrite E; left; done).
    destruct (decide (k ∈ keys d)) as [_|Hn];
      [|rewrite list_elem_of_In, <- Hxk in Hn; exfalso; apply Hn, in_map, Hx].
    unfold update_or_create. rewrite E, Hc. simpl.
    do 3 eexists. split; [done|].
    split; [apply (in_save _ (apply_fields x f)); [by apply (in_save d x)|done]|].
    split; [done|]. split; [apply fields_of_apply|]. split; [done|].
    intros r' [->|[Hr' Hid]]%in_save_inv; [by right|left].
    apply in_save_inv in Hr' as [->|[Hr' _]]; [done|exact Hr'].
Qed.

Lemma row_payload_pending row sr p :
  row_payload row = Ok (Some (sr, p)) ->
  p_status p = Status.PENDING /\ p_feedback p = Feedback.PENDING.
Proof.
  unfold row_payload. intros H. res_inv.
  match goal with
  | H : (if negb (truthy ?v) then _ else _) = _ |- _ => destruct (truthy v); simpl in H
  end; res_inv; done.
Qed.

(** The fields a row upserts always carry the initial workflow state. *)
Lemma upsert_rows_pending row k f :
  row_decode row = Ok (Some (k, f)) ->
  f_status f = Status.PENDING /\ f_feedback f = Feedback.PENDING.
Proof.
  unfold row_decode. destruct (row_payload row) as [[[sr p]|]|e] eqn:Hp; simpl; try discriminate.
  destruct (coerce p) as [f'|e] eqn:Hc; simpl; intros H; simplify_eq.
  apply coerce_status in Hc as [-> ->]. by apply row_payload_pending in Hp.
Qed.

(** A property of the table that every successful row body keeps is
    kept by the whole loop. *)
Lemma process_rows_preserve (P : db -> Prop) u d rs n c :
  (forall d0 row o d1, inv d0 -> P d0 -> process_row u d0 row = Ok (o, d1) -> P d1) ->
  inv d -> P d -> P (snd (process_rows u d rs n c)).
Proof.
  intros Hstep. revert d n c. induction rs as [|row rs IH]; intros d n c Hinv HP; [done|].
  simpl. pose proof (process_row_spec u d row Hinv) as H.
  destruct (process_row u d row) as [[o d']|e] eqn:Hr.
  - apply IH; [|by eapply Hstep].
    destruct (row_decode row) as [[[k f]|]|e]; [|congruence|congruence].
    destruct H as (d'' & H & Hinv' & _). congruence.
  - by apply IH.
Qed.

(** The loop keeps the invariant and refines the abstract import: the
    dictionary view of the final table is the last-write-wins update of
    the initial one by the rows, in order. *)
Lemma process_rows_refines u d rs n c :
  inv d ->
  inv (snd (process_rows u d rs n c)) /\
  view (snd (process_rows u d rs n c)) = spec_rows rs (view d).
Proof.
  revert d n c. induction rs as [|row rs IH]; intros d n c Hinv; [done|].
  simpl. pose proof (process_row_spec u d row Hinv) as H. unfold spec_row.
  destruct (row_decode row) as [[[k f]|]|e].
  - destruct H as (d' & -> & Hinv' & Hview & _). rewrite <- Hview. by apply IH.
  - rewrite H. by apply IH.
  - rewrite H. by apply IH.
Qed.

(** The counters: the upserted rows are counted as created or updated,
    the messages are those of the raising rows, in order, and the table
    grows by the number of created rows. *)
Lemma process_rows_counters u d rs n c :
  inv d ->
  let '(c', d') := process_rows u d rs n c in
  (created_count c' + updated_count c' = created_count c + updated_count c + count_if row_ok rs)%nat /\
  errors c' = (errors c ++ row_errors rs n)%list /\
  (length (rows d') + created_count c = length (rows d) + created_count c')%nat.
Proof.
  revert d n c. induction rs as [|row rs IH]; intros d n c Hinv.
  { simpl. rewrite app_nil_r. unfold count_if; simpl. split; [lia|split; [done|lia]]. }
  simpl. pose proof (process_row_spec u d row Hinv) as H.
  unfold count_if; simpl. unfold row_ok at 1.
  destruct (row_decode row) as [[[k f]|]|e].
  - destruct H as (d' & -> & Hinv' & _ & Hkeys).
    specialize (IH d' (n + 1)%Z (count (if decide (k ∈ keys d) then Updated else Created) c) Hinv').
    destruct (process_rows u d' rs (n + 1) _) as [c' d''].
    pose proof (keys_length _ _ _ Hkeys) as Hlen.
    unfold count_if in IH. destruct IH as (? & ? & ?).
    case_decide; simpl in *; repeat split; (lia || done).
  - specialize (IH d (n + 1)%Z c Hinv). rewrite H.
    cbn [count]. destruct (process_rows u d rs (n + 1) c). unfold count_if in IH. done.
  - specialize (IH d (n + 1)%Z (mkCounters (created_count c) (updated_count c)
                                  (errors c ++ [row_error n e])%list) Hinv).
    rewrite H. destruct (process_rows u d rs (n + 1) _) as [c' d'].
    simpl in IH. rewrite <- app_assoc in IH. unfold count_if in IH. done.
Qed.

(** Every row is upserted, skipped or reported. *)
Lemma rows_partition rs n :
  (count_if row_ok rs + length (row_errors rs n) + count_if row_skipped rs = length rs)%nat.
Proof.
  revert n. induction rs as [|row rs IH]; intros n; [done|].
  unfold count_if in *; simpl. specialize (IH (n + 1)%Z).
  pose proof (row_decode_skipped row) as Hs. unfold row_ok at 1.
  destruct (row_decode row) as [[[k f]|]|e]; simpl.
  - destruct (row_skipped row); [discriminate (proj2 Hs eq_refl)|]. simpl. lia.
  - rewrite (proj1 Hs eq_refl). simpl. lia.
  - destruct (row_skipped row); [discriminate (proj2 Hs eq_refl)|]. simpl. lia.
Qed.

(** The keys of the upserted rows, in order. *)
Fixpoint row_keys (rs : list (list pyval)) : list string :=
  match rs with
  | [] => []
  | row :: rest =>
      match row_decode row with
      | Ok (Some (k, _)) => k :: row_keys rest
      | _ => row_keys rest
      end
  end.

(** The loop only adds keys, and every upserted key is in the table
    afterwards. *)
Lemma process_rows_keys u d rs n c :
  inv d ->
  (forall k, k ∈ keys d -> k ∈ keys (snd (process_rows u d rs n c))) /\
  (forall k, k ∈ row_keys rs -> k ∈ keys (snd (process_rows u d rs n c))).
Proof.
  revert d n c. induction rs as [|row rs IH]; intros d n c Hinv; simpl.
  { split; [done|]. intros k Hk. by apply elem_of_nil in Hk. }
  pose proof (process_row_spec u d row Hinv) as H.
  destruct (row_decode row) as [[[k f]|]|e].
  - destruct H as (d' & -> & Hinv' & _ & Hkeys).
    destruct (IH d' (n + 1)%Z (count (if decide (k ∈ keys d) then Updated else Created) c) Hinv')
      as [IH1 IH2].
    split.
    + intros k' Hk'. apply IH1. rewrite Hkeys. apply elem_of_app. by left.
    + intros k' [->|Hk']%elem_of_cons; [|by apply IH2].
      apply IH1. rewrite Hkeys. case_decide; [apply elem_of_app; by left|].
      apply elem_of_app. right. by apply list_elem_of_singleton.
  - rewrite H. by apply IH.
  - rewrite H. by apply IH.
Qed.

(** On a table that already holds every key the rows upsert, the loop
    creates nothing and keeps the set of keys. *)
Lemma process_rows_no_create u d rs n c :
  inv d -> (forall k, k ∈ row_keys rs -> k ∈ keys d) ->
  created_count (fst (process_rows u d rs n c)) = created_count c /\
  keys (snd (process_rows u d rs n c)) = keys d.
Proof.
  revert d n c. induction rs as [|row rs IH]; intros d n c Hinv Hall; simpl; [done|].
  simpl in Hall. pose proof (process_row_spec u d row Hinv) as H.
  destruct (row_decode row) as [[[k f]|]|e].
  - destruct H as (d' & -> & Hinv' & _ & Hkeys).
    assert (k ∈ keys d) as Hk by (apply Hall; apply elem_of_cons; by left).
    destruct (decide (k ∈ keys d)) as [_|]; [|done]. rewrite app_nil_r in Hkeys.
    destruct (IH d' (n + 1)%Z (count Updated c) Hinv') as [IH1 IH2].
    { intros k' Hk'. rewrite Hkeys. apply Hall, elem_of_cons. by right. }
    by rewrite IH1, IH2, Hkeys.
  - rewrite H. cbn [count]. by apply IH.
  - rewrite H. edestruct IH as [IH1 IH2]; [exact Hinv|exact Hall|].
    by rewrite IH1, IH2.
Qed.
End UploadSpec.

(** ** The date and days cells *)

Module CellFacts.
Import Upload.

(** C14. A numeric days cell: a positive integer [n] is kept; [0] is
    falsy and a negative integer prints with a minus sign, so both become
    [None]; a float prints with a point or an exponent, so it becomes
    [None] whatever its value. *)
Theorem normalize_days_int n f :
  normalize_days (PInt n) = Ok (if (0 <? n)%Z then Some n else None) /\
  normalize_days (PFloat f) = Ok None.
Proof.
  split; [|unfold normalize_days; cbn [py_str]; by rewrite isdigit_float_repr, andb_false_r].
  unfold normalize_days; cbn [truthy py_str py_int].
  destruct (Z.ltb_spec 0 n) as [Hn|Hn].
  - rewrite isdigit_z_str by lia.
    by replace (n =? 0)%Z with false by (symmetry; apply Z.eqb_neq; lia).
  - destruct (Z.eq_dec n 0%Z) as [->|Hne]; [done|].
    by rewrite isdigit_z_str_neg, andb_false_r by lia.
Qed.

(** C15. Round trip: a text days cell holding the decimal notation of
    [n >= 0], in at most [int]'s 4300 digits, is read back as [n]. *)
Theorem normalize_days_digits n :
  (0 <= n)%Z -> (String.length (z_str n) <= int_max_str_digits)%nat ->
  normalize_days (PStr (z_str n)) = Ok (Some n).
Proof.
  intros Hn Hl. unfold normalize_days.
  rewrite truthy_z_str by done. cbn [py_str py_int].
  by rewrite isdigit_z_str, int_of_z_str by done.
Qed.

(** C16. A text days cell that [str.isdigit] accepts but that holds a
    non-decimal digit (a superscript such as ['²']) after at most 4300
    decimal digits makes [int] raise, so the whole row is reported as an
    error instead of storing [None]. *)
Theorem normalize_days_non_decimal s :
  py_isdigit s = true -> all_chars is_decimal_char s = false ->
  (decimal_prefix_len s <= int_max_str_digits)%nat ->
  normalize_days (PStr s) =
    Err (ValueError (int_literal_msg s)).
Proof.
  intros Hd Hs Hl. unfold normalize_days; cbn [truthy py_str py_int].
  rewrite Hd, (int_of_digit_string_non_decimal s Hs Hl).
  by destruct s.
Qed.

(** C17. Bounds of [int()]: a text days cell of more than 4300 leading decimal
    digits passes [isdigit] and makes [int] raise CPython's digit-limit
    [ValueError], so the row is reported with that message rather than
    the SQLite [OverflowError] a shorter too-large number gets. *)
Theorem normalize_days_digit_limit s :
  py_isdigit s = true -> (int_max_str_digits < decimal_prefix_len s)%nat ->
  normalize_days (PStr s) = Err (ValueError (int_limit_msg (decimal_prefix_len s))).
Proof.
  intros Hd Hl. unfold normalize_days; cbn [truthy py_str py_int].
  rewrite Hd, (int_of_digit_string_limit s Hl). by destruct s.
Qed.

(** Every days value the import keeps is a non-negative integer. *)
Lemma normalize_days_nonneg v n : normalize_days v = Ok (Some n) -> (0 <= n)%Z.
Proof.
  unfold normalize_days. destruct (truthy v); [|discriminate].
  destruct (py_isdigit (py_str v)) eqn:Hd; [|discriminate]. simpl.
  destruct (py_int v) as [m|e] eqn:Hi; simpl; intros H; [|discriminate].
  injection H as <-.
  destruct v as [|b|k|f|s'|dd|dd tt|tt|td]; cbn [py_int py_str] in Hi, Hd; try discriminate.
  - destruct b; discriminate.
  - injection Hi as <-. destruct (Z.ltb_spec k 0%Z); [|lia].
    by rewrite isdigit_z_str_neg in Hd.
  - by rewrite isdigit_float_repr in Hd.
  - by eapply int_of_digit_string_nonneg.
Qed.

(** C18. Round trip: a text date cell holding the ISO form of a date
    becomes that date; a datetime cell becomes its date. *)
Theorem normalize_date_iso d t :
  valid_date d = true ->
  normalize_date (PStr (date_iso d)) = Ok (PDate d) /\
  normalize_date (PDateTime d t) = Ok (PDate d).
Proof. intros Hv. unfold normalize_date. by rewrite parse_date_iso. Qed.
End CellFacts.

(** ** Correctness of [upload_excel] *)

Module UploadCorrect.
Import Store StoreFacts StoreView Upload UploadSpec CellFacts.

Lemma upload_excel_workbook u files d f sheet :
  files_get files "file" = Some f -> excel_name (file_name f) = true ->
  file_content f = Workbook sheet ->
  upload_excel u files d =
    let '(c, d') := process_rows u d (List.skipn 1 sheet) 2 no_counters in
    (Response200 (mkImportBody "Excel file processed successfully"
                    (created_count c) (updated_count c) (errors c)), d').
Proof. intros Hf Hx Hc. unfold upload_excel. by rewrite Hf, Hx, Hc. Qed.

(** An import leaves the table as it was, or ends with the table of the
    loop over the sheet's data rows. *)
Lemma upload_excel_table u files d :
  snd (upload_excel u files d) = d \/
  exists sheet, snd (upload_excel u files d) = snd (process_rows u d (List.skipn 1 sheet) 2 no_counters).
Proof.
  unfold upload_excel.
  destruct (files_get files "file") as [f|]; [|by left].
  destruct (excel_name (file_name f)); [|by left].
  destruct (file_content f) as [sheet|msg]; [|by left].
  right. exists sheet. by destruct (process_rows u d (List.skipn 1 sheet) 2 no_counters).
Qed.

(** A property that every successful row keeps is kept by every import. *)
Lemma upload_excel_preserve (P : db -> Prop) u files d :
  (forall d0 row o d1, inv d0 -> P d0 -> process_row u d0 row = Ok (o, d1) -> P d1) ->
  inv d -> P d -> P (snd (upload_excel u files d)).
Proof.
  intros Hstep Hinv HP. destruct (upload_excel_table u files d) as [-> | [sheet ->]]; [done|].
  by apply process_rows_preserve.
Qed.

(** A successful row keeps the table invariant. *)
Lemma process_row_inv u d row o d' : inv d -> process_row u d row = Ok (o, d') -> inv d'.
Proof.
  intros Hinv Hrow. pose proof (process_row_spec u d row Hinv) as H.
  destruct (row_decode row) as [[[k f]|]|e].
  - destruct H as (d1 & Hp & Hinv1 & _). rewrite Hp in Hrow. by simplify_eq.
  - rewrite H in Hrow. by simplify_eq.
  - congruence.
Qed.

(** C1. Every import keeps the table well formed: primary keys distinct
    and below the id sequence, serial numbers unique. *)
Theorem upload_excel_inv u files d :
  inv d -> inv (snd (upload_excel u files d)).
Proof.
  intros Hinv. apply upload_excel_preserve; [|done..].
  intros d0 row o d1 Hinv0 _. by apply process_row_inv.
Qed.

(** C2. Refinement: seen as a dictionary from serial numbers to fields,
    the table after an import is the initial dictionary updated by the
    data rows in sheet order, last write winning, rows that raise or are
    skipped leaving it unchanged. *)
Theorem upload_excel_refines u files d f sheet :
  inv d -> files_get files "file" = Some f -> excel_name (file_name f) = true ->
  file_content f = Workbook sheet ->
  view (snd (upload_excel u files d)) = spec_rows (List.skipn 1 sheet) (view d).
Proof.
  intros Hinv Hf Hx Hc. rewrite (upload_excel_workbook u files d f sheet) by done.
  pose proof (proj2 (process_rows_refines u d (List.skipn 1 sheet) 2 no_counters Hinv)).
  by destruct (process_rows u d (List.skipn 1 sheet) 2 no_counters).
Qed.

(** C3. The response accounts for every data row: each is created,
    updated, reported as ["Row <n>: ..."] (numbered from 2) or skipped for
    an empty serial number; the table grows by the created count. *)
Theorem upload_excel_counts u files d f sheet :
  inv d -> files_get files "file" = Some f -> excel_name (file_name f) = true ->
  file_content f = Workbook sheet ->
  exists body, fst (upload_excel u files d) = Response200 body /\
    (created body + updated body + length (error_list body) +
     count_if row_skipped (List.skipn 1 sheet) = length (List.skipn 1 sheet))%nat /\
    error_list body = row_errors (List.skipn 1 sheet) 2 /\
    length (rows (snd (upload_excel u files d))) = (length (rows d) + created body)%nat.
Proof.
  intros Hinv Hf Hx Hc. rewrite (upload_excel_workbook u files d f sheet) by done.
  pose proof (process_rows_counters u d (List.skipn 1 sheet) 2 no_counters Hinv) as H.
  pose proof (rows_partition (List.skipn 1 sheet) 2) as Hp.
  destruct (process_rows u d (List.skipn 1 sheet) 2 no_counters) as [c d'].
  simpl in *. destruct H as (H1 & H2 & H3).
  eexists. split; [done|]. rewrite H2. simpl. split; [lia|split; [done|lia]].
Qed.

(** C4. Importing the same sheet twice: the second import creates
    nothing, updates every row the first one created or updated, reports
    the same errors, and leaves the number of records unchanged
    (spec section 8). *)
Theorem reimport_updates_only u files d f sheet :
  inv d -> files_get files "file" = Some f -> excel_name (file_name f) = true ->
  file_content f = Workbook sheet ->
  let d1 := snd (upload_excel u files d) in
  exists b1 b2, fst (upload_excel u files d) = Response200 b1 /\
    fst (upload_excel u files d1) = Response200 b2 /\
    created b2 = 0%nat /\ updated b2 = (created b1 + updated b1)%nat /\
    error_list b2 = error_list b1 /\
    length (rows (snd (upload_excel u files d1))) = length (rows d1).
Proof.
  intros Hinv Hf Hx Hc d1.
  assert (Hd1 : d1 = snd (process_rows u d (List.skipn 1 sheet) 2 no_counters))
    by (unfold d1; rewrite (upload_excel_workbook u files d f sheet) by done;
        by destruct (process_rows u d (List.skipn 1 sheet) 2 no_counters)).
  clearbody d1. set (rs := List.skipn 1 sheet) in *.
  pose proof (process_rows_refines u d rs 2 no_counters Hinv) as [Hinv1 _].
  pose proof (process_rows_keys u d rs 2 no_counters Hinv) as [_ Hkeys].
  rewrite <- Hd1 in Hinv1, Hkeys.
  pose proof (process_rows_no_create u d1 rs 2 no_counters Hinv1 Hkeys) as [Hc2 Hk2].
  pose proof (process_rows_counters u d rs 2 no_counters Hinv) as H1.
  pose proof (process_rows_counters u d1 rs 2 no_counters Hinv1) as H2.
  rewrite !(upload_excel_workbook u files _ f sheet) by done. fold rs.
  rewrite Hd1 in Hc2, Hk2, H2 |- *.
  destruct (process_rows u d rs 2 no_counters) as [c1 d1']. simpl in *.
  destruct (process_rows u d1' rs 2 no_counters) as [c2 d2]. simpl in *.
  destruct H1 as (A1 & B1 & _), H2 as (A2 & B2 & _).
  do 2 eexists. split; [done|]. split; [done|]. simpl.
  split; [done|]. split; [lia|]. split; [by rewrite B1, B2|].
  apply (f_equal length) in Hk2. unfold keys in Hk2. by rewrite !length_map in Hk2.
Qed.

(** C12. A row whose serial-number cell is empty ([None], [""], [0] or
    [False]) is skipped silently: no count, no error, no change. *)
Theorem skipped_row_silent u d row rs n c :
  row_skipped row = true ->
  process_rows u d (row :: rs) n c = process_rows u d rs (n + 1) c.
Proof.
  intros Hs. simpl. unfold process_row.
  by rewrite (proj2 (row_payload_None row) Hs).
Qed.

(** C13. The request-level failures, checked before any row is read: no
    ['file'] in the upload answers 400 ["No file provided"]; a file name
    without an Excel extension answers 400 ["File must be Excel format
    (. xlsx or .xls)"]; a file [openpyxl] cannot read answers 400
    ["Error processing file: <message>"]; each leaves the table unchanged,
    and no other request answers 400. *)
Theorem upload_excel_error_untouched u files d :
  (files_get files "file" = None -> upload_excel u files d = (Response400 "No file provided", d)) /\
  (forall f, files_get files "file" = Some f -> excel_name (file_name f) = false ->
     upload_excel u files d = (Response400 "File must be Excel format (. xlsx or .xls)", d)) /\
  (forall f msg, files_get files "file" = Some f -> excel_name (file_name f) = true ->
     file_content f = Unreadable msg ->
     upload_excel u files d = (Response400 ("Error processing file: " +:+ msg), d)) /\
  (forall msg, fst (upload_excel u files d) = Response400 msg -> snd (upload_excel u files d) = d).
Proof.
  unfold upload_excel. split; [by intros ->|]. split; [by intros f -> ->|].
  split; [by intros f msg -> -> ->|]. intros msg.
  destruct (files_get files "file") as [f|]; [|done].
  destruct (excel_name (file_name f)); [|done].
  destruct (file_content f) as [sheet|m]; [|done].
  by destruct (process_rows u d (List.skipn 1 sheet) 2 no_counters).
Qed.

(** The row an upserting row leaves in the table. *)
Lemma process_row_upserted u d row k f :
  inv d -> row_decode row = Ok (Some (k, f)) ->
  exists o d' r, process_row u d row = Ok (o, d') /\ inv d' /\
    find_by_sr d' k = [r] /\ fields_of r = f /\
    created_by r = (if decide (k ∈ keys d) then Some (user_id u) else None) /\
    (forall r', In r' (rows d') -> In r' (rows d) \/ r' = r).
Proof.
  intros Hinv Hdec. pose proof (process_row_spec u d row Hinv) as Hspec.
  rewrite Hdec in Hspec. destruct Hspec as (d1 & Hp & Hinv1 & _).
  unfold row_decode in Hdec. unfold process_row in Hp |- *.
  destruct (row_payload row) as [[[sr p]|]|e]; simpl in *; try discriminate.
  destruct (coerce p) as [f'|e] eqn:Hc; simpl in Hdec; [|discriminate].
  injection Hdec as <- <-.
  destruct (upsert_rows u d sr p f' Hinv Hc) as (o & d' & r & Hu & Hr & Hk & Hf & Hby & Hrest).
  rewrite Hu in Hp. injection Hp as _ <-.
  exists o, d', r. split; [exact Hu|]. split; [exact Hinv1|].
  split; [rewrite <- Hk; apply find_by_sr_single; [apply Hinv1|exact Hr]|].
  split; [exact Hf|]. split; [exact Hby|exact Hrest].
Qed.

(** The serial number of an upserting row is non-blank: the row body
    skips a falsy one, and [str] of a truthy value is not empty. *)
Lemma row_decode_key_nonblank row k f : row_decode row = Ok (Some (k, f)) -> k <> "".
Proof.
  unfold row_decode. destruct (row_payload row) as [[[sr p]|]|e] eqn:Hp; simpl; try discriminate.
  destruct (coerce p); simpl; intros H; simplify_eq. apply py_str_truthy.
  revert Hp. unfold row_payload. intros H. res_inv.
  match goal with
  | H : (if negb (truthy ?v) then _ else _) = _ |- _ => destruct (truthy v) eqn:Ht; simpl in H
  end; res_inv; done.
Qed.

(** A successful row writes only well-typed rows: its serial number is
    non-blank and the creator it stamps is the caller. *)
Lemma process_row_typed uids u d0 row o d1 :
  inv d0 -> user_id u ∈ uids -> rows_typed uids d0 -> process_row u d0 row = Ok (o, d1) ->
  rows_typed uids d1.
Proof.
  intros Hinv Hu Ht Hrow. pose proof (process_row_spec u d0 row Hinv) as Hspec.
  destruct (row_decode row) as [[[k f]|]|e] eqn:Hdec; [|rewrite Hspec in Hrow; by simplify_eq|congruence].
  destruct (process_row_upserted u d0 row k f Hinv Hdec) as (o' & d' & r & Hp & _ & Hk & _ & Hby & Hrest).
  rewrite Hrow in Hp. injection Hp as <- <-.
  apply (rows_typed_sub uids d0); [done|]. intros y Hy. destruct (Hrest y Hy) as [Hin| ->]; [by left|right].
  assert (sr_no r = k) as Hs by (apply (in_find_by_sr d1 k r); rewrite Hk; by left).
  split; [rewrite Hs; by apply (row_decode_key_nonblank row k f)|].
  rewrite Hby. by destruct (decide (k ∈ keys d0)).
Qed.

Lemma upload_excel_typed uids u files d :
  inv d -> user_id u ∈ uids -> rows_typed uids d -> rows_typed uids (snd (upload_excel u files d)).
Proof.
  intros Hinv Hu Ht. apply upload_excel_preserve; [|done..].
  intros d0 row o d1 Hi0 Ht0. by apply process_row_typed.
Qed.

(** C19. Re-importing a row resets the workflow: whatever status and
    feedback the record with that serial number had (say [HEARD] and
    [POSITIVE] after review), the row's upsert stores [PENDING] for both
    (the "possibly unintended" behaviour of spec section 9). *)
Theorem upsert_resets_workflow u d row k f :
  inv d -> row_decode row = Ok (Some (k, f)) ->
  exists o d' r, process_row u d row = Ok (o, d') /\ find_by_sr d' k = [r] /\
    status r = Status.PENDING /\ feedback r = Feedback.PENDING.
Proof.
  intros Hinv Hdec. destruct (upsert_rows_pending _ _ _ Hdec) as [Hs Hf].
  destruct (process_row_upserted u d row k f Hinv Hdec) as (o & d' & r & Hp & _ & Hr & Hfr & _).
  exists o, d', r. split; [done|]. split; [done|].
  rewrite <- Hfr in Hs, Hf. split; [exact Hs|exact Hf].
Qed.

(** C20. The creator stamp: a record the import creates has no creator
    ([created_by] stays NULL), while a record it updates is stamped with
    the caller (lines 233-235), although the spec says the creator or
    last re-upserter is recorded. *)
Theorem import_created_by u d row k f :
  inv d -> row_decode row = Ok (Some (k, f)) ->
  exists o d' r, process_row u d row = Ok (o, d') /\ find_by_sr d' k = [r] /\
    created_by r = (if decide (k ∈ keys d) then Some (user_id u) else None).
Proof.
  intros Hinv Hdec.
  destruct (process_row_upserted u d row k f Hinv Hdec) as (o & d' & r & Hp & _ & Hr & _ & Hby & _).
  by exists o, d', r.
Qed.

Lemma row_payload_days row sr p n :
  row_payload row = Ok (Some (sr, p)) -> p_days p = Some n -> (0 <= n)%Z.
Proof.
  unfold row_payload. intros H Hn. res_inv.
  match goal with
  | H : (if negb (truthy ?v) then _ else _) = _ |- _ => destruct (truthy v); simpl in H
  end; res_inv.
  match goal with
  | H : normalize_days _ = Ok _ |- _ => simpl in Hn; subst; exact (normalize_days_nonneg _ _ H)
  end.
Qed.

Lemma row_decode_days row k f :
  row_decode row = Ok (Some (k, f)) ->
  match f_days f with Some n => (0 <= n <= sqlite_int_max)%Z | None => True end.
Proof.
  unfold row_decode. destruct (row_payload row) as [[[sr p]|]|e] eqn:Hp; simpl; try discriminate.
  destruct (coerce p) as [f'|e] eqn:Hc; simpl; intros H; simplify_eq.
  apply coerce_days in Hc as [-> Hmax]. destruct (p_days p) as [n|] eqn:E; [|done].
  split; [by eapply row_payload_days|by apply Hmax].
Qed.

(** A successful row keeps the stored days values within range. *)
Lemma process_row_days_in_range u d0 row o d1 :
  inv d0 -> days_in_range d0 -> process_row u d0 row = Ok (o, d1) -> days_in_range d1.
Proof.
  intros Hinv0 Hd0 Hrow.
  pose proof (process_row_spec u d0 row Hinv0) as Hspec.
  destruct (row_decode row) as [[[k f]|]|e] eqn:Hdec; [|congruence|congruence].
  destruct (process_row_upserted u d0 row k f Hinv0 Hdec) as (o' & d' & r & Hp & _ & _ & Hf & _ & Hrest).
  rewrite Hrow in Hp. injection Hp as <- <-.
  unfold days_in_range in *. rewrite Forall_forall in *. intros r' Hr'%list_elem_of_In.
  destruct (Hrest r' Hr') as [Hin| ->].
  - apply Hd0. by apply list_elem_of_In.
  - change (days r) with (f_days (fields_of r)). rewrite Hf. by eapply row_decode_days.
Qed.

(** Bounds: every days value in the table is a non-negative integer
    within SQLite's signed 64-bit INTEGER after any import, when it was so
    before; a larger digit string makes the driver raise [OverflowError]
    and the row is reported instead of stored. *)
Theorem upload_excel_days_in_range u files d :
  inv d -> days_in_range d -> days_in_range (snd (upload_excel u files d)).
Proof.
  intros Hinv Hd. apply upload_excel_preserve; [|done..].
  intros d0 row o d1. apply process_row_days_in_range.
Qed.
End UploadCorrect.

(** ** The column contract and the row errors *)

Module ColumnFacts.
Import Store StoreFacts StoreView Upload UploadSpec UploadCorrect.

Definition cell (row : list pyval) (i : nat) : pyval := nth i row PNone.
Definition text_cell (v : pyval) : string := orm_char (py_or v (PStr "")).

Lemma row_get_cell row i v : row_get row i = Ok v -> cell row i = v /\ (i < length row)%nat.
Proof.
  unfold row_get, cell. destruct (nth_error row i) eqn:E; intros H; simplify_eq.
  split; [by apply nth_error_nth|]. apply nth_error_Some. by rewrite E.
Qed.

(** C28. The column contract (spec section 4.2): a row that is upserted
    stores, from the fixed positions 0-12 and 14, the serial number, the
    text fields defaulting to [''], the contact as [str], the normalised
    date and days, PENDING status and feedback, and a [dairy_ps] that is
    [''] for a row of 14 cells or fewer but NULL for an empty 15th cell. *)
Theorem row_decode_columns row k f :
  row_decode row = Ok (Some (k, f)) ->
  k = py_str (cell row 0) /\ truthy (cell row 0) = true /\
  f_dairy_no f = text_cell (cell row 1) /\ f_name f = text_cell (cell row 2) /\
  f_contact f = (if truthy (cell row 3) then py_str (cell row 3) else "") /\
  f_marked_to f = text_cell (cell row 4) /\
  rbind (normalize_date (cell row 5)) orm_date = Ok (f_date f) /\
  f_marked_by f = text_cell (cell row 6) /\ f_timeline f = text_cell (cell row 7) /\
  f_police_station f = text_cell (cell row 8) /\ f_division f = text_cell (cell row 9) /\
  f_category f = text_cell (cell row 10) /\
  rbind (normalize_days (cell row 12)) orm_int = Ok (f_days f) /\
  f_status f = Status.PENDING /\ f_feedback f = Feedback.PENDING /\
  f_dairy_ps f = (if (14 <? length row)%nat then orm_nullable_char (cell row 14) else Some "").
Proof.
  unfold row_decode, row_payload. intros H. res_inv.
  match goal with
  | H : (if negb (truthy ?v) then _ else _) = _ |- _ => destruct (truthy v) eqn:Ht; simpl in H
  end; res_inv.
  repeat match goal with H : row_get row _ = Ok _ |- _ => apply row_get_cell in H as [<- ?] end.
  unfold coerce in *. res_inv. simpl.
  unfold cell in *. unfold orm_char, text_cell. 
  repeat split; try done.
  - by destruct (truthy (nth 3 row PNone)).
  - by rewrite Hc2.
  - by rewrite Hc4.
  - by destruct (14 <? length row)%nat.
Qed.
(** The three cells the row body normalises, as [row_payload] reads them. *)
Lemma row_payload_cells row sr p :
  row_payload row = Ok (Some (sr, p)) ->
  sr = cell row 0 /\ normalize_date (cell row 5) = Ok (p_date p) /\
  normalize_days (cell row 12) = Ok (p_days p).
Proof.
  unfold row_payload. intros H. res_inv.
  match goal with
  | H : (if negb (truthy ?v) then _ else _) = _ |- _ => destruct (truthy v) eqn:Ht; simpl in H
  end; res_inv.
  repeat match goal with H : row_get row _ = Ok _ |- _ => apply row_get_cell in H as [<- ?] end.
  done.
Qed.

(** A days cell that is falsy or whose [str] is not all digits (the
    spec's ["abc"]) is stored as NULL without an error. *)
Theorem normalize_days_not_digits v :
  truthy v = false \/ py_isdigit (py_str v) = false -> normalize_days v = Ok None.
Proof. unfold normalize_days. intros [-> | ->]; [done|]. by rewrite andb_false_r. Qed.

(** C29. A date cell holding a number (an Excel date typed as a plain
    number), a boolean, a time-only value or a timedelta passes the row
    body unchanged (it is neither a [datetime] nor text), and the ORM's
    [parse_date] raises [TypeError]: the row is reported, nothing stored. *)
Theorem date_cell_number_error u d row sr p :
  inv d -> row_payload row = Ok (Some (sr, p)) ->
  match cell row 5 with PBool _ | PInt _ | PTime _ | PDelta _ => True | _ => False end ->
  process_row u d row = Err (TypeError "expected string or bytes-like object").
Proof.
  intros Hinv Hp Hc. destruct (row_payload_cells row sr p Hp) as (_ & Hd & _).
  unfold process_row. rewrite Hp. simpl. apply upsert_err; [done|].
  unfold coerce. destruct (cell row 5); try contradiction; injection Hd as Hd; rewrite <- Hd; reflexivity.
Qed.

(** C30. Overflow: a days value beyond SQLite's signed 64-bit INTEGER
    makes the driver raise [OverflowError] when the row is written; the
    row is reported and the table keeps its previous state. *)
Theorem days_overflow_error u d row sr p n dt :
  inv d -> row_payload row = Ok (Some (sr, p)) -> orm_date (p_date p) = Ok dt ->
  normalize_days (cell row 12) = Ok (Some n) -> (sqlite_int_max < n)%Z ->
  process_row u d row = Err (OverflowError "Python int too large to convert to SQLite INTEGER").
Proof.
  intros Hinv Hp Hdt Hn Hmax. destruct (row_payload_cells row sr p Hp) as (_ & _ & Hd).
  rewrite Hn in Hd. injection Hd as Hd.
  unfold process_row. rewrite Hp. simpl. apply upsert_err; [done|].
  unfold coerce. rewrite Hdt. simpl. rewrite <- Hd. unfold orm_int.
  destruct (Z.leb_spec n sqlite_int_max); [lia|]. by rewrite andb_false_r.
Qed.

(** C31. The spec's end-to-end import (section 8): a sheet of a header
    and one data row with a new serial number answers
    [{created: 1, updated: 0, errors: []}] and stores one record with that
    serial number, the row's fields and no creator. *)
Theorem upload_single_new_row u files d fl hdr row k fr :
  inv d -> files_get files "file" = Some fl -> excel_name (file_name fl) = true ->
  file_content fl = Workbook [hdr; row] -> row_decode row = Ok (Some (k, fr)) -> k ∉ keys d ->
  fst (upload_excel u files d) =
    Response200 (mkImportBody "Excel file processed successfully" 1 0 []) /\
  exists r, find_by_sr (snd (upload_excel u files d)) k = [r] /\ fields_of r = fr /\
    created_by r = None.
Proof.
  intros Hinv Hf Hx Hc Hdec Hk. rewrite (upload_excel_workbook u files d fl [hdr; row]) by done.
  pose proof (process_row_spec u d row Hinv) as Hs. rewrite Hdec in Hs.
  destruct Hs as (d1 & Hp & _).
  destruct (process_row_upserted u d row k fr Hinv Hdec) as (o & d' & r & Hp' & _ & Hr & Hfr & Hby & _).
  rewrite Hp in Hp'. injection Hp' as <- <-.
  destruct (decide (k ∈ keys d)); [contradiction|].
  simpl. rewrite Hp. simpl. split; [done|]. by exists r.
Qed.
End ColumnFacts.

(** ** The theorems on a concrete upload

    A table holding serial number ["1"] (status [HEARD], feedback
    [POSITIVE]) and a sheet with a header, a row re-importing ["1"], an
    empty row, a new row ["2"] and a row whose days cell is ['²']. *)

Module UploadExamples.
Import Store StoreView Upload UploadSpec UploadCorrect CellFacts ColumnFacts.
Definition ex_user : user := mkUser 7 "clerk" STAFF "Cantt".
Definition ex_record : application :=
  mkApplication 1 "1" "D-1" "Ali" "0300" "SHO" None "Inspector" "7 days"
    "Cantt" "City" "Land" Status.HEARD (Some 5%Z) Feedback.POSITIVE "heard" None (Some 3%Z).
Definition ex_db : db := mkDb [ex_record] 2.
Definition ex_row1 : list pyval :=
  [PInt 1; PStr "D-1"; PStr "Ali"; PInt 300; PStr "SHO"; PStr "2024-01-15";
   PStr "Inspector"; PStr "7 days"; PStr "Cantt"; PStr "City"; PStr "Land";
   PNone; PStr "5"; PNone; PStr "PS-1"].
Definition ex_row2 : list pyval :=
  [PInt 2; PStr "D-2"; PStr "Bano"; PNone; PStr ""; PNone;
   PStr ""; PStr ""; PStr "Saddar"; PStr "City"; PStr "Service"; PNone; PInt 0].
Definition ex_row_bad : list pyval :=
  [PInt 3; PStr "D-3"; PStr "Khan"; PNone; PStr ""; PNone;
   PStr ""; PStr ""; PStr "Saddar"; PStr "City"; PStr "Land"; PNone;
   PStr (String (ascii_of_nat 178) EmptyString)].
Definition ex_sheet : list (list pyval) :=
  [[PStr "Sr No"]; ex_row1; [PNone]; ex_row2; ex_row_bad].
Definition ex_file : upload := mkUpload "cases.xlsx" (Workbook ex_sheet).
Definition ex_files : list (string * upload) := [("file", ex_file)].

Lemma upload_excel_inv_witness : inv (snd (upload_excel ex_user ex_files ex_db)).
Proof. apply (upload_excel_inv ex_user ex_files ex_db). decide_closed. Defined.

Lemma upload_excel_refines_witness :
  view (snd (upload_excel ex_user ex_files ex_db)) = spec_rows (List.skipn 1 ex_sheet) (view ex_db).
Proof. apply (upload_excel_refines ex_user ex_files ex_db ex_file ex_sheet); [decide_closed|reflexivity..]. Defined.



Lemma upsert_resets_workflow_witness :
  find_by_sr ex_db "1" = [ex_record] /\ status ex_record = Status.HEARD /\
  exists o d' r, process_row ex_user ex_db ex_row1 = Ok (o, d') /\ find_by_sr d' "1" = [r] /\
    status r = Status.PENDING /\ feedback r = Feedback.PENDING.
Proof.
  split; [reflexivity|]. split; [reflexivity|].
  eapply (upsert_resets_workflow ex_user ex_db ex_row1 "1"); [decide_closed|reflexivity].
Defined.
Lemma upload_excel_counts_witness :
  exists body, fst (upload_excel ex_user ex_files ex_db) = Response200 body /\
    (created body + updated body + length (error_list body) +
     count_if row_skipped (List.skipn 1 ex_sheet) = length (List.skipn 1 ex_sheet))%nat /\
    error_list body = row_errors (List.skipn 1 ex_sheet) 2 /\
    length (rows (snd (upload_excel ex_user ex_files ex_db))) = (length (rows ex_db) + created body)%nat.
Proof.
  apply (upload_excel_counts ex_user ex_files ex_db ex_file ex_sheet); [decide_closed|reflexivity..].
Defined.

Lemma reimport_updates_only_witness :
  let d1 := snd (upload_excel ex_user ex_files ex_db) in
  exists b1 b2, fst (upload_excel ex_user ex_files ex_db) = Response200 b1 /\
    fst (upload_excel ex_user ex_files d1) = Response200 b2 /\
    created b2 = 0%nat /\ updated b2 = (created b1 + updated b1)%nat /\
    error_list b2 = error_list b1 /\
    length (rows (snd (upload_excel ex_user ex_files d1))) = length (rows d1).
Proof.
  apply (reimport_updates_only ex_user ex_files ex_db ex_file ex_sheet); [decide_closed|reflexivity..].
Defined.

Lemma skipped_row_silent_witness :
  process_rows ex_user ex_db ([PNone] :: [ex_row2]) 3 no_counters =
  process_rows ex_user ex_db [ex_row2] (3 + 1) no_counters.
Proof. apply skipped_row_silent. reflexivity. Defined.

(** The extension test is case-sensitive: ["cases.XLSX"] is refused. *)
Definition ex_files_upper : list (string * upload) :=
  [("file", mkUpload "cases.XLSX" (Workbook ex_sheet))].

Lemma upload_excel_error_untouched_witness :
  upload_excel ex_user ex_files_upper ex_db =
    (Response400 "File must be Excel format (. xlsx or .xls)", ex_db).
Proof.
  apply (proj1 (proj2 (upload_excel_error_untouched ex_user ex_files_upper ex_db)) (snd (hd ("", ex_file) ex_files_upper)));
    reflexivity.
Defined.

Lemma normalize_days_digits_witness : normalize_days (PStr (z_str 42)) = Ok (Some 42%Z).
Proof. apply normalize_days_digits; [lia|apply Nat.leb_le; vm_compute; reflexivity]. Defined.

(** A days text of 4301 ones. *)
Definition ex_long_days : string := String.string_of_list_ascii (List.repeat "1"%char 4301).

Lemma normalize_days_digit_limit_witness :
  normalize_days (PStr ex_long_days) = Err (ValueError (int_limit_msg 4301)).
Proof.
  replace (int_limit_msg 4301) with (int_limit_msg (decimal_prefix_len ex_long_days)) by (vm_compute; reflexivity).
  apply normalize_days_digit_limit; [vm_compute; reflexivity|apply Nat.ltb_lt; vm_compute; reflexivity].
Defined.

Lemma normalize_days_non_decimal_witness :
  normalize_days (PStr (String (ascii_of_nat 178) EmptyString)) =
    Err (ValueError (int_literal_msg (String (ascii_of_nat 178) EmptyString))).
Proof. apply normalize_days_non_decimal; [vm_compute; reflexivity|vm_compute; reflexivity|apply Nat.leb_le; vm_compute; reflexivity]. Defined.

(** 250 ones and a superscript two: the message quotes the first 199
    characters of the text, 240 characters in all, as CPython prints it. *)
Definition ex_long_superscript : string :=
  String.string_of_list_ascii (List.repeat "1"%char 250 ++ [ascii_of_nat 178]).

Lemma ex_long_literal_msg :
  normalize_days (PStr ex_long_superscript) = Err (ValueError (int_literal_msg ex_long_superscript)) /\
  String.length (int_literal_msg ex_long_superscript) = 240%nat /\
  int_literal_msg ex_long_superscript =
    "invalid literal for int() with base 10: '" +:+ String.string_of_list_ascii (List.repeat "1"%char 199).
Proof. vm_compute. repeat split. Qed.

Lemma normalize_date_iso_witness :
  normalize_date (PStr (date_iso (mkDate 2024 2 29))) = Ok (PDate (mkDate 2024 2 29)) /\
  normalize_date (PDateTime (mkDate 2024 2 29) (mkTime 10 30 0 0)) = Ok (PDate (mkDate 2024 2 29)).
Proof. apply normalize_date_iso. vm_compute. reflexivity. Defined.

Lemma import_created_by_witness :
  exists o d' r, process_row ex_user ex_db ex_row1 = Ok (o, d') /\ find_by_sr d' "1" = [r] /\
    created_by r = (if decide ("1" ∈ keys ex_db) then Some 7%Z else None).
Proof. eapply (import_created_by ex_user ex_db ex_row1 "1"); [decide_closed|reflexivity]. Defined.

Lemma upload_excel_days_in_range_witness :
  days_in_range (snd (upload_excel ex_user ex_files ex_db)).
Proof. apply upload_excel_days_in_range; decide_closed. Defined.
(** A row of 15 cells whose last one is empty: its [dairy_ps] is NULL. *)
Definition ex_row_ps : list pyval :=
  [PInt 3; PStr "D-3"; PStr "Khan"; PInt 300; PNone; PStr "2024-03-01";
   PStr ""; PStr ""; PStr "Saddar"; PStr "City"; PStr "Land"; PNone; PStr "12"; PNone; PNone].

Definition ex_fields_ps : fields :=
  mkFields "D-3" "Khan" "300" "" (Some (mkDate 2024 3 1)) "" "" "Saddar" "City" "Land"
    Status.PENDING (Some 12%Z) Feedback.PENDING None.

Lemma row_decode_columns_witness :
  "3" = py_str (cell ex_row_ps 0) /\ truthy (cell ex_row_ps 0) = true /\
  f_dairy_no ex_fields_ps = text_cell (cell ex_row_ps 1) /\ f_name ex_fields_ps = text_cell (cell ex_row_ps 2) /\
  f_contact ex_fields_ps = (if truthy (cell ex_row_ps 3) then py_str (cell ex_row_ps 3) else "") /\
  f_marked_to ex_fields_ps = text_cell (cell ex_row_ps 4) /\
  rbind (normalize_date (cell ex_row_ps 5)) orm_date = Ok (f_date ex_fields_ps) /\
  f_marked_by ex_fields_ps = text_cell (cell ex_row_ps 6) /\ f_timeline ex_fields_ps = text_cell (cell ex_row_ps 7) /\
  f_police_station ex_fields_ps = text_cell (cell ex_row_ps 8) /\ f_division ex_fields_ps = text_cell (cell ex_row_ps 9) /\
  f_category ex_fields_ps = text_cell (cell ex_row_ps 10) /\
  rbind (normalize_days (cell ex_row_ps 12)) orm_int = Ok (f_days ex_fields_ps) /\
  f_status ex_fields_ps = Status.PENDING /\ f_feedback ex_fields_ps = Feedback.PENDING /\
  f_dairy_ps ex_fields_ps = (if (14 <? length ex_row_ps)%nat then orm_nullable_char (cell ex_row_ps 14) else Some "").
Proof. apply row_decode_columns. reflexivity. Defined.

Lemma normalize_days_not_digits_witness : normalize_days (PStr "abc") = Ok None.
Proof. apply normalize_days_not_digits. right. reflexivity. Defined.

(** An Excel date typed as the number 45000. *)
Definition ex_row_numdate : list pyval :=
  [PInt 4; PStr "D-4"; PStr "Zia"; PNone; PNone; PInt 45000;
   PNone; PNone; PStr "Cantt"; PNone; PNone; PNone; PNone].

Lemma date_cell_number_error_witness :
  process_row ex_user ex_db ex_row_numdate = Err (TypeError "expected string or bytes-like object").
Proof.
  eapply date_cell_number_error; [decide_closed|reflexivity|exact I].
Defined.

(** A row whose date cell is a time-only value (10:30). *)
Definition ex_row_timedate : list pyval :=
  [PInt 6; PStr "D-6"; PStr "Sana"; PNone; PNone; PTime (mkTime 10 30 0 0);
   PNone; PNone; PStr "Cantt"; PNone; PNone; PNone; PNone].

Lemma ex_time_date_cell_error :
  process_row ex_user ex_db ex_row_timedate = Err (TypeError "expected string or bytes-like object").
Proof. vm_compute. reflexivity. Qed.

(** Float cells print as CPython's [repr] and truncate toward zero. *)
Lemma ex_float_cells :
  map (fun '(b, ds, p) => float_repr (mkFloat b ds p))
    [(false, 15, 1); (false, 15, 2); (false, 1, -3); (false, 1, -4); (false, 1, 17);
     (true, 12345, 4); (false, 0, 0); (true, 0, 0); (false, 3001234567, 10); (false, 123, 20)]%Z =
  ["1.5"; "15.0"; "0.0001"; "1e-05"; "1e+16"; "-1234.5"; "0.0"; "-0.0"; "3001234567.0"; "1.23e+19"] /\
  map (fun '(b, ds, p) => float_trunc (mkFloat b ds p))
    [(false, 15, 1); (true, 15, 1); (false, 12345, 4); (false, 1, -3); (false, 123, 20)]%Z =
  [1; -1; 1234; 0; 12300000000000000000]%Z.
Proof. vm_compute. split; reflexivity. Qed.

(** Time and timedelta cells in text columns are stored as [str()]. *)
Lemma ex_time_text_cells :
  py_str (PTime (mkTime 9 5 0 0)) = "09:05:00" /\
  py_str (PDelta (mkDelta 1 3723 0)) = "1 day, 1:02:03" /\
  py_str (PDelta (mkDelta (-1) 82800 500)) = "-1 day, 23:00:00.000500" /\
  py_str (PDelta (mkDelta 2 0 0)) = "2 days, 0:00:00".
Proof. vm_compute. repeat split. Qed.

(** A days cell of 2^63 written as digits. *)
Definition ex_row_big : list pyval :=
  [PInt 5; PStr "D-5"; PStr "Umar"; PNone; PNone; PNone;
   PNone; PNone; PStr "Cantt"; PNone; PNone; PNone; PStr "9223372036854775808"].

Lemma days_overflow_error_witness :
  process_row ex_user ex_db ex_row_big =
    Err (OverflowError "Python int too large to convert to SQLite INTEGER").
Proof.
  eapply (days_overflow_error _ _ _ _ _ 9223372036854775808%Z None);
    [decide_closed|reflexivity|reflexivity|reflexivity|].
  unfold sqlite_int_max. lia.
Defined.

(** The spec's row: serial number 1001 and days ["15"]. *)
Definition ex_row_spec : list pyval :=
  [PInt 1001; PStr "D-1001"; PStr "Applicant"; PNone; PNone; PNone;
   PNone; PNone; PStr "Cantt"; PNone; PNone; PNone; PStr "15"].

Definition ex_files_spec : list (string * upload) :=
  [("file", mkUpload "import.xlsx" (Workbook [[PStr "Sr No"]; ex_row_spec]))].

Lemma upload_single_new_row_witness :
  exists fr, row_decode ex_row_spec = Ok (Some ("1001", fr)) /\
    f_days fr = Some 15%Z /\ f_status fr = Status.PENDING /\
    fst (upload_excel ex_user ex_files_spec (mkDb [] 1)) =
      Response200 (mkImportBody "Excel file processed successfully" 1 0 []) /\
    exists r, find_by_sr (snd (upload_excel ex_user ex_files_spec (mkDb [] 1))) "1001" = [r] /\
      fields_of r = fr /\ created_by r = None.
Proof.
  eexists. split; [reflexivity|]. split; [reflexivity|]. split; [reflexivity|].
  eapply upload_single_new_row; [decide_closed|reflexivity..|decide_closed].
Defined.
End UploadExamples.
