(* ===== verification/Query.v ===== *)
(** * The listing: [get_queryset] and the view set's queryset

    [get_queryset] (src/backend/core/views.py, lines 82-115) scopes the
    table to a STAFF user's station and narrows it by the [status],
    [police_station], [category] and [search] query parameters.  In the
    source it is written at module level, not inside
    [OpenCourtApplicationViewSet]: the view set keeps its class attribute
    [queryset = OpenCourtApplication.objects.all()] (line 76), so its
    listing is the whole table whatever the caller.  This file models both,
    proves what [get_queryset] guarantees, and shows what the view set
    actually returns. *)

From S2P Require Import Prelude PyValue Model.
From Stdlib Require Import Ascii.
Open Scope string_scope.

Module Listing.

(** [request.query_params]: [None] for an absent parameter. *)
Record query_params := mkQuery {
  q_status : option string;
  q_police_station : option string;
  q_category : option string;
  q_search : option string
}.

Definition no_params : query_params := mkQuery None None None None.

(** [param = query_params.get(name)]; [if param:] *)
Definition param_set (o : option string) : option string :=
  match o with
  | Some s => if String.eqb s "" then None else Some s
  | None => None
  end.

(** [user.role == 'STAFF' and user.police_station] *)
Definition staff_scoped (u : user) : bool :=
  bool_decide (user_role u = STAFF) && negb (String.eqb (user_station u) "").

(** SQLite's [LIKE] folds the ASCII letters only. *)
Definition ascii_lower (c : ascii) : ascii :=
  let n := nat_of_ascii c in
  if (65 <=? n)%nat && (n <=? 90)%nat then ascii_of_nat (n + 32) else c.

Fixpoint str_lower (s : string) : string :=
  match s with
  | EmptyString => EmptyString
  | String c s' => String (ascii_lower c) (str_lower s')
  end.

(** [needle in hay] *)
Fixpoint str_contains (needle hay : string) : bool :=
  py_startswith needle hay ||
  match hay with
  | EmptyString => false
  | String _ hay' => str_contains needle hay'
  end.

(** [field__icontains=search]: [field LIKE '%search%' ESCAPE '\'] with the
    wildcards of [search] escaped. *)
Definition icontains (field search : string) : bool :=
  str_contains (str_lower search) (str_lower field).

(** Lines 87-89: the role scope. *)
Definition scope (u : user) (rs : list application) : list application :=
  if staff_scoped u then List.filter (fun r => String.eqb (police_station r) (user_station u)) rs
  else rs.

(** [queryset.filter(field=value)] when the parameter is set. *)
Definition filter_param (o : option string) (field : application -> string)
    (rs : list application) : list application :=
  match param_set o with
  | Some v => List.filter (fun r => String.eqb (field r) v) rs
  | None => rs
  end.

(** Lines 107-113: [Q(name__icontains=search) | Q(dairy_no__icontains=search)
    | Q(contact__icontains=search)]. *)
Definition search_match (s : string) (r : application) : bool :=
  icontains (name r) s || icontains (dairy_no r) s || icontains (contact r) s.

Definition filter_search (o : option string) (rs : list application) : list application :=
  match param_set o with
  | Some s => List.filter (search_match s) rs
  | None => rs
  end.

(** [get_queryset], lines 82-115, in the order of its filters. *)
Definition get_queryset (u : user) (q : query_params) (d : db) : list application :=
  filter_search (q_search q)
    (filter_param (q_category q) category
      (filter_param (q_police_station q) police_station
        (filter_param (q_status q) (fun r => Status.to_string (status r))
          (scope u (rows d))))).

(** The listing [OpenCourtApplicationViewSet] serves (lines 74-78): DRF's
    [GenericAPIView.get_queryset] returns [self.queryset.all()]. *)
Definition viewset_queryset (u : user) (q : query_params) (d : db) : list application :=
  rows d.

(** ** The filter as one predicate *)

Definition param_ok (o : option string) (v : string) : bool :=
  match param_set o with Some p => String.eqb v p | None => true end.

Definition search_ok (o : option string) (r : application) : bool :=
  match param_set o with Some s => search_match s r | None => true end.

Definition scope_ok (u : user) (r : application) : bool :=
  if staff_scoped u then String.eqb (police_station r) (user_station u) else true.

(** The conjunction the filters compose. *)
Definition matches (u : user) (q : query_params) (r : application) : bool :=
  scope_ok u r && param_ok (q_status q) (Status.to_string (status r)) &&
  param_ok (q_police_station q) (police_station r) &&
  param_ok (q_category q) (category r) && search_ok (q_search q) r.

(** ** The contract of spec section 4.1

    Written from the spec, not from the stages: a STAFF caller with a
    station sees only that station; each present, non-empty parameter
    narrows by exact match; the search matches when any of [name],
    [dairy_no], [contact] contains the text, ignoring case ([icontains],
    SQLite's [LIKE]). *)
Definition listing_spec (u : user) (q : query_params) (r : application) : Prop :=
  (user_role u = STAFF -> user_station u <> "" -> police_station r = user_station u) /\
  (forall s, q_status q = Some s -> s <> "" -> Status.to_string (status r) = s) /\
  (forall p, q_police_station q = Some p -> p <> "" -> police_station r = p) /\
  (forall c, q_category q = Some c -> c <> "" -> category r = c) /\
  (forall t, q_search q = Some t -> t <> "" ->
     icontains (name r) t = true \/ icontains (dairy_no r) t = true \/ icontains (contact r) t = true).
End Listing.

Module ListingFacts.
Import Listing.

Lemma filter_filter {A} (p q : A -> bool) (l : list A) :
  List.filter p (List.filter q l) = List.filter (fun x => q x && p x) l.
Proof.
  induction l as [|x l IH]; simpl; [done|].
  destruct (q x); simpl; [destruct (p x); simpl|]; congruence.
Qed.

Lemma scope_filter u rs : scope u rs = List.filter (scope_ok u) rs.
Proof.
  unfold scope, scope_ok. destruct (staff_scoped u); [done|].
  induction rs; simpl; congruence.
Qed.

Lemma filter_param_filter o field rs :
  filter_param o field rs = List.filter (fun r => param_ok o (field r)) rs.
Proof.
  unfold filter_param, param_ok. destruct (param_set o); [done|].
  induction rs; simpl; congruence.
Qed.

Lemma filter_search_filter o rs : filter_search o rs = List.filter (search_ok o) rs.
Proof.
  unfold filter_search, search_ok. destruct (param_set o); [done|].
  induction rs; simpl; congruence.
Qed.

(** The staged filters of [get_queryset] as one [filter]. *)
Lemma get_queryset_matches u q d :
  get_queryset u q d = List.filter (matches u q) (rows d).
Proof.
  unfold get_queryset. rewrite filter_search_filter, !filter_param_filter, scope_filter.
  rewrite !filter_filter. apply filter_ext. intros r. unfold matches.
  by rewrite !andb_assoc.
Qed.

(** One present parameter against the contract's clause. *)
Lemma param_ok_spec o v :
  param_ok o v = true <-> (forall p, o = Some p -> p <> "" -> v = p).
Proof.
  unfold param_ok, param_set. destruct o as [p|]; [|split; [done|intros _; done]].
  destruct (String.eqb_spec p ""); [split; [intros _ ? [= <-]; done|done]|].
  rewrite String.eqb_eq. split; [by intros -> ? [= <-]|intros H; by apply H].
Qed.

Lemma search_ok_spec o r :
  search_ok o r = true <->
  (forall t, o = Some t -> t <> "" ->
     icontains (name r) t = true \/ icontains (dairy_no r) t = true \/ icontains (contact r) t = true).
Proof.
  unfold search_ok, param_set, search_match. destruct o as [t|]; [|split; [done|intros _; done]].
  destruct (String.eqb_spec t ""); [split; [intros _ ? [= <-]; done|done]|].
  rewrite !orb_true_iff. split; [intros H ? [= <-] _; tauto|intros H; specialize (H t eq_refl n); tauto].
Qed.

Lemma scope_ok_spec u r :
  scope_ok u r = true <-> (user_role u = STAFF -> user_station u <> "" -> police_station r = user_station u).
Proof.
  unfold scope_ok, staff_scoped. destruct (decide (user_role u = STAFF)) as [Hr|Hr].
  - rewrite bool_decide_eq_true_2 by done. cbn.
    destruct (String.eqb_spec (user_station u) ""); cbn; [split; [intros _ _; done|done]|].
    rewrite String.eqb_eq. split; [done|intros H; by apply H].
  - rewrite bool_decide_eq_false_2 by done. cbn. split; [intros _ ?; done|done].
Qed.

(** The stages' predicate is the contract. *)
Lemma matches_listing_spec u q r : matches u q r = true <-> listing_spec u q r.
Proof.
  unfold matches, listing_spec. rewrite !andb_true_iff, scope_ok_spec, !param_ok_spec, search_ok_spec.
  tauto.
Qed.

(** C21. [get_queryset] meets the listing contract of spec section 4.1: a
    row is listed exactly when it is in the table and satisfies the
    contract (role scope, the exact-match parameters, the search over
    name, diary number and contact joined by "or"), and the listing keeps
    the table's order. *)
Theorem get_queryset_spec u q d :
  (forall r, In r (get_queryset u q d) <-> In r (rows d) /\ listing_spec u q r) /\
  get_queryset u q d `sublist_of` rows d.
Proof.
  rewrite get_queryset_matches. split.
  - intros r. by rewrite filter_In, matches_listing_spec.
  - induction (rows d) as [|r l IH]; cbn; [done|].
    destruct (matches u q r); by constructor.
Qed.

Lemma in_get_queryset u q d r :
  In r (get_queryset u q d) <-> In r (rows d) /\ matches u q r = true.
Proof. rewrite get_queryset_matches. apply filter_In. Qed.

Lemma matches_scope u q r :
  staff_scoped u = true -> matches u q r = true -> police_station r = user_station u.
Proof.
  intros Hs Hm. unfold matches, scope_ok in Hm. rewrite Hs in Hm.
  repeat rewrite andb_true_iff in Hm. destruct Hm as [[[[H _] _] _] _].
  by apply String.eqb_eq.
Qed.

(** C22. Role scoping: a STAFF user with a station only ever gets rows of
    that station from [get_queryset], whatever the parameters
    (spec section 8); [police_station=...] cannot widen the scope. *)
Theorem get_queryset_staff_scope u q d r :
  staff_scoped u = true -> In r (get_queryset u q d) ->
  police_station r = user_station u.
Proof. intros Hs [_ Hm]%in_get_queryset. by apply (matches_scope u q r). Qed.

Lemma str_lower_empty s : str_lower s = "" <-> s = "".
Proof. destruct s; simpl; split; congruence. Qed.

(** Changing only the search text to one equal up to ASCII case changes
    nothing in the row predicate. *)
Lemma matches_search_case u q s1 s2 r :
  str_lower s1 = str_lower s2 ->
  matches u (mkQuery (q_status q) (q_police_station q) (q_category q) (Some s1)) r =
  matches u (mkQuery (q_status q) (q_police_station q) (q_category q) (Some s2)) r.
Proof.
  intros Hl. unfold matches, search_ok, param_set; simpl. f_equal.
  destruct (String.eqb_spec s1 ""), (String.eqb_spec s2 ""); subst; try done.
  - exfalso. apply n. apply str_lower_empty. rewrite <- Hl. done.
  - exfalso. apply n. apply str_lower_empty. rewrite Hl. done.
  - unfold search_match, icontains. by rewrite Hl.
Qed.

(** Search is case-insensitive: two search texts that agree up to
    the case of ASCII letters select the same rows (SQLite's [LIKE]). *)
Theorem get_queryset_search_case u q d s1 s2 :
  str_lower s1 = str_lower s2 ->
  get_queryset u (mkQuery (q_status q) (q_police_station q) (q_category q) (Some s1)) d =
  get_queryset u (mkQuery (q_status q) (q_police_station q) (q_category q) (Some s2)) d.
Proof.
  intros Hl. rewrite !get_queryset_matches. apply filter_ext. intros r.
  by apply matches_search_case.
Qed.

(** C23. The listing the view set actually serves is not scoped: since
    [get_queryset] is defined outside the class (line 82), a STAFF user
    listing [/applications/] receives every record of another station,
    with any parameters, although [get_queryset] excludes it (spec
    section 8 requires the scope). *)
Theorem viewset_listing_unscoped u q d r :
  staff_scoped u = true -> In r (rows d) -> police_station r <> user_station u ->
  In r (viewset_queryset u q d) /\ ~ In r (get_queryset u q d).
Proof.
  intros Hs Hr Hne. split; [exact Hr|]. intros [_ Hm]%in_get_queryset.
  apply Hne. by apply (matches_scope u q r).
Qed.

(** C26. A STAFF user whose [police_station] is empty is not scoped at
    all: the condition of line 88 is false, and with no parameters
    [get_queryset] returns the whole table, as for an ADMIN. *)
Theorem staff_without_station_unscoped u d :
  user_role u = STAFF -> user_station u = "" -> get_queryset u no_params d = rows d.
Proof.
  intros _ Hs. rewrite get_queryset_matches.
  apply filter_all_true. intros r _. unfold matches, scope_ok, staff_scoped.
  by rewrite Hs, andb_false_r.
Qed.

(** C27. The [status] parameter is not validated (spec section 4.1 says it
    must be one of the four values): any other non-empty text, such as
    ["BOGUS"], gives an empty listing instead of an error. *)
Theorem get_queryset_unknown_status u d s ps c se :
  s <> "" -> Status.of_string s = None -> get_queryset u (mkQuery (Some s) ps c se) d = [].
Proof.
  intros Hne Hs. rewrite get_queryset_matches.
  apply filter_all_false. intros r _. unfold matches, param_ok; simpl.
  destruct (String.eqb_spec s ""); [done|].
  destruct (String.eqb_spec (Status.to_string (status r)) s) as [<-|]; [|by rewrite andb_false_r].
  by destruct (status r).
Qed.
End ListingFacts.

(** ** The theorems on a concrete table *)

Module ListingExamples.
Import Listing ListingFacts.

Definition ex_staff : user := mkUser 2 "staff" STAFF "Cantt".

Definition ex_cantt : application :=
  mkApplication 1 "1001" "D-1" "Ali Khan" "0300" "" None "" "" "Cantt" "City" "Land"
    Status.PENDING None Feedback.PENDING "" None None.

Definition ex_saddar : application :=
  mkApplication 2 "1002" "D-2" "Bano" "0301" "" None "" "" "Saddar" "City" "Land"
    Status.PENDING None Feedback.PENDING "" None None.

Definition ex_table : db := mkDb [ex_cantt; ex_saddar] 3.

(** A STAFF user of Cantt asking for [police_station=Saddar] and searching
    [ali]. *)
Definition ex_query : query_params := mkQuery None (Some "Saddar") None (Some "ali").

Lemma get_queryset_staff_scope_witness :
  police_station ex_cantt = user_station ex_staff.
Proof.
  apply (get_queryset_staff_scope ex_staff (mkQuery None None None (Some "ali")) ex_table);
    [reflexivity|vm_compute; left; reflexivity].
Defined.

Lemma get_queryset_search_case_witness :
  get_queryset ex_staff (mkQuery (q_status ex_query) (q_police_station ex_query)
                                 (q_category ex_query) (Some "ALI")) ex_table =
  get_queryset ex_staff (mkQuery (q_status ex_query) (q_police_station ex_query)
                                 (q_category ex_query) (Some "ali")) ex_table.
Proof. apply get_queryset_search_case. reflexivity. Defined.
Lemma viewset_listing_unscoped_witness :
  In ex_saddar (viewset_queryset ex_staff ex_query ex_table) /\ ~ In ex_saddar (get_queryset ex_staff ex_query ex_table).
Proof. apply viewset_listing_unscoped; [reflexivity|right; left; reflexivity|discriminate]. Defined.

Lemma staff_without_station_unscoped_witness :
  get_queryset (mkUser 3 "new staff" STAFF "") no_params ex_table = rows ex_table.
Proof. apply staff_without_station_unscoped; reflexivity. Defined.

Lemma get_queryset_unknown_status_witness :
  get_queryset ex_staff (mkQuery (Some "BOGUS") None None None) ex_table = [].
Proof. apply get_queryset_unknown_status; [discriminate|reflexivity]. Defined.
End ListingExamples.
