(* ===== verification/Workflow.v ===== *)
(** * The status and feedback actions

    [update_status] and [update_feedback] (src/backend/core/views.py,
    lines 122-159) load one record by primary key, check the requested
    value against a fixed list, overwrite the field and save.  In the source
    both are indented under the module-level [get_queryset], after its
    [return] (lines 118-159): they are nested functions that are never
    registered as routes.  This file models them as written, with the
    [get_object] of the view set (the whole table, 404 on a missing key). *)

From S2P Require Import Prelude PyValue Model.
Open Scope string_scope.

Module Workflow.
Import Store.

(** [self.get_object()]: the row with the URL's primary key in the view
    set's queryset, [None] for DRF's 404. *)
Definition get_object (d : db) (pk : Z) : option application := lookup_id d pk.

(** [application.status = new_status] *)
Definition set_status (r : application) (s : Status.t) : application :=
  mkApplication (app_id r) (sr_no r) (dairy_no r) (name r) (contact r)
    (marked_to r) (app_date r) (marked_by r) (timeline r) (police_station r)
    (division r) (category r) s (days r) (feedback r) (remarks r)
    (dairy_ps r) (created_by r).

(** [application.feedback = feedback] *)
Definition set_feedback (r : application) (f : Feedback.t) : application :=
  mkApplication (app_id r) (sr_no r) (dairy_no r) (name r) (contact r)
    (marked_to r) (app_date r) (marked_by r) (timeline r) (police_station r)
    (division r) (category r) (status r) (days r) f (remarks r)
    (dairy_ps r) (created_by r).

(** [application.remarks = remarks] *)
Definition set_remarks (r : application) (m : string) : application :=
  mkApplication (app_id r) (sr_no r) (dairy_no r) (name r) (contact r)
    (marked_to r) (app_date r) (marked_by r) (timeline r) (police_station r)
    (division r) (category r) (status r) (days r) (feedback r) m
    (dairy_ps r) (created_by r).

(** [feedback not in ['POSITIVE', 'NEGATIVE']]: [PENDING] is refused. *)
Definition feedback_of_string (s : string) : option Feedback.t :=
  if String.eqb s "POSITIVE" then Some Feedback.POSITIVE
  else if String.eqb s "NEGATIVE" then Some Feedback.NEGATIVE
  else None.

(** The string value of a field of [request.data]; [None] when absent,
    null or not a string (none of which is in the lists checked). *)
Definition data_field := option string.

(** [value in [...]] on such a field, with the parsed value. *)
Definition parse_field {A} (parse : string -> option A) (v : data_field) : option A :=
  match v with Some s => parse s | None => None end.

(** Lines 122-138. *)
Definition update_status (d : db) (pk : Z) (new_status : data_field)
    : response application * db :=
  match get_object d pk with
  | None => (Response404, d)
  | Some app =>
      match parse_field Status.of_string new_status with
      | None => (Response400 "Invalid status", d)
      | Some s =>
          let app' := set_status app s in
          (Response200 app', save d app')
      end
  end.

(** Lines 140-159; [remarks = request.data.get('remarks', '')] is any JSON
    value of the body ([None] when absent, the default [''] being falsy);
    [if remarks:] tests its truth, and the TextField stores [str(remarks)]. *)
Definition update_feedback (d : db) (pk : Z) (fb : data_field) (remarks : option pyval)
    : response application * db :=
  match get_object d pk with
  | None => (Response404, d)
  | Some app =>
      match parse_field feedback_of_string fb with
      | None => (Response400 "Invalid feedback", d)
      | Some f =>
          let app1 := set_feedback app f in
          let app2 := match remarks with
                      | Some m => if truthy m then set_remarks app1 (py_str m) else app1
                      | None => app1
                      end in
          (Response200 app2, save d app2)
      end
  end.
End Workflow.

Module WorkflowFacts.
Import Store StoreFacts Workflow.

Lemma status_of_to_string s : Status.of_string (Status.to_string s) = Some s.
Proof. by destruct s. Qed.

(** The write-back of both actions: the record loaded by [get_object] with
    its key, serial number and days unchanged. *)
Definition writes_back (d : db) (pk : Z) (d' : db) : Prop :=
  d' = d \/ exists app r, get_object d pk = Some app /\ d' = save d r /\
    app_id r = app_id app /\ sr_no r = sr_no app /\ days r = days app /\
    created_by r = created_by app.

Lemma update_status_writes_back d pk ns : writes_back d pk (snd (update_status d pk ns)).
Proof.
  unfold update_status, writes_back.
  destruct (get_object d pk) as [app|] eqn:Hg; [|by left].
  destruct (parse_field Status.of_string ns) as [st|]; [|by left].
  right. by exists app, (set_status app st).
Qed.

Lemma update_feedback_writes_back d pk fb rm : writes_back d pk (snd (update_feedback d pk fb rm)).
Proof.
  unfold update_feedback, writes_back.
  destruct (get_object d pk) as [app|] eqn:Hg; [|by left].
  destruct (parse_field feedback_of_string fb) as [f|]; [|by left].
  right. exists app. eexists. split; [done|]. split; [reflexivity|].
  destruct rm as [m|]; [destruct (truthy m)|]; done.
Qed.

(** A write-back keeps the rows well typed. *)
Lemma writes_back_typed uids d pk d' :
  rows_typed uids d -> writes_back d pk d' -> rows_typed uids d'.
Proof.
  intros Ht [-> | (app & r & Hg & -> & _ & Hs & _ & Hby)]; [done|].
  apply (rows_typed_sub uids d); [done|]. intros y [->|[Hy _]]%in_save_inv; [right|by left].
  apply lookup_id_some in Hg as [Hin _]. unfold rows_typed in Ht. rewrite Forall_forall in Ht.
  destruct (Ht app (proj2 (list_elem_of_In _ _) Hin)) as [Ha Hb]. unfold row_typed. by rewrite Hs, Hby.
Qed.

(** A write-back keeps the table invariant and the serial numbers. *)
Lemma writes_back_inv d pk d' :
  inv d -> writes_back d pk d' -> inv d' /\ map sr_no (rows d') = map sr_no (rows d).
Proof.
  intros Hinv [-> | (app & r & Hg & -> & Hi & Hs & _)]; [done|].
  apply lookup_id_some in Hg as [Hin _]. split; [by apply (save_inv d app)|].
  apply (save_map_eq sr_no d app r); [apply Hinv|done..].
Qed.

(** C24. An unknown status (for instance ["BOGUS"]) is refused with 400
    and the record keeps its status (spec section 8). *)
Theorem update_status_invalid d pk app ns :
  get_object d pk = Some app -> parse_field Status.of_string ns = None ->
  update_status d pk ns = (Response400 "Invalid status", d).
Proof. intros Hg Hp. unfold update_status. by rewrite Hg, Hp. Qed.

(** A listed status overwrites the record's status whatever it was:
    the transitions are unconstrained (CLOSED may go back to PENDING), no
    other field and no other record changes, and the table invariant is
    kept. *)
Theorem update_status_sets d pk app s st :
  inv d -> get_object d pk = Some app -> Status.of_string s = Some st ->
  fst (update_status d pk (Some s)) = Response200 (set_status app st) /\
  get_object (snd (update_status d pk (Some s))) pk = Some (set_status app st) /\
  (forall i, i <> pk -> get_object (snd (update_status d pk (Some s))) i = get_object d i) /\
  inv (snd (update_status d pk (Some s))).
Proof.
  intros Hinv Hg Hs. unfold update_status. rewrite Hg. unfold parse_field. rewrite Hs.
  cbn -[save set_status lookup_id].
  apply lookup_id_some in Hg as [Hin <-].
  unfold get_object. split; [done|]. by apply save_existing.
Qed.

(** The remarks [update_feedback] stores: [str()] of the new value when
    it is truthy, else the old remarks. *)
Definition new_remarks (old : string) (remarks : option pyval) : string :=
  match remarks with
  | Some m => if truthy m then py_str m else old
  | None => old
  end.

(** A listed feedback is stored; the remarks are overwritten only by a
    truthy value (as its [str()]), an empty, null, zero or absent
    [remarks] keeping the old ones
    (spec section 8); status, other records and the invariant are kept. *)
Theorem update_feedback_sets d pk app f fb rm :
  inv d -> get_object d pk = Some app -> feedback_of_string f = Some fb ->
  exists r, fst (update_feedback d pk (Some f) rm) = Response200 r /\
    get_object (snd (update_feedback d pk (Some f) rm)) pk = Some r /\
    feedback r = fb /\ remarks r = new_remarks (remarks app) rm /\
    status r = status app /\
    (forall i, i <> pk -> get_object (snd (update_feedback d pk (Some f) rm)) i = get_object d i) /\
    inv (snd (update_feedback d pk (Some f) rm)).
Proof.
  intros Hinv Hg Hf. unfold update_feedback. rewrite Hg. unfold parse_field. rewrite Hf.
  cbn -[save set_feedback set_remarks lookup_id].
  apply lookup_id_some in Hg as [Hin <-].
  set (r := match rm with
            | Some m => if truthy m then set_remarks (set_feedback app fb) (py_str m) else set_feedback app fb
            | None => set_feedback app fb
            end).
  assert (app_id r = app_id app /\ sr_no r = sr_no app /\ feedback r = fb /\
          remarks r = new_remarks (remarks app) rm /\ status r = status app) as (Hi & Hs & Hfb & Hrm & Hst)
    by (unfold r, new_remarks; destruct rm as [m|]; [destruct (truthy m)|]; done).
  exists r. unfold get_object. split; [done|].
  destruct (save_existing d app r Hinv Hin Hi Hs) as (H1 & H2 & H3). repeat (split; [assumption|]); assumption.
Qed.

(** A feedback outside [POSITIVE]/[NEGATIVE] (including [PENDING])
    is refused with 400 and the table is unchanged. *)
Theorem update_feedback_invalid d pk app fb rm :
  get_object d pk = Some app -> parse_field feedback_of_string fb = None ->
  update_feedback d pk fb rm = (Response400 "Invalid feedback", d).
Proof. intros Hg Hp. unfold update_feedback. by rewrite Hg, Hp. Qed.

(** Both actions answer 404 for a primary key that is not in the
    table, before looking at the request body, and change nothing. *)
Theorem workflow_not_found d pk ns fb rm :
  get_object d pk = None ->
  update_status d pk ns = (Response404, d) /\ update_feedback d pk fb rm = (Response404, d).
Proof. intros Hg. unfold update_status, update_feedback. by rewrite Hg. Qed.
End WorkflowFacts.

(** ** The theorems on a concrete table *)

Module WorkflowExamples.
Import Store Workflow WorkflowFacts.

Definition ex_closed : application :=
  mkApplication 4 "1004" "D-4" "Zain" "0302" "" None "" "" "Cantt" "City" "Land"
    Status.CLOSED None Feedback.PENDING "old note" None None.

Definition ex_wf_table : db := mkDb [ex_closed] 5.

Lemma update_status_invalid_witness :
  update_status ex_wf_table 4 (Some "BOGUS") = (Response400 "Invalid status", ex_wf_table).
Proof. apply (update_status_invalid _ _ ex_closed); reflexivity. Defined.

(** A CLOSED record goes back to PENDING. *)
Lemma update_status_sets_witness :
  fst (update_status ex_wf_table 4 (Some "PENDING")) = Response200 (set_status ex_closed Status.PENDING) /\
  get_object (snd (update_status ex_wf_table 4 (Some "PENDING"))) 4 = Some (set_status ex_closed Status.PENDING) /\
  (forall i, i <> 4%Z -> get_object (snd (update_status ex_wf_table 4 (Some "PENDING"))) i = get_object ex_wf_table i) /\
  inv (snd (update_status ex_wf_table 4 (Some "PENDING"))).
Proof. apply update_status_sets; [decide_closed|reflexivity..]. Defined.

(** An empty [remarks] keeps ["old note"]. *)
Lemma update_feedback_sets_witness :
  exists r, fst (update_feedback ex_wf_table 4 (Some "POSITIVE") (Some (PStr ""))) = Response200 r /\
    get_object (snd (update_feedback ex_wf_table 4 (Some "POSITIVE") (Some (PStr "")))) 4 = Some r /\
    feedback r = Feedback.POSITIVE /\ remarks r = new_remarks (remarks ex_closed) (Some (PStr "")) /\
    status r = status ex_closed /\
    (forall i, i <> 4%Z -> get_object (snd (update_feedback ex_wf_table 4 (Some "POSITIVE") (Some (PStr "")))) i = get_object ex_wf_table i) /\
    inv (snd (update_feedback ex_wf_table 4 (Some "POSITIVE") (Some (PStr "")))).
Proof. apply update_feedback_sets; [decide_closed|reflexivity..]. Defined.

Lemma update_feedback_invalid_witness :
  update_feedback ex_wf_table 4 (Some "PENDING") None = (Response400 "Invalid feedback", ex_wf_table).
Proof. apply (update_feedback_invalid _ _ ex_closed); reflexivity. Defined.

Lemma workflow_not_found_witness :
  update_status ex_wf_table 9 (Some "HEARD") = (Response404, ex_wf_table) /\
  update_feedback ex_wf_table 9 (Some "POSITIVE") None = (Response404, ex_wf_table).
Proof. apply workflow_not_found. reflexivity. Defined.

(** A JSON number as [remarks] is truthy and stored as its [str()]; a
    [false] keeps the old note. *)
Example ex_number_remarks :
  option_map remarks (get_object (snd (update_feedback ex_wf_table 4 (Some "NEGATIVE") (Some (PInt 5)))) 4) = Some "5" /\
  option_map remarks (get_object (snd (update_feedback ex_wf_table 4 (Some "NEGATIVE") (Some (PBool false)))) 4) = Some "old note".
Proof. vm_compute. split; reflexivity. Qed.
End WorkflowExamples.
