(* ===== verification/Stats.v ===== *)
(** * The dashboard statistics and the value lists

    [dashboard_stats] (src/backend/core/views.py, lines 259-315) counts the
    records of the caller's scope by status and feedback, groups them by
    category (top 10) and division, and, for an ADMIN only, groups the whole
    table by police station (top 10, with PENDING and HEARD sub-counts).
    [police_stations] and [categories] (lines 317-330) list the distinct
    values of a column.  A [values(..).annotate(count=Count('id'))] query is
    modelled as one group per distinct value with its count, and
    [order_by('-count')] as a sort by decreasing count; the order SQL gives
    to groups with equal counts is unspecified, and the theorems say
    nothing about it. *)

From S2P Require Import Prelude PyValue Model Query.
From stdpp Require Import sorting.
Open Scope string_scope.

Module Stats.
Import Listing.

(** Lines 265-270: the base queryset, scoped like the listing. *)
Definition base_queryset (u : user) (d : db) : list application := scope u (rows d).

(** [queryset.filter(status=...).count()] *)
Definition count_status (s : Status.t) (rs : list application) : nat :=
  count_if (fun r => bool_decide (status r = s)) rs.

Definition count_feedback (f : Feedback.t) (rs : list application) : nat :=
  count_if (fun r => bool_decide (feedback r = f)) rs.

(** The [overall_stats] dictionary, lines 273-281. *)
Record overall := mkOverall {
  total_applications : nat;
  pending : nat;
  heard : nat;
  referred : nat;
  closed : nat;
  positive_feedback : nat;
  negative_feedback : nat
}.

Definition overall_stats (rs : list application) : overall :=
  mkOverall (length rs) (count_status Status.PENDING rs) (count_status Status.HEARD rs)
    (count_status Status.REFERRED rs) (count_status Status.CLOSED rs)
    (count_feedback Feedback.POSITIVE rs) (count_feedback Feedback.NEGATIVE rs).

(** [values(field).annotate(count=Count('id'))]: one group per distinct
    value of the column. *)
Definition group_count (field : application -> string) (rs : list application)
    : list (string * nat) :=
  map (fun k => (k, count_if (fun r => String.eqb (field r) k) rs))
      (remove_dups (map field rs)).

(** [order_by('-count')]: decreasing counts. *)
Definition by_count_desc {A} (c : A -> nat) : relation A := fun a b => c b <= c a.

#[export] Instance by_count_desc_dec {A} (c : A -> nat) : RelDecision (by_count_desc c).
Proof. intros a b. unfold by_count_desc. apply _. Defined.

Definition order_by_count {A} (c : A -> nat) (l : list A) : list A :=
  merge_sort (by_count_desc c) l.

(** Lines 284-288: [category_stats], the ten largest categories. *)
Definition category_stats (rs : list application) : list (string * nat) :=
  take 10 (order_by_count snd (group_count category rs)).

(** A row of [police_station_stats]: station, count, PENDING, HEARD. *)
Record ps_row := mkPsRow { ps_name : string; ps_count : nat; ps_pending : nat; ps_heard : nat }.

Definition group_ps (rs : list application) : list ps_row :=
  map (fun k =>
         let g := List.filter (fun r => String.eqb (police_station r) k) rs in
         mkPsRow k (length g) (count_status Status.PENDING g) (count_status Status.HEARD g))
      (remove_dups (map police_station rs)).

(** Lines 291-301: only for an ADMIN, over the whole table. *)
Definition police_station_stats (u : user) (d : db) : list ps_row :=
  if bool_decide (user_role u = ADMIN) then take 10 (order_by_count ps_count (group_ps (rows d)))
  else [].

(** Lines 304-308: [division_stats], every division. *)
Definition division_stats (rs : list application) : list (string * nat) :=
  order_by_count snd (group_count division rs).

Record dashboard := mkDashboard {
  overall_part : overall;
  category_part : list (string * nat);
  police_station_part : list ps_row;
  division_part : list (string * nat)
}.

(** [dashboard_stats], lines 259-315. *)
Definition dashboard_stats (u : user) (d : db) : dashboard :=
  let qs := base_queryset u d in
  mkDashboard (overall_stats qs) (category_stats qs) (police_station_stats u d)
              (division_stats qs).

(** [values_list(field, flat=True).distinct()], lines 317-330. *)
Definition distinct_values (field : application -> string) (d : db) : list string :=
  remove_dups (map field (rows d)).

Definition police_stations (d : db) : list string := distinct_values police_station d.
Definition categories (d : db) : list string := distinct_values category d.
End Stats.

Module StatsFacts.
Import Listing ListingFacts Stats.

(** ** Groups *)

Lemma group_count_spec (field : application -> string) rs k n :
  (k, n) ∈ group_count field rs <->
  k ∈ map field rs /\ n = count_if (fun r => String.eqb (field r) k) rs.
Proof.
  unfold group_count. rewrite list_elem_of_fmap. split.
  - intros (k' & Hkn & Hk). injection Hkn as -> ->.
    split; [by apply elem_of_remove_dups|done].
  - intros [Hk ->]. exists k. split; [done|]. by apply elem_of_remove_dups.
Qed.

Lemma group_count_keys field rs : map fst (group_count field rs) = remove_dups (map field rs).
Proof. unfold group_count. rewrite map_map. simpl. apply map_id. Qed.

(** ** Ordering by count *)

#[export] Instance by_count_desc_total {A} (c : A -> nat) : Total (by_count_desc c).
Proof. intros a b. unfold by_count_desc. lia. Qed.

#[export] Instance by_count_desc_trans {A} (c : A -> nat) : Transitive (by_count_desc c).
Proof. intros a b e. unfold by_count_desc. lia. Qed.

Lemma order_by_count_perm {A} (c : A -> nat) l : order_by_count c l ≡ₚ l.
Proof. apply merge_sort_Permutation. Qed.

Lemma order_by_count_sorted {A} (c : A -> nat) l :
  StronglySorted (by_count_desc c) (order_by_count c l).
Proof. apply StronglySorted_merge_sort; apply _. Qed.

(** The first [n] of a list sorted by decreasing count: sorted, and no
    element left out has a larger count than one kept. *)
Lemma take_sorted_top {A} (c : A -> nat) n l x y :
  StronglySorted (by_count_desc c) l -> x ∈ take n l -> y ∈ l -> y ∉ take n l ->
  c y <= c x.
Proof.
  intros Hs Hx Hy Hny. rewrite <- (take_drop n l) in Hs, Hy.
  apply elem_of_app in Hy as [Hy|Hy]; [done|].
  exact (StronglySorted_app_1_elem_of _ _ _ x y Hs Hx Hy).
Qed.

Lemma elem_of_take_l {A} (x : A) n l : x ∈ take n l -> x ∈ l.
Proof. intros H. rewrite <- (take_drop n l). apply elem_of_app. by left. Qed.

Lemma take_sorted {A} (c : A -> nat) n l :
  StronglySorted (by_count_desc c) l -> StronglySorted (by_count_desc c) (take n l).
Proof. intros H. rewrite <- (take_drop n l) in H. by eapply StronglySorted_app_1_l. Qed.

Lemma count_if_pos (field : application -> string) (rs : list application) k :
  k ∈ map field rs -> 0 < count_if (fun r => String.eqb (field r) k) rs.
Proof.
  intros (r & <- & Hr)%list_elem_of_In%in_map_iff. unfold count_if.
  assert (In r (List.filter (fun r' => String.eqb (field r') (field r)) rs)) as H
    by (apply filter_In; by rewrite String.eqb_refl).
  destruct (List.filter _ rs); [done|simpl; lia].
Qed.

(** The top [n] groups of a column: their number, their order, their
    counts, and that no group left out is larger than one kept. *)
Lemma top_groups_spec (field : application -> string) (rs : list application) n :
  let l := take n (order_by_count snd (group_count field rs)) in
  length l = Nat.min n (length (remove_dups (map field rs))) /\
  StronglySorted (by_count_desc snd) l /\
  (forall k m, (k, m) ∈ l -> m = count_if (fun r => String.eqb (field r) k) rs /\ 0 < m) /\
  (forall k, k ∈ map field rs -> k ∉ map fst l -> forall e, e ∈ l ->
     count_if (fun r => String.eqb (field r) k) rs <= snd e).
Proof.
  intros l. pose proof (order_by_count_perm snd (group_count field rs)) as Hp.
  pose proof (order_by_count_sorted snd (group_count field rs)) as Hs.
  split; [|split; [by apply take_sorted|split]].
  - unfold l. rewrite length_take, (Permutation_length Hp).
    unfold group_count. by rewrite length_map.
  - intros k m Hk. apply elem_of_take_l in Hk. rewrite Hp in Hk.
    apply group_count_spec in Hk as [Hk ->]. split; [done|by apply count_if_pos].
  - intros k Hk Hn e He.
    assert ((k, count_if (fun r => String.eqb (field r) k) rs) ∈ order_by_count snd (group_count field rs)) as Hin
      by (rewrite Hp; by apply group_count_spec).
    apply (take_sorted_top snd n _ e _ Hs He Hin).
    intros Hin'. apply Hn. apply list_elem_of_In, in_map_iff. exists (k, count_if (fun r => String.eqb (field r) k) rs).
    split; [done|]. by apply list_elem_of_In.
Qed.

(** ** The overall counts *)

(** The four status counts of [overall_stats] add up to
    [total_applications], and the two feedback counts do not exceed it. *)
Theorem overall_stats_consistent rs :
  (pending (overall_stats rs) + heard (overall_stats rs) + referred (overall_stats rs) +
   closed (overall_stats rs) = total_applications (overall_stats rs))%nat /\
  (positive_feedback (overall_stats rs) + negative_feedback (overall_stats rs)
     <= total_applications (overall_stats rs))%nat.
Proof.
  simpl. unfold count_status, count_feedback. split.
  - apply count_if_partition4. intros r _. by destruct (status r).
  - induction rs as [|r rs IH]; [done|]. unfold count_if in *; simpl.
    destruct (feedback r); simpl; lia.
Qed.

(** The dashboard's total is the size of the caller's listing with
    no parameters: statistics and listing share the role scope. *)
Theorem dashboard_total_listing u d :
  total_applications (overall_part (dashboard_stats u d)) = length (get_queryset u no_params d).
Proof.
  simpl. unfold base_queryset. rewrite get_queryset_matches, scope_filter. f_equal.
  apply filter_ext. intros r. unfold matches, param_ok, search_ok. simpl.
  by rewrite !andb_true_r.
Qed.

(** C25. [category_stats] is the top ten of the categories of the
    caller's scope: [min 10 (number of categories)] entries, in decreasing
    count, each with its exact count, and no category left out has more
    records than one listed. *)
Theorem category_stats_top u d :
  let rs := base_queryset u d in
  let l := category_part (dashboard_stats u d) in
  length l = Nat.min 10 (length (remove_dups (map category rs))) /\
  StronglySorted (by_count_desc snd) l /\
  (forall k m, (k, m) ∈ l -> m = count_if (fun r => String.eqb (category r) k) rs /\ 0 < m) /\
  (forall k, k ∈ map category rs -> k ∉ map fst l -> forall e, e ∈ l ->
     count_if (fun r => String.eqb (category r) k) rs <= snd e).
Proof. apply top_groups_spec. Qed.

Lemma group_ps_nil rs : group_ps rs = [] <-> rs = [].
Proof.
  unfold group_ps. split; [|by intros ->].
  intros H%map_eq_nil. destruct rs as [|r rs]; [done|].
  assert (police_station r ∈ remove_dups (map police_station (r :: rs))) as Hin
    by (apply elem_of_remove_dups; left).
  rewrite H in Hin. by apply elem_of_nil in Hin.
Qed.

(** [police_station_stats] is empty for a caller who is not ADMIN;
    for an ADMIN it is non-empty exactly when the table is (spec
    section 8), and each entry counts the whole table, not the caller's
    scope: the station's records and their PENDING and HEARD records. *)
Theorem police_station_stats_spec u d :
  (user_role u <> ADMIN -> police_station_part (dashboard_stats u d) = []) /\
  (user_role u = ADMIN -> (police_station_part (dashboard_stats u d) = [] <-> rows d = [])) /\
  (forall e, e ∈ police_station_part (dashboard_stats u d) ->
     let g := List.filter (fun r => String.eqb (police_station r) (ps_name e)) (rows d) in
     ps_count e = length g /\ ps_pending e = count_status Status.PENDING g /\
     ps_heard e = count_status Status.HEARD g).
Proof.
  simpl. unfold police_station_stats. split; [|split].
  - intros Hr. by rewrite bool_decide_eq_false_2.
  - intros Hr. rewrite bool_decide_eq_true_2 by done.
    rewrite <- group_ps_nil. split; [|intros ->; done].
    intros H. apply (f_equal length) in H. rewrite length_take in H.
    rewrite (Permutation_length (order_by_count_perm ps_count _)) in H. simpl in H.
    destruct (group_ps (rows d)); [done|simpl in H; lia].
  - intros e He. case_bool_decide; [|by apply elem_of_nil in He].
    apply elem_of_take_l in He. rewrite (order_by_count_perm ps_count _) in He.
    unfold group_ps in He. apply list_elem_of_fmap in He as (k & -> & _). done.
Qed.

Lemma sum_snd_perm (l1 l2 : list (string * nat)) :
  l1 ≡ₚ l2 -> sum_list_with snd l1 = sum_list_with snd l2.
Proof. induction 1; simpl; lia. Qed.

(** Summing the per-key counts over keys listing every value once. *)
Lemma sum_counts (field : application -> string) (rs : list application) (ks : list string) :
  NoDup ks -> (forall r, In r rs -> field r ∈ ks) ->
  sum_list_with (fun k => count_if (fun r => String.eqb (field r) k) rs) ks = length rs.
Proof.
  intros Hnd. induction rs as [|r rs IH]; intros Hall; [apply sum_count_if_nil|].
  rewrite (sum_count_if_cons (fun k r => String.eqb (field r) k)).
  rewrite IH by (intros r' Hr'; apply Hall; by right).
  rewrite (sum_indicator String.eqb String.eqb_spec) by (done || (apply Hall; by left)).
  simpl. lia.
Qed.

Lemma division_stats_spec rs :
  map fst (division_stats rs) ≡ₚ remove_dups (map division rs) /\
  StronglySorted (by_count_desc snd) (division_stats rs) /\
  sum_list_with snd (division_stats rs) = length rs.
Proof.
  pose proof (order_by_count_perm snd (group_count division rs)) as Hp.
  unfold division_stats. split; [|split; [apply order_by_count_sorted|]].
  - rewrite Hp. by rewrite group_count_keys.
  - rewrite (sum_snd_perm _ _ Hp). unfold group_count. rewrite sum_list_with_map. simpl.
    apply sum_counts; [apply NoDup_remove_dups|].
    intros r Hr. apply elem_of_remove_dups, list_elem_of_In, in_map, Hr.
Qed.

(** [division_stats] lists every division of the caller's scope once,
    in decreasing count, and its counts add up to the scope's size. *)
Theorem division_stats_total u d :
  let rs := base_queryset u d in
  let l := division_part (dashboard_stats u d) in
  map fst l ≡ₚ remove_dups (map division rs) /\
  StronglySorted (by_count_desc snd) l /\
  sum_list_with snd l = length rs.
Proof. apply division_stats_spec. Qed.

(** [police_stations] and [categories] list each value of their
    column exactly once. *)
Theorem distinct_values_spec (field : application -> string) d s :
  NoDup (Stats.distinct_values field d) /\
  (s ∈ Stats.distinct_values field d <-> exists r, In r (rows d) /\ field r = s).
Proof.
  unfold Stats.distinct_values. split; [apply NoDup_remove_dups|].
  rewrite elem_of_remove_dups, list_elem_of_In, in_map_iff.
  split; intros (r & ? & ?); exists r; auto.
Qed.
End StatsFacts.
