(* ===== verification/Crud.v ===== *)
(** * The view set's generic actions

    [OpenCourtApplicationViewSet] (src/backend/core/views.py lines 74-78)
    is a DRF [ModelViewSet] over [OpenCourtApplication.objects.all()] with
    [OpenCourtApplicationSerializer]: besides the listing ([Query]) it
    serves [create] (201), [retrieve] (200/404), [update] and
    [partial_update] (200/400/404) and [destroy] (204/404).  DRF's [create]
    calls the hook [perform_create]; the class's own (lines 118-120), which
    would set [created_by], is not a method of the class (it is nested
    under the module-level [get_queryset]), so DRF's default
    [serializer.save()] runs and the creator stays NULL.  [create_with]
    takes the hook as an argument, [create] is DRF's default.

    The serializer lives in core/serializers.py, outside the sources; it is
    modelled from the spec's data model as a [ModelSerializer] over every
    field: [sr_no] required, non-blank and unique, [status] and [feedback]
    restricted to their choices, [days] a [PositiveIntegerField] within
    [0, 2^31-1] (the validators of the model field), the text fields
    defaulting to [''], the others to NULL.  DRF reports every invalid
    field; the model answers the message of the first one in field order. *)

From S2P Require Import Prelude PyValue Model ExcelImport.
Open Scope string_scope.

Module Crud.
Import Store Upload.

(** The request body: each field of the model, [None] when absent. *)
Record app_input := mkInput {
  in_sr_no : option string;
  in_dairy_no : option string;
  in_name : option string;
  in_contact : option string;
  in_marked_to : option string;
  in_date : option (option date);
  in_marked_by : option string;
  in_timeline : option string;
  in_police_station : option string;
  in_division : option string;
  in_category : option string;
  in_status : option string;
  in_days : option (option Z);
  in_feedback : option string;
  in_remarks : option string;
  in_dairy_ps : option (option string)
}.

(** [ChoiceField] on the feedback choices (PENDING included). *)
Definition feedback_choice (s : string) : option Feedback.t :=
  if String.eqb s "PENDING" then Some Feedback.PENDING
  else if String.eqb s "POSITIVE" then Some Feedback.POSITIVE
  else if String.eqb s "NEGATIVE" then Some Feedback.NEGATIVE
  else None.

(** DRF's message, the value in double quotes. *)
Definition not_a_choice (field s : string) : string :=
  let q := String (Ascii.ascii_of_nat 34) EmptyString in
  field +:+ ": " +:+ q +:+ s +:+ q +:+ " is not a valid choice.".

(** A choice field: absent keeps [dflt], present must parse. *)
Definition choice {A} (field : string) (parse : string -> option A) (o : option string) (dflt : A)
    : result string A :=
  match o with
  | None => Ok dflt
  | Some s => match parse s with Some a => Ok a | None => Err (not_a_choice field s) end
  end.

(** The [UniqueValidator] of [sr_no], the instance being updated excepted. *)
Definition sr_taken (d : db) (self : option Z) (k : string) : bool :=
  List.existsb (fun r => String.eqb (sr_no r) k && negb (bool_decide (Some (app_id r) = self))) (rows d).

(** [sr_no] on a full write: required, non-blank, unique; on a partial
    write an absent [sr_no] keeps [old]. *)
Definition check_sr (d : db) (self : option Z) (partial : bool) (old : string) (o : option string)
    : result string string :=
  match o with
  | None => if partial then Ok old else Err "sr_no: This field is required."
  | Some k =>
      if String.eqb k "" then Err "sr_no: This field may not be blank."
      else if sr_taken d self k then Err "sr_no: open court application with this sr no already exists."
      else Ok k
  end.

Definition pick {A} (o : option A) (old : A) : A := match o with Some a => a | None => old end.

(** The range Django gives a [PositiveIntegerField]
    ([integer_field_ranges] of the database operations; SQLite keeps the
    default ranges). *)
Definition positive_int_max : Z := 2147483647.

(** [days], a non-negative integer column ([PositiveIntegerField]):
    DRF's [IntegerField] with the model field's validators,
    [MaxValueValidator] first, then [MinValueValidator(0)]; null is
    allowed, absent keeps [old]. *)
Definition check_days (o : option (option Z)) (old : option Z) : result string (option Z) :=
  match o with
  | None => Ok old
  | Some None => Ok None
  | Some (Some n) =>
      if (positive_int_max <? n)%Z then
        Err ("days: Ensure this value is less than or equal to " +:+ z_str positive_int_max +:+ ".")
      else if (n <? 0)%Z then Err "days: Ensure this value is greater than or equal to 0."
      else Ok (Some n)
  end.

(** [serializer.is_valid()] then [serializer.save()] on [base], the
    instance (update) or the model's defaults (create). *)
Definition validate (d : db) (self : option Z) (partial : bool) (base : application) (x : app_input)
    : result string application :=
  k <- check_sr d self partial (sr_no base) (in_sr_no x) ;;
  st <- choice "status" Status.of_string (in_status x) (status base) ;;
  dy <- check_days (in_days x) (days base) ;;
  fb <- choice "feedback" feedback_choice (in_feedback x) (feedback base) ;;
  Ok (mkApplication (app_id base) k (pick (in_dairy_no x) (dairy_no base))
        (pick (in_name x) (name base)) (pick (in_contact x) (contact base))
        (pick (in_marked_to x) (marked_to base)) (pick (in_date x) (app_date base))
        (pick (in_marked_by x) (marked_by base)) (pick (in_timeline x) (timeline base))
        (pick (in_police_station x) (police_station base)) (pick (in_division x) (division base))
        (pick (in_category x) (category base)) st dy fb
        (pick (in_remarks x) (remarks base)) (pick (in_dairy_ps x) (dairy_ps base))
        (created_by base)).

(** A new instance with the model's defaults and the next id. *)
Definition defaults (i : Z) : application :=
  mkApplication i "" "" "" "" "" None "" "" "" "" "" Status.PENDING None Feedback.PENDING "" None None.

(** The class's [perform_create] (lines 118-120), which would save the
    caller as the creator; it is nested under the module-level
    [get_queryset], so DRF never calls it. *)
Definition perform_create_nested (u : user) (r : application) : application :=
  set_created_by r (user_id u).

(** [CreateModelMixin.create] with a [perform_create] hook: validation,
    the hook on the validated instance, the INSERT, 201. *)
Definition create_with (perform : application -> application) (d : db) (x : app_input)
    : response application * db :=
  match validate d None false (defaults (next_id d)) x with
  | Err e => (Response400 e, d)
  | Ok r => let r' := perform r in (Response201 r', mkDb (rows d ++ [r']) (next_id d + 1)%Z)
  end.

(** What DRF serves: the default [perform_create], [serializer.save()],
    which sets no creator. *)
Definition create (d : db) (x : app_input) : response application * db :=
  create_with (fun r => r) d x.

(** [RetrieveModelMixin.retrieve]: [get_object()] over the whole table. *)
Definition retrieve (d : db) (pk : Z) : response application :=
  match lookup_id d pk with Some r => Response200 r | None => Response404 end.

(** [UpdateModelMixin.update] ([partial] for PATCH). *)
Definition update (d : db) (pk : Z) (partial : bool) (x : app_input) : response application * db :=
  match lookup_id d pk with
  | None => (Response404, d)
  | Some r =>
      match validate d (Some pk) partial r x with
      | Err e => (Response400 e, d)
      | Ok r' => (Response200 r', save d r')
      end
  end.

(** [DestroyModelMixin.destroy]: [instance.delete()], 204. *)
Definition destroy (d : db) (pk : Z) : response unit * db :=
  match lookup_id d pk with
  | None => (Response404, d)
  | Some r => (Response204, mkDb (List.filter (fun r' => negb (app_id r' =? pk)%Z) (rows d)) (next_id d))
  end.
End Crud.

Module CrudFacts.
Import Store StoreFacts Upload Crud.

Lemma sr_taken_false d self k y :
  sr_taken d self k = false -> In y (rows d) -> sr_no y = k -> Some (app_id y) = self.
Proof.
  unfold sr_taken. intros Hf Hy Hk. destruct (decide (Some (app_id y) = self)) as [|Hne]; [done|].
  exfalso. assert (List.existsb (fun r => String.eqb (sr_no r) k && negb (bool_decide (Some (app_id r) = self))) (rows d) = true)
    as Ht by (apply existsb_exists; exists y; split; [done|]; rewrite Hk, String.eqb_refl; simpl;
              by rewrite bool_decide_eq_false_2).
  congruence.
Qed.

(** What a successful validation writes: the base's id and creator, and a
    serial number that is the base's (a partial write without [sr_no]) or
    one no other row holds. *)
Lemma validate_ok d self partial base x r :
  validate d self partial base x = Ok r ->
  app_id r = app_id base /\ created_by r = created_by base /\
  ((partial = true /\ sr_no r = sr_no base) \/ sr_taken d self (sr_no r) = false).
Proof.
  unfold validate. intros H. res_inv. simpl. split; [done|split; [done|]].
  match goal with H : check_sr _ _ _ _ _ = Ok _ |- _ => revert H end.
  unfold check_sr. destruct (in_sr_no x) as [k|].
  - destruct (String.eqb k ""); [discriminate|]. destruct (sr_taken d self k) eqn:E; [discriminate|].
    intros [= <-]. by right.
  - destruct partial; [|discriminate]. intros [= <-]. by left.
Qed.

(** The days value a successful validation writes is the base's or an
    admissible one. *)
Lemma validate_days d self partial base x r :
  validate d self partial base x = Ok r ->
  days r = days base \/ match days r with Some n => (0 <= n <= sqlite_int_max)%Z | None => True end.
Proof.
  unfold validate. intros H. res_inv. cbn [days].
  match goal with H : check_days _ _ = Ok _ |- _ => revert H end.
  unfold check_days. destruct (in_days x) as [[n|]|]; [|intros [= <-]; by right|intros [= <-]; by left].
  destruct (Z.ltb_spec positive_int_max n); [discriminate|]. destruct (Z.ltb_spec n 0); [discriminate|].
  intros [= <-]. right. unfold positive_int_max, sqlite_int_max in *. lia.
Qed.

(** Where the serial number a successful validation writes comes from:
    the body's, or the base's on a write without one. *)
Lemma validate_sr d self partial base x r :
  validate d self partial base x = Ok r ->
  (in_sr_no x = Some (sr_no r) /\ sr_no r <> "") \/
  (partial = true /\ in_sr_no x = None /\ sr_no r = sr_no base).
Proof.
  unfold validate. intros H. res_inv. cbn [sr_no].
  match goal with H : check_sr _ _ _ _ _ = Ok _ |- _ => revert H end.
  unfold check_sr. destruct (in_sr_no x) as [k|].
  - destruct (String.eqb_spec k ""); [discriminate|]. destruct (sr_taken d self k); [discriminate|].
    intros [= <-]. by left.
  - destruct partial; [|discriminate]. intros [= <-]. by right.
Qed.

(** Rewriting one row with a serial number no other row holds keeps the
    invariant. *)
Lemma save_rename_inv d x r :
  inv d -> In x (rows d) -> app_id r = app_id x ->
  (forall y, In y (rows d) -> sr_no y = sr_no r -> app_id y = app_id x) -> inv (save d r).
Proof.
  intros [Hwf Hu] Hx Hi Hsr. split; [by apply (save_wf d x)|].
  unfold sr_unique, save; cbn [rows]. destruct Hwf as [Hnd _]. unfold sr_unique in Hu.
  clear Hx. induction (rows d) as [|y l IH]; [constructor|]. simpl in *.
  apply NoDup_cons in Hnd as [Hy Hnd], Hu as [Hyu Hu]. apply NoDup_cons. split.
  - rewrite map_map. intros (w & Hw & Hwl)%list_elem_of_In%in_map_iff.
    destruct (Z.eqb_spec (app_id y) (app_id r)), (Z.eqb_spec (app_id w) (app_id r)); subst.
    + apply Hy. apply list_elem_of_In, in_map_iff. exists w. split; [congruence|done].
    + assert (app_id w = app_id x) by (apply Hsr; [by right|congruence]). lia.
    + assert (app_id y = app_id x) by (apply Hsr; [by left|congruence]). lia.
    + apply Hyu. apply list_elem_of_In, in_map_iff. by exists w.
  - apply IH; [done|done|]. intros z Hz. apply Hsr. by right.
Qed.

Lemma filter_nodup_map {A B} (g : A -> B) (p : A -> bool) l :
  NoDup (map g l) -> NoDup (map g (List.filter p l)).
Proof.
  induction l as [|y l IH]; simpl; [done|]. intros [Hy Hnd]%NoDup_cons.
  destruct (p y); simpl; [|by apply IH]. apply NoDup_cons. split; [|by apply IH].
  intros Hin. apply Hy. apply list_elem_of_In in Hin. apply list_elem_of_In.
  apply in_map_iff in Hin as (z & <- & Hz). apply filter_In in Hz as [Hz _]. by apply in_map.
Qed.

(** A creation through a hook that keeps the id and the serial number:
    the hook's image of the validated instance is appended under the next
    id, and the invariant holds. *)
Lemma create_with_ok perform d x r d' :
  (forall r0, app_id (perform r0) = app_id r0 /\ sr_no (perform r0) = sr_no r0) ->
  create_with perform d x = (Response201 r, d') -> inv d ->
  exists r0, validate d None false (defaults (next_id d)) x = Ok r0 /\ r = perform r0 /\
    app_id r = next_id d /\ rows d' = (rows d ++ [r])%list /\ inv d'.
Proof.
  intros Hp. unfold create_with.
  destruct (validate d None false (defaults (next_id d)) x) as [r0|e] eqn:Hv; [|discriminate].
  intros [= <- <-] [[Hnd Hlt] Hu]. exists r0. split; [done|split; [done|]].
  destruct (Hp r0) as [Hpi Hps]. rewrite Hpi.
  apply validate_ok in Hv as (Hi & _ & Hsr). cbn in Hi.
  split; [done|split; [done|]].
  assert (Hfresh : forall y, In y (rows d) -> sr_no y <> sr_no r0).
  { intros y Hy Hs. destruct Hsr as [[[=] _]|Hsr]. by pose proof (sr_taken_false d None _ y Hsr Hy Hs). }
  split; [split|]; cbn [rows next_id].
  - rewrite map_app. apply NoDup_app. split; [done|split; [|apply NoDup_singleton]].
    intros i Hi1 ->%list_elem_of_singleton. rewrite Hpi in Hi1.
    apply list_elem_of_In, in_map_iff in Hi1 as (y & Hy & Hyin).
    rewrite Forall_forall in Hlt. specialize (Hlt y (proj2 (list_elem_of_In _ _) Hyin)). lia.
  - apply Forall_app. split; [|constructor; [lia|constructor]].
    eapply Forall_impl; [exact Hlt|]. intros y Hy. simpl in Hy. lia.
  - unfold sr_unique; cbn [rows]. rewrite map_app. apply NoDup_app. split; [done|split; [|apply NoDup_singleton]].
    intros k Hk ->%list_elem_of_singleton. rewrite Hps in Hk.
    apply list_elem_of_In, in_map_iff in Hk as (y & Hy & Hyin). by apply (Hfresh y).
Qed.

Lemma create_ok d x r d' :
  create d x = (Response201 r, d') -> inv d ->
  app_id r = next_id d /\ created_by r = None /\ rows d' = (rows d ++ [r])%list /\ inv d'.
Proof.
  intros Hc Hinv. destruct (create_with_ok (fun r => r) d x r d' (fun _ => conj eq_refl eq_refl) Hc Hinv)
    as (r0 & Hv & -> & Hi & Hr & Hd'). apply validate_ok in Hv as (_ & Hby & _). done.
Qed.

Lemma create_inv d x : inv d -> inv (snd (create d x)).
Proof.
  intros Hinv. destruct (create d x) as [res d'] eqn:Hc. cbn [snd]. pose proof Hc as Hc'.
  unfold create, create_with in Hc'. destruct (validate d None false (defaults (next_id d)) x);
    injection Hc' as <- <-; [exact (proj2 (proj2 (proj2 (create_ok _ _ _ _ Hc Hinv))))|done].
Qed.

Lemma update_inv d pk partial x : inv d -> inv (snd (update d pk partial x)).
Proof.
  intros Hinv. unfold update. destruct (lookup_id d pk) as [r|] eqn:Hl; [|done].
  destruct (validate d (Some pk) partial r x) as [r'|e] eqn:Hv; [|done]. cbn [snd].
  apply lookup_id_some in Hl as [Hin <-]. apply validate_ok in Hv as (Hi & _ & Hsr).
  apply (save_rename_inv d r); [done|done|done|].
  intros y Hy Hs. destruct Hsr as [[_ Hsr]|Hsr].
  - rewrite Hsr in Hs. apply (nodup_map_inj_in sr_no (rows d) y r (proj2 Hinv) Hy Hin) in Hs as ->. done.
  - apply (sr_taken_false d (Some (app_id r)) _ y Hsr Hy) in Hs. congruence.
Qed.

Lemma destroy_inv d pk : inv d -> inv (snd (destroy d pk)).
Proof.
  intros [[Hnd Hlt] Hu]. unfold destroy. destruct (lookup_id d pk); [|done]. cbn [snd].
  split; [split|]; cbn [rows next_id].
  - by apply filter_nodup_map.
  - apply Forall_forall. intros y Hy%list_elem_of_In. apply filter_In in Hy as [Hy _].
    rewrite Forall_forall in Hlt. apply Hlt. by apply list_elem_of_In.
  - unfold sr_unique; cbn [rows]. by apply filter_nodup_map.
Qed.

(** A serial number an update removes is the updated record's, and the
    body carried a different one. *)
Lemma update_removes d pk partial x k :
  inv d -> In k (map sr_no (rows d)) -> ~ In k (map sr_no (rows (snd (update d pk partial x)))) ->
  exists r, lookup_id d pk = Some r /\ sr_no r = k /\ in_sr_no x <> None /\ in_sr_no x <> Some k.
Proof.
  intros Hinv Hk Hk'. unfold update in Hk'. destruct (lookup_id d pk) as [r|] eqn:Hl; [|done].
  destruct (validate d (Some pk) partial r x) as [r'|] eqn:Hv; [|done]. cbn [snd] in Hk'.
  exists r. pose proof Hl as [Hin Hid]%lookup_id_some. apply in_map_iff in Hk as (y & <- & Hy).
  assert (Hyr : app_id y = app_id r').
  { destruct (Z.eqb_spec (app_id y) (app_id r')) as [|Hne]; [done|]. exfalso. apply Hk'.
    apply in_map_iff. exists y. split; [done|]. unfold save; cbn [rows]. apply in_map_iff.
    exists y. by apply Z.eqb_neq in Hne as ->. }
  apply validate_ok in Hv as Hv'. destruct Hv' as (Hi & _).
  assert (y = r) as -> by (apply (nodup_map_inj_in app_id (rows d)); [exact (proj1 (proj1 Hinv))|done..|congruence]).
  assert (Hne : sr_no r' <> sr_no r).
  { intros Hs. apply Hk'. rewrite <- Hs. apply in_map. by apply (in_save d r). }
  split; [done|split; [done|]].
  destruct (validate_sr _ _ _ _ _ _ Hv) as [[-> _]|(_ & _ & Hs)]; [|done]. split; [done|congruence].
Qed.

(** A serial number a delete removes is the deleted record's. *)
Lemma destroy_removes d pk k :
  inv d -> In k (map sr_no (rows d)) -> ~ In k (map sr_no (rows (snd (destroy d pk)))) ->
  exists r, lookup_id d pk = Some r /\ sr_no r = k.
Proof.
  intros Hinv Hk Hk'. unfold destroy in Hk'. destruct (lookup_id d pk) as [r|] eqn:Hl; [|done].
  cbn [snd rows] in Hk'. exists r. split; [done|]. apply in_map_iff in Hk as (y & <- & Hy).
  destruct (Z.eqb_spec (app_id y) pk) as [Hid|Hne].
  - apply lookup_id_some in Hl as [Hin Hid'].
    by rewrite (nodup_map_inj_in app_id (rows d) y r (proj1 (proj1 Hinv)) Hy Hin) by congruence.
  - exfalso. apply Hk'. apply in_map, filter_In. split; [done|]. by apply Z.eqb_neq in Hne as ->.
Qed.

(** The view set's writes keep the days column in range: the serializer
    applies the model field's validators. *)
Lemma create_days d x : days_in_range d -> days_in_range (snd (create d x)).
Proof.
  intros Hd. unfold create, create_with.
  destruct (validate d None false (defaults (next_id d)) x) as [r|] eqn:Hv; [|done].
  apply (days_in_range_sub d); [done|]. cbn [snd rows]. intros y [Hy|[<-|[]]]%in_app_iff; [by left|right].
  by destruct (validate_days _ _ _ _ _ _ Hv) as [->|].
Qed.

Lemma update_days d pk partial x : days_in_range d -> days_in_range (snd (update d pk partial x)).
Proof.
  intros Hd. unfold update. destruct (lookup_id d pk) as [r|] eqn:Hl; [|done].
  destruct (validate d (Some pk) partial r x) as [r'|] eqn:Hv; [|done].
  apply (days_in_range_sub d); [done|]. cbn [snd]. intros y [->|[Hy _]]%in_save_inv; [right|by left].
  apply lookup_id_some in Hl as [Hin _].
  destruct (validate_days _ _ _ _ _ _ Hv) as [->|]; [|done].
  unfold days_in_range in Hd. rewrite Forall_forall in Hd. apply Hd. by apply list_elem_of_In.
Qed.

Lemma destroy_days d pk : days_in_range d -> days_in_range (snd (destroy d pk)).
Proof.
  intros Hd. unfold destroy. destruct (lookup_id d pk); [|done]. apply (days_in_range_sub d); [done|].
  cbn [snd rows]. intros y [Hy _]%filter_In. by left.
Qed.

(** The view set's writes keep the rows well typed: a created record has
    a validated, hence non-blank, serial number and no creator; an update
    keeps the creator and writes a validated serial number or the old one. *)
Lemma validate_typed uids d self partial base x r :
  row_typed uids base -> validate d self partial base x = Ok r -> row_typed uids r.
Proof.
  intros [Hs Hb] Hv. pose proof (validate_ok _ _ _ _ _ _ Hv) as (_ & Hby & _).
  split; [|by rewrite Hby].
  by destruct (validate_sr _ _ _ _ _ _ Hv) as [[_ ?]|(_ & _ & ->)].
Qed.

Lemma create_typed uids d x : rows_typed uids d -> rows_typed uids (snd (create d x)).
Proof.
  intros Ht. unfold create, create_with.
  destruct (validate d None false (defaults (next_id d)) x) as [r|] eqn:Hv; [|done].
  apply (rows_typed_sub uids d); [done|]. cbn [snd rows]. intros y [Hy|[<-|[]]]%in_app_iff; [by left|right].
  pose proof (validate_ok _ _ _ _ _ _ Hv) as (_ & Hby & _). split; [|by rewrite Hby].
  by destruct (validate_sr _ _ _ _ _ _ Hv) as [[_ ?]|[? _]]; [|discriminate].
Qed.

Lemma update_typed uids d pk partial x : rows_typed uids d -> rows_typed uids (snd (update d pk partial x)).
Proof.
  intros Ht. unfold update. destruct (lookup_id d pk) as [r|] eqn:Hl; [|done].
  destruct (validate d (Some pk) partial r x) as [r'|] eqn:Hv; [|done].
  apply (rows_typed_sub uids d); [done|]. cbn [snd]. intros y [->|[Hy _]]%in_save_inv; [right|by left].
  apply lookup_id_some in Hl as [Hin _]. apply (validate_typed uids d (Some pk) partial r x); [|done].
  unfold rows_typed in Ht. rewrite Forall_forall in Ht. apply Ht. by apply list_elem_of_In.
Qed.

Lemma destroy_typed uids d pk : rows_typed uids d -> rows_typed uids (snd (destroy d pk)).
Proof.
  intros Ht. unfold destroy. destruct (lookup_id d pk); [|done]. apply (rows_typed_sub uids d); [done|].
  cbn [snd rows]. intros y [Hy _]%filter_In. by left.
Qed.

(** C36. The default [perform_create] runs: a record created through the
    view set gets the next id, is appended to the table and has no
    creator, [created_by] staying NULL; the class's own [perform_create]
    (lines 118-120), were it a method, would have stamped the caller on the
    same record. *)
Theorem create_without_creator d x r d' u :
  inv d -> create d x = (Response201 r, d') ->
  app_id r = next_id d /\ created_by r = None /\ rows d' = (rows d ++ [r])%list /\
  create_with (perform_create_nested u) d x =
    (Response201 (set_created_by r (user_id u)),
     mkDb (rows d ++ [set_created_by r (user_id u)]) (next_id d + 1)%Z).
Proof.
  intros Hinv Hc. destruct (create_ok d x r d' Hc Hinv) as (? & ? & ? & _). do 3 (split; [done|]).
  unfold create, create_with in *. destruct (validate d None false (defaults (next_id d)) x); [|discriminate].
  by injection Hc as -> _.
Qed.

(** C10. Every write of the view set keeps the table's invariant and
    the days bound: the serializer's unique validator keeps serial numbers
    distinct through create, update and partial update, the days field's
    validators keep days within [0, 2^31-1], hence within the days bound,
    and delete only removes
    rows. *)
Theorem crud_keeps_inv d x pk partial :
  inv d -> days_in_range d ->
  (inv (snd (create d x)) /\ days_in_range (snd (create d x))) /\
  (inv (snd (update d pk partial x)) /\ days_in_range (snd (update d pk partial x))) /\
  (inv (snd (destroy d pk)) /\ days_in_range (snd (destroy d pk))).
Proof.
  intros Hinv Hd. split; [|split]; split;
    first [by apply create_inv|by apply update_inv|by apply destroy_inv
          |by apply create_days|by apply update_days|by apply destroy_days].
Qed.

(** C37. Records can be deleted: [destroy] removes the record, so its
    serial number is no longer in the table, although the spec says no
    specified operation deletes records. *)
Theorem destroy_deletes_record d pk r :
  inv d -> lookup_id d pk = Some r ->
  fst (destroy d pk) = Response204 /\ ~ In (sr_no r) (map sr_no (rows (snd (destroy d pk)))).
Proof.
  intros Hinv Hl. unfold destroy. rewrite Hl. split; [done|]. cbn [snd rows].
  apply lookup_id_some in Hl as [Hin <-].
  intros (y & Hs & Hy)%in_map_iff. apply filter_In in Hy as [Hy Hne].
  apply (nodup_map_inj_in sr_no (rows d) y r (proj2 Hinv) Hy Hin) in Hs as ->.
  by rewrite Z.eqb_refl in Hne.
Qed.
End CrudFacts.

(** ** The theorems on a concrete table *)

Module CrudExamples.
Import Store Upload Crud CrudFacts.

Definition ex_rec : application :=
  mkApplication 1 "1001" "D-1" "Ali" "0300" "" None "" "" "Cantt" "City" "Land"
    Status.HEARD None Feedback.POSITIVE "" None (Some 7%Z).

Definition ex_crud_db : db := mkDb [ex_rec] 2.

Definition ex_input : app_input :=
  mkInput (Some "1002") (Some "D-2") (Some "Bano") None None None None None (Some "Saddar")
    None (Some "Service") None (Some (Some 3%Z)) None None None.

Definition ex_created : response application * db := create ex_crud_db ex_input.

Definition ex_new : application :=
  match fst ex_created with Response201 r => r | _ => defaults 0 end.

Definition ex_clerk : user := mkUser 7 "clerk" STAFF "Saddar".

Lemma create_without_creator_witness :
  app_id ex_new = next_id ex_crud_db /\ created_by ex_new = None /\
  rows (snd ex_created) = (rows ex_crud_db ++ [ex_new])%list /\
  create_with (perform_create_nested ex_clerk) ex_crud_db ex_input =
    (Response201 (set_created_by ex_new 7),
     mkDb (rows ex_crud_db ++ [set_created_by ex_new 7]) (next_id ex_crud_db + 1)%Z).
Proof.
  apply (create_without_creator ex_crud_db ex_input ex_new (snd ex_created) ex_clerk);
    [decide_closed|vm_compute; reflexivity].
Defined.

(** Creating ["1002"], patching record 1 to serial number ["1002"], and
    deleting record 1. *)
Lemma crud_keeps_inv_witness :
  (inv (snd (create ex_crud_db ex_input)) /\ days_in_range (snd (create ex_crud_db ex_input))) /\
  (inv (snd (update ex_crud_db 1 true ex_input)) /\ days_in_range (snd (update ex_crud_db 1 true ex_input))) /\
  (inv (snd (destroy ex_crud_db 1)) /\ days_in_range (snd (destroy ex_crud_db 1))).
Proof. apply (crud_keeps_inv ex_crud_db ex_input 1 true); decide_closed. Defined.

Lemma destroy_deletes_record_witness :
  fst (destroy ex_crud_db 1) = Response204 /\ ~ In (sr_no ex_rec) (map sr_no (rows (snd (destroy ex_crud_db 1)))).
Proof. apply destroy_deletes_record; [decide_closed|reflexivity]. Defined.
(** The import runs no validators: a sheet row with days
    ["3000000000"] is stored, while the view set refuses that value for
    the same record. *)
Definition ex_big_days_row : list pyval :=
  [PInt 9; PStr "D-9"; PStr "Zaid"; PNone; PNone; PNone;
   PNone; PNone; PStr "Cantt"; PNone; PNone; PNone; PStr "3000000000"].

Definition ex_days_input : app_input :=
  mkInput None None None None None None None None None None None None
    (Some (Some 3000000000%Z)) None None None.

Lemma import_days_beyond_api :
  (let d := match process_row ex_clerk ex_crud_db ex_big_days_row with Ok (_, d) => d | Err _ => ex_crud_db end in
   map days (rows d) = [None; Some 3000000000%Z] /\
   fst (update d 2 true ex_days_input) =
     Response400 "days: Ensure this value is less than or equal to 2147483647.").
Proof. vm_compute. split; reflexivity. Qed.
End CrudExamples.
