(* ===== verification/Auth.v ===== *)
(** * Access control: [login_view], [logout_view], [current_user]

    The three views of src/backend/core/views.py lines 24-71 sit on
    Django's [authenticate] (the model backend) and on simplejwt's
    [RefreshToken] with its blacklist application: [login_view] issues a
    refresh token and its access token, [logout_view] blacklists a refresh
    token, [current_user] serializes the caller.  Every other view is
    guarded by [IsAuthenticated] and simplejwt's [JWTAuthentication], which
    turns the bearer access token into the caller ([jwt_authenticate]).

    A token's string form is a signed JWT.  The development does not model
    base64, JSON or HMAC: it states what the views rely on as a typeclass,
    [TokenCodec] with its laws [TokenCodecLaws] (a token's string decodes
    back to it, and only such strings decode), proves the views' theorems
    against the laws, and gives one instance, [tag_codec], that discharges
    them, so the laws are satisfiable.  The state is the user table with
    credentials, the [OutstandingToken] and [BlacklistedToken] tables, and
    the source of fresh token ids ([jti], a uuid4 in simplejwt, a counter
    here: what matters is that it is fresh).  Time is the argument [now] in
    seconds; the lifetimes are simplejwt's defaults. *)

From S2P Require Import Prelude PyValue Model.
From stdpp Require Import gmap.
From Stdlib Require Import Ascii.
Open Scope string_scope.

(** ** Tokens and their encoding *)

Module Jwt.

Inductive token_type := Refresh | Access.

#[global] Instance token_type_eq_dec : EqDecision token_type.
Proof. solve_decision. Defined.

(** The claims simplejwt puts in a token: [token_type], [jti],
    [user_id] (absent from a token built by [RefreshToken()]), [iat] and
    [exp]. *)
Record token := mkToken {
  tok_type : token_type;
  tok_jti : Z;
  tok_user : option Z;
  tok_iat : Z;
  tok_exp : Z
}.

#[global] Instance token_eq_dec : EqDecision token.
Proof. solve_decision. Defined.

(** [str(token)] and simplejwt's [TokenBackend.decode] (signature check
    included). *)
Class TokenCodec := {
  encode : token -> string;
  decode : string -> option token
}.

(** What the views rely on: a token's string decodes to the token, and a
    string that decodes is the string of that token (no forgery). *)
Class TokenCodecLaws `{TokenCodec} : Prop := {
  decode_encode : forall t, decode (encode t) = Some t;
  decode_sound : forall s t, decode s = Some t -> encode t = s
}.

(** *** A concrete codec

    Integers as a sign tag and their binary digits, least significant
    first, closed by [;]; a token as its type tag and its claims in order.
    Decoding re-encodes and compares, which makes it sound. *)

Fixpoint pos_bits (p : positive) : string :=
  match p with
  | xI q => String "1" (pos_bits q)
  | xO q => String "0" (pos_bits q)
  | xH => String ";" EmptyString
  end.

Fixpoint parse_pos (s : string) : option (positive * string) :=
  match s with
  | EmptyString => None
  | String c rest =>
      if Ascii.eqb c "1" then option_map (fun '(p, r) => (xI p, r)) (parse_pos rest)
      else if Ascii.eqb c "0" then option_map (fun '(p, r) => (xO p, r)) (parse_pos rest)
      else if Ascii.eqb c ";" then Some (xH, rest)
      else None
  end.

Definition z_enc (n : Z) : string :=
  match n with
  | Z0 => "z"
  | Zpos p => String "p" (pos_bits p)
  | Zneg p => String "m" (pos_bits p)
  end.

Definition parse_z (s : string) : option (Z * string) :=
  match s with
  | String c rest =>
      if Ascii.eqb c "z" then Some (Z0, rest)
      else if Ascii.eqb c "p" then option_map (fun '(p, r) => (Zpos p, r)) (parse_pos rest)
      else if Ascii.eqb c "m" then option_map (fun '(p, r) => (Zneg p, r)) (parse_pos rest)
      else None
  | EmptyString => None
  end.

Definition opt_enc (o : option Z) : string :=
  match o with None => "n" | Some n => String "s" (z_enc n) end.

Definition parse_opt (s : string) : option (option Z * string) :=
  match s with
  | String c rest =>
      if Ascii.eqb c "n" then Some (None, rest)
      else if Ascii.eqb c "s" then option_map (fun '(n, r) => (Some n, r)) (parse_z rest)
      else None
  | EmptyString => None
  end.

Definition tag_encode (t : token) : string :=
  String (match tok_type t with Refresh => "R" | Access => "A" end)
    (z_enc (tok_jti t) +:+ opt_enc (tok_user t) +:+ z_enc (tok_iat t) +:+ z_enc (tok_exp t)).

Definition parse_token (s : string) : option token :=
  match s with
  | String c rest =>
      ty ← (if Ascii.eqb c "R" then Some Refresh else if Ascii.eqb c "A" then Some Access else None);
      '(j, r1) ← parse_z rest;
      '(u, r2) ← parse_opt r1;
      '(i, r3) ← parse_z r2;
      '(e, _) ← parse_z r3;
      Some (mkToken ty j u i e)
  | EmptyString => None
  end.

Definition tag_decode (s : string) : option token :=
  match parse_token s with
  | Some t => if String.eqb (tag_encode t) s then Some t else None
  | None => None
  end.

#[global] Instance tag_codec : TokenCodec := {| encode := tag_encode; decode := tag_decode |}.

(** *** The concrete codec satisfies the laws *)

Lemma str_app_assoc (a b c : string) : (a +:+ b) +:+ c = a +:+ (b +:+ c).
Proof. induction a as [|x a IH]; [done|]. autorewrite with oc_rw. by rewrite IH. Qed.

Lemma str_app_nil_r (a : string) : a +:+ "" = a.
Proof. induction a as [|x a IH]; [done|]. autorewrite with oc_rw. by rewrite IH. Qed.

Lemma parse_pos_bits p r : parse_pos (pos_bits p +:+ r) = Some (p, r).
Proof. induction p as [q IH|q IH|]; cbn -[String.append]; autorewrite with oc_rw; cbn; by rewrite ?IH. Qed.

Lemma parse_z_enc n r : parse_z (z_enc n +:+ r) = Some (n, r).
Proof. destruct n as [|p|p]; cbn -[String.append]; autorewrite with oc_rw; cbn; by rewrite ?parse_pos_bits. Qed.

Lemma parse_opt_enc o r : parse_opt (opt_enc o +:+ r) = Some (o, r).
Proof. destruct o as [n|]; cbn -[String.append]; autorewrite with oc_rw; cbn; by rewrite ?parse_z_enc. Qed.

Lemma parse_tag_encode t : parse_token (tag_encode t) = Some t.
Proof.
  destruct t as [ty j u i e]. unfold tag_encode, parse_token. cbn [tok_type tok_jti tok_user tok_iat tok_exp].
  replace (z_enc e) with (z_enc e +:+ "") by apply str_app_nil_r.
  destruct ty; cbn -[String.append]; rewrite parse_z_enc; cbn -[String.append]; rewrite parse_opt_enc; cbn -[String.append];
    rewrite parse_z_enc; cbn -[String.append]; rewrite parse_z_enc; reflexivity.
Qed.

#[global] Instance tag_codec_laws : TokenCodecLaws.
Proof.
  split; cbn [encode decode tag_codec]; unfold tag_decode.
  - intros t. rewrite parse_tag_encode. by rewrite String.eqb_refl.
  - intros s t. destruct (parse_token s) as [t'|]; [|done].
    destruct (String.eqb_spec (tag_encode t') s); congruence.
Qed.
End Jwt.

(** ** The authentication state and the views *)

Module Auth.
Import Jwt.

(** simplejwt's default [ACCESS_TOKEN_LIFETIME] (5 minutes) and
    [REFRESH_TOKEN_LIFETIME] (1 day), in seconds. *)
Definition access_lifetime : Z := 300.
Definition refresh_lifetime : Z := 86400.

(** A row of the user table: the [user] the views see, the password
    [check_password] compares against (the hash is not modelled), and
    [is_active]. *)
Record account := mkAccount {
  acc_user : user;
  acc_password : string;
  acc_active : bool
}.

(** A row of [OutstandingToken]: the token's id, its user, its string and
    its expiry. *)
Record outstanding_token := mkOutstanding {
  ot_jti : Z;
  ot_user : option Z;
  ot_token : string;
  ot_expires : Z
}.

Record auth_state := mkAuthState {
  accounts : list account;
  outstanding : list outstanding_token;
  blacklisted : gset Z;
  next_jti : Z
}.

(** The body of a successful login. *)
Record login_body := mkLoginBody {
  refresh_str : string;
  access_str : string;
  login_user : user
}.

Section Views.
Context `{TokenCodec}.

(** Django's [authenticate(username=..., password=...)] with the model
    backend: the user with that username ([get_by_natural_key], the value
    converted by [str] as the ORM does), if the password checks and the
    user [is_active]. *)
Definition authenticate (st : auth_state) (username password : pyval) : option user :=
  match List.find (fun a => String.eqb (Model.username (acc_user a)) (py_str username)) (accounts st) with
  | Some a => if String.eqb (acc_password a) (py_str password) && acc_active a
              then Some (acc_user a) else None
  | None => None
  end.

(** [RefreshToken()]: a fresh refresh token with no user. *)
Definition new_refresh (now : Z) (st : auth_state) : token * auth_state :=
  (mkToken Refresh (next_jti st) None now (now + refresh_lifetime),
   mkAuthState (accounts st) (outstanding st) (blacklisted st) (next_jti st + 1)).

(** [RefreshToken.for_user(user)] with the blacklist application: the
    token carries [user_id] and is recorded as outstanding. *)
Definition for_user (u : user) (now : Z) (st : auth_state) : token * auth_state :=
  let t := mkToken Refresh (next_jti st) (Some (user_id u)) now (now + refresh_lifetime) in
  (t, mkAuthState (accounts st)
        (outstanding st ++ [mkOutstanding (tok_jti t) (Some (user_id u)) (encode t) (tok_exp t)])%list
        (blacklisted st) (next_jti st + 1)).

(** [refresh.access_token]: a fresh [jti], the expiry counted from the
    refresh token's time, its other claims copied. *)
Definition access_of (r : token) (st : auth_state) : token * auth_state :=
  (mkToken Access (next_jti st) (tok_user r) (tok_iat r) (tok_iat r + access_lifetime),
   mkAuthState (accounts st) (outstanding st) (blacklisted st) (next_jti st + 1)).

(** Lines 24-50. *)
Definition login_view (st : auth_state) (now : Z) (username password : pyval)
    : response login_body * auth_state :=
  if negb (truthy username) || negb (truthy password) then
    (Response400 "Please provide both username and password", st)
  else
    match authenticate st username password with
    | Some u =>
        let '(refresh, st1) := for_user u now st in
        let '(access, st2) := access_of refresh st1 in
        (Response200 (mkLoginBody (encode refresh) (encode access) u), st2)
    | None => (Response401 "Invalid credentials", st)
    end.

(** [RefreshToken(refresh_token)]: [None] builds a new token; a string is
    decoded (signature and expiry, then the blacklist, then the type); any
    other value fails to decode. *)
Definition refresh_token_of (v : pyval) (now : Z) (st : auth_state)
    : result string (token * auth_state) :=
  match v with
  | PNone => Ok (new_refresh now st)
  | PStr s =>
      match decode s with
      | None => Err "Token is invalid or expired"
      | Some t =>
          if (tok_exp t <=? now)%Z then Err "Token is invalid or expired"
          else if bool_decide (tok_jti t ∈ blacklisted st) then Err "Token is blacklisted"
          else if bool_decide (tok_type t = Access) then Err "Token has wrong type"
          else Ok (t, st)
      end
  | _ => Err "Token is invalid or expired"
  end.

(** [token.blacklist()]: [OutstandingToken.get_or_create(jti=...)], whose
    defaults give only the token text and the expiry (the row's user stays
    NULL), then [BlacklistedToken.get_or_create(token=...)]. *)
Definition blacklist (t : token) (st : auth_state) : auth_state :=
  let out := if List.existsb (fun o => (ot_jti o =? tok_jti t)%Z) (outstanding st)
             then outstanding st
             else (outstanding st ++ [mkOutstanding (tok_jti t) None (encode t) (tok_exp t)])%list in
  mkAuthState (accounts st) out ({[tok_jti t]} ∪ blacklisted st) (next_jti st).

(** Lines 53-63: any exception becomes a 400 with its message. *)
Definition logout_view (st : auth_state) (now : Z) (refresh : pyval)
    : response string * auth_state :=
  match refresh_token_of refresh now st with
  | Err msg => (Response400 msg, st)
  | Ok (t, st1) => (Response200 "Successfully logged out", blacklist t st1)
  end.

(** Lines 66-71: the caller, as [UserSerializer] shows it. *)
Definition current_user (u : user) : response user := Response200 u.

(** simplejwt's [JWTAuthentication] with DRF's [IsAuthenticated]: the
    bearer token must decode to an unexpired access token (access tokens
    are not checked against the blacklist) whose [user_id] names an
    active user. *)
Definition jwt_authenticate (st : auth_state) (now : Z) (bearer : option string)
    : result string user :=
  match bearer with
  | None => Err "Authentication credentials were not provided."
  | Some s =>
      match decode s with
      | Some t =>
          if (now <? tok_exp t)%Z && bool_decide (tok_type t = Access) then
            match tok_user t with
            | Some uid =>
                match List.find (fun a => (user_id (acc_user a) =? uid)%Z) (accounts st) with
                | Some a => if acc_active a then Ok (acc_user a) else Err "User is inactive"
                | None => Err "User not found"
                end
            | None => Err "Token contained no recognizable user identification"
            end
          else Err "Given token not valid for any token type"
      | None => Err "Given token not valid for any token type"
      end
  end.
End Views.

(** The token tables' invariant: every blacklisted id is the id of an
    outstanding token ([BlacklistedToken.token] is a foreign key). *)
Definition auth_inv (st : auth_state) : Prop :=
  set_Forall (fun j => j ∈ map ot_jti (outstanding st)) (blacklisted st).

#[global] Instance auth_inv_dec st : Decision (auth_inv st).
Proof. unfold auth_inv. apply _. Defined.

(** User ids are the primary key of the user table. *)
Definition accounts_wf (st : auth_state) : Prop :=
  NoDup (map (fun a => user_id (acc_user a)) (accounts st)).

#[global] Instance accounts_wf_dec st : Decision (accounts_wf st).
Proof. unfold accounts_wf. apply _. Defined.
End Auth.

Module AuthFacts.
Import Jwt Auth.

Section Laws.
Context `{Hc : TokenCodecLaws}.

(** The outcomes of [RefreshToken(s)] on a string. *)
Lemma refresh_token_of_str s now st t st' :
  refresh_token_of (PStr s) now st = Ok (t, st') <->
  decode s = Some t /\ (now < tok_exp t)%Z /\ (tok_jti t ∉ blacklisted st) /\
  tok_type t = Refresh /\ st' = st.
Proof.
  unfold refresh_token_of. destruct (decode s) as [t0|]; [|split; [discriminate|naive_solver]].
  destruct (Z.leb_spec (tok_exp t0) now); [split; [discriminate|intros (? & ? & _); simplify_eq; lia]|].
  case_bool_decide; [split; [discriminate|naive_solver]|].
  case_bool_decide as Ht; [split; [discriminate|intros (? & _ & _ & ? & _); simplify_eq; congruence]|].
  split; [intros; simplify_eq; destruct (tok_type t); naive_solver|naive_solver].
Qed.

(** A successful logout with a string blacklists the token it names. *)
Lemma logout_view_str_ok st now s m st' :
  logout_view st now (PStr s) = (Response200 m, st') ->
  exists t, decode s = Some t /\ tok_type t = Refresh /\ (now < tok_exp t)%Z /\
    (tok_jti t ∉ blacklisted st) /\ st' = blacklist t st.
Proof.
  unfold logout_view. destruct (refresh_token_of (PStr s) now st) as [[t st1]|] eqn:E; [|discriminate].
  intros [= _ <-]. apply refresh_token_of_str in E as (Hd & Hexp & Hb & Ht & ->). by exists t.
Qed.

Lemma blacklisted_blacklist t st : blacklisted (blacklist t st) = {[tok_jti t]} ∪ blacklisted st.
Proof. reflexivity. Qed.

Lemma accounts_blacklist t st : accounts (blacklist t st) = accounts st.
Proof. reflexivity. Qed.
(** [login_view] with credentials [authenticate] accepts: the state it
    leaves and the body it answers. *)
Lemma login_view_ok st now un pw u :
  truthy un = true -> truthy pw = true -> authenticate st un pw = Some u ->
  login_view st now un pw =
    (Response200 (mkLoginBody
       (encode (mkToken Refresh (next_jti st) (Some (user_id u)) now (now + refresh_lifetime)))
       (encode (mkToken Access (next_jti st + 1) (Some (user_id u)) now (now + access_lifetime))) u),
     mkAuthState (accounts st)
       (outstanding st ++ [mkOutstanding (next_jti st) (Some (user_id u))
          (encode (mkToken Refresh (next_jti st) (Some (user_id u)) now (now + refresh_lifetime)))
          (now + refresh_lifetime)])%list
       (blacklisted st) (next_jti st + 1 + 1)).
Proof. intros Hu Hp Ha. unfold login_view. by rewrite Hu, Hp, Ha. Qed.

(** A login that answers 200 had credentials [authenticate] accepted. *)
Lemma login_view_success st now un pw b st1 :
  login_view st now un pw = (Response200 b, st1) ->
  exists u, truthy un = true /\ truthy pw = true /\ authenticate st un pw = Some u.
Proof.
  unfold login_view. destruct (truthy un), (truthy pw); simpl; try discriminate.
  destruct (authenticate st un pw) as [u|]; [|discriminate]. intros _. by exists u.
Qed.

(** [jwt_authenticate] on an access token of a well-formed user table. *)
Lemma jwt_authenticate_access st now a j i e :
  accounts_wf st -> In a (accounts st) -> acc_active a = true -> (now < e)%Z ->
  jwt_authenticate st now (Some (encode (mkToken Access j (Some (user_id (acc_user a))) i e))) =
    Ok (acc_user a).
Proof.
  intros Hwf Ha Hact He. unfold jwt_authenticate. rewrite decode_encode. cbn [tok_exp tok_type tok_user].
  destruct (Z.ltb_spec now e); [|lia]. rewrite bool_decide_eq_true_2 by done. simpl.
  destruct (List.find (fun a' => (user_id (acc_user a') =? user_id (acc_user a))%Z) (accounts st))
    as [a'|] eqn:Hf.
  - apply find_some in Hf as [Ha' Hid%Z.eqb_eq].
    assert (a' = a) as -> by (eapply (nodup_map_inj_in (fun a => user_id (acc_user a))); eauto).
    by rewrite Hact.
  - exfalso. eapply find_none in Hf; [|exact Ha]. by rewrite Z.eqb_refl in Hf.
Qed.

(** The account [authenticate] found. *)
Lemma authenticate_some st un pw u :
  authenticate st un pw = Some u ->
  exists a, In a (accounts st) /\ acc_user a = u /\ acc_active a = true.
Proof.
  unfold authenticate. destruct (List.find _ (accounts st)) as [a|] eqn:Hf; [|discriminate].
  apply find_some in Hf as [Ha _].
  destruct (String.eqb (acc_password a) (py_str pw)), (acc_active a) eqn:Hact; simpl; try discriminate.
  intros [= <-]. by exists a.
Qed.

(** [login_view] refuses a request whose username or password is
    missing or falsy with 400, before any lookup, and changes nothing. *)
Theorem login_missing_fields st now un pw :
  truthy un = false \/ truthy pw = false ->
  login_view st now un pw = (Response400 "Please provide both username and password", st).
Proof. unfold login_view. intros [-> | ->]; [done|]. by rewrite orb_true_r. Qed.

(** C32. Bad credentials (no such user, a wrong password or an inactive
    user) answer 401 and issue no token. *)
Theorem login_invalid_credentials st now un pw :
  truthy un = true -> truthy pw = true -> authenticate st un pw = None ->
  login_view st now un pw = (Response401 "Invalid credentials", st).
Proof. intros Hu Hp Ha. unfold login_view. by rewrite Hu, Hp, Ha. Qed.

(** C33. A successful login answers the caller with a refresh token that
    decodes to a fresh, unexpired refresh token of the caller, recorded as
    outstanding, and an access token of the caller valid for five minutes;
    no token is blacklisted. *)
Theorem login_issues_tokens st now un pw u :
  truthy un = true -> truthy pw = true -> authenticate st un pw = Some u ->
  exists b st', login_view st now un pw = (Response200 b, st') /\ login_user b = u /\
    decode (refresh_str b) = Some (mkToken Refresh (next_jti st) (Some (user_id u)) now (now + refresh_lifetime)) /\
    decode (access_str b) = Some (mkToken Access (next_jti st + 1) (Some (user_id u)) now (now + access_lifetime)) /\
    next_jti st ∈ map ot_jti (outstanding st') /\
    blacklisted st' = blacklisted st /\ accounts st' = accounts st.
Proof.
  intros Hu Hp Ha. rewrite (login_view_ok st now un pw u Hu Hp Ha).
  eexists _, _. split; [reflexivity|]. cbn [login_user refresh_str access_str outstanding blacklisted accounts].
  rewrite !decode_encode. split; [done|]. split; [done|]. split; [done|].
  split; [|done]. rewrite map_app. apply elem_of_app. right. by left.
Qed.

(** A logout with a string naming a blacklisted token is refused. *)
Lemma logout_view_blacklisted st now s t :
  decode s = Some t -> tok_jti t ∈ blacklisted st ->
  exists msg, logout_view st now (PStr s) = (Response400 msg, st).
Proof.
  intros Hd Hb. unfold logout_view.
  destruct (refresh_token_of (PStr s) now st) as [[t' st1]|msg] eqn:E; [|by exists msg].
  exfalso. apply refresh_token_of_str in E as (Hd' & _ & Hb' & _). rewrite Hd in Hd'.
  injection Hd' as <-. contradiction.
Qed.

(** A refresh token is good for one logout: once [logout_view] has
    accepted it, every later logout with it is refused with 400 and
    changes nothing, whatever blacklisting happened in between. *)
Theorem logout_refresh_once st now s m st' st'' now' :
  logout_view st now (PStr s) = (Response200 m, st') ->
  blacklisted st' ⊆ blacklisted st'' ->
  exists msg, logout_view st'' now' (PStr s) = (Response400 msg, st'').
Proof.
  intros Hl Hsub. destruct (logout_view_str_ok st now s m st' Hl) as (t & Hd & _ & _ & _ & ->).
  apply (logout_view_blacklisted _ _ _ t Hd), Hsub. rewrite blacklisted_blacklist. set_solver.
Qed.

(** C34. Liveness of the session: the refresh token a login returns is
    accepted by [logout_view] at any time before it expires. *)
Theorem login_then_logout st now un pw b st1 now' :
  login_view st now un pw = (Response200 b, st1) -> next_jti st ∉ blacklisted st ->
  (now' < now + refresh_lifetime)%Z ->
  exists st2, logout_view st1 now' (PStr (refresh_str b)) = (Response200 "Successfully logged out", st2) /\
    next_jti st ∈ blacklisted st2.
Proof.
  intros Hl Hfresh Hnow. destruct (login_view_success _ _ _ _ _ _ Hl) as (u & Hu & Hp & Ha).
  rewrite (login_view_ok st now un pw u Hu Hp Ha) in Hl. injection Hl as <- <-.
  unfold logout_view, refresh_token_of. cbn [refresh_str]. rewrite decode_encode. cbn [tok_exp tok_jti tok_type blacklisted].
  destruct (Z.leb_spec (now + refresh_lifetime) now'); [lia|].
  rewrite bool_decide_eq_false_2 by done. rewrite bool_decide_eq_false_2 by done.
  eexists. split; [reflexivity|]. rewrite blacklisted_blacklist. set_solver.
Qed.

(** C35. [logout_view] without a [refresh] field answers 200 "Successfully
    logged out" but revokes nothing the caller holds: [RefreshToken(None)]
    builds a new token, and only that fresh id is blacklisted. *)
Theorem logout_without_refresh st now :
  exists st', logout_view st now PNone = (Response200 "Successfully logged out", st') /\
    blacklisted st' = {[next_jti st]} ∪ blacklisted st /\ accounts st' = accounts st.
Proof. eexists. split; [reflexivity|]. done. Qed.

(** C8. Logging out does not revoke access: the access token issued with
    a refresh token keeps authenticating its user after that refresh token
    has been blacklisted, until its own five minutes run out. *)
Theorem access_survives_logout st now un pw b st1 now' m st2 now'' :
  accounts_wf st -> login_view st now un pw = (Response200 b, st1) ->
  logout_view st1 now' (PStr (refresh_str b)) = (Response200 m, st2) ->
  (now'' < now + access_lifetime)%Z ->
  jwt_authenticate st2 now'' (Some (access_str b)) = Ok (login_user b).
Proof.
  intros Hwf Hl Hout Hnow. destruct (login_view_success _ _ _ _ _ _ Hl) as (u & Hu & Hp & Ha).
  rewrite (login_view_ok st now un pw u Hu Hp Ha) in Hl. injection Hl as <- <-.
  destruct (logout_view_str_ok _ _ _ _ _ Hout) as (t & _ & _ & _ & _ & ->).
  destruct (authenticate_some _ _ _ _ Ha) as (a & Hin & <- & Hact).
  cbn [access_str login_user]. apply jwt_authenticate_access; [exact Hwf|exact Hin|exact Hact|lia].
Qed.

(** [login_view] keeps the token tables' invariant and the user table. *)
Lemma login_view_auth st now un pw :
  auth_inv st -> auth_inv (snd (login_view st now un pw)) /\
  accounts (snd (login_view st now un pw)) = accounts st.
Proof.
  intros Hinv. unfold login_view. destruct (negb (truthy un) || negb (truthy pw)); [done|].
  destruct (authenticate st un pw); [|done]. simpl. split; [|done].
  intros j Hj. cbn in Hj |- *. rewrite map_app. apply elem_of_app. left. by apply Hinv.
Qed.

(** [logout_view] only adds to the blacklist. *)
Lemma logout_view_blacklist st now v : blacklisted st ⊆ blacklisted (snd (logout_view st now v)).
Proof.
  unfold logout_view. destruct (refresh_token_of v now st) as [[t st1]|msg] eqn:E; cbn [snd]; [|done].
  rewrite blacklisted_blacklist. destruct v; simpl in E; try discriminate.
  - injection E as _ <-. set_solver.
  - apply refresh_token_of_str in E as (_ & _ & _ & _ & ->). set_solver.
Qed.

(** [logout_view] keeps the token tables' invariant and the user table,
    and only adds to the blacklist. *)
Lemma logout_view_auth st now v :
  auth_inv st -> auth_inv (snd (logout_view st now v)) /\
  accounts (snd (logout_view st now v)) = accounts st /\
  blacklisted st ⊆ blacklisted (snd (logout_view st now v)).
Proof.
  intros Hinv. unfold logout_view. destruct (refresh_token_of v now st) as [[t st1]|msg] eqn:E;
    cbn [snd]; [|split; [done|split; [done|reflexivity]]].
  assert (Hinv1 : auth_inv st1 /\ accounts st1 = accounts st /\ blacklisted st1 = blacklisted st).
  { destruct v; simpl in E; try discriminate.
    - by injection E as _ <-.
    - apply refresh_token_of_str in E as (_ & _ & _ & _ & ->). done. }
  destruct Hinv1 as (Hinv1 & Hacc & Hbl). rewrite accounts_blacklist, blacklisted_blacklist, Hbl.
  split; [|split; [done|set_solver]].
  intros j Hj%elem_of_union. unfold blacklist; cbn [outstanding].
  destruct (List.existsb (fun o => (ot_jti o =? tok_jti t)%Z) (outstanding st1)) eqn:Hex.
  - destruct Hj as [->%elem_of_singleton|Hj]; [|by apply Hinv1].
    apply existsb_exists in Hex as (o & Ho & Hj%Z.eqb_eq). rewrite <- Hj.
    apply list_elem_of_In, in_map. exact Ho.
  - rewrite map_app. apply elem_of_app. destruct Hj as [->%elem_of_singleton|Hj].
    + right. by left.
    + left. by apply Hinv1.
Qed.

(** Both views keep the token tables' invariant: every blacklisted
    id is the id of an outstanding token. *)
Theorem auth_views_inv st now un pw v :
  auth_inv st ->
  auth_inv (snd (login_view st now un pw)) /\ auth_inv (snd (logout_view st now v)).
Proof.
  intros Hinv. split; [apply (login_view_auth _ _ _ _ Hinv)|apply (logout_view_auth _ _ _ Hinv)].
Qed.

(** The caller [jwt_authenticate] yields is an active user of the table. *)
Lemma jwt_authenticate_ok st now b u :
  jwt_authenticate st now b = Ok u ->
  exists a, In a (accounts st) /\ acc_active a = true /\ acc_user a = u.
Proof.
  unfold jwt_authenticate. destruct b as [s|]; [|discriminate].
  destruct (decode s) as [t|]; [|discriminate].
  destruct ((now <? tok_exp t)%Z && bool_decide (tok_type t = Access)); [|discriminate].
  destruct (tok_user t) as [uid|]; [|discriminate].
  destruct (List.find _ (accounts st)) as [a|] eqn:Hf; [|discriminate].
  apply find_some in Hf as [Ha _]. destruct (acc_active a) eqn:Hact; [|discriminate].
  intros [= <-]. by exists a.
Qed.

End Laws.
End AuthFacts.

(** ** The theorems on a concrete user table, with the concrete codec *)

Module AuthExamples.
Import Jwt Auth AuthFacts.

Definition ex_alice : account := mkAccount (mkUser 2 "alice" STAFF "Cantt") "s3cret" true.
Definition ex_bob : account := mkAccount (mkUser 3 "bob" ADMIN "") "hunter2" false.
Definition ex_auth : auth_state := mkAuthState [ex_alice; ex_bob] [] ∅ 0.

Definition ex_login : response login_body * auth_state :=
  login_view ex_auth 1000 (PStr "alice") (PStr "s3cret").

Definition ex_body : login_body :=
  match fst ex_login with
  | Response200 b => b
  | _ => mkLoginBody "" "" (acc_user ex_alice)
  end.

Definition ex_logged_out : auth_state :=
  snd (logout_view (snd ex_login) 1100 (PStr (refresh_str ex_body))).

Lemma login_missing_fields_witness :
  login_view ex_auth 1000 (PStr "alice") (PStr "") =
    (Response400 "Please provide both username and password", ex_auth).
Proof. apply login_missing_fields. right. reflexivity. Defined.

(** An inactive user with the right password is refused. *)
Lemma login_invalid_credentials_witness :
  login_view ex_auth 1000 (PStr "bob") (PStr "hunter2") = (Response401 "Invalid credentials", ex_auth).
Proof. apply login_invalid_credentials; reflexivity. Defined.

Lemma login_issues_tokens_witness :
  exists b st', login_view ex_auth 1000 (PStr "alice") (PStr "s3cret") = (Response200 b, st') /\
    login_user b = acc_user ex_alice /\
    decode (refresh_str b) = Some (mkToken Refresh (next_jti ex_auth) (Some 2%Z) 1000 (1000 + refresh_lifetime)) /\
    decode (access_str b) = Some (mkToken Access (next_jti ex_auth + 1) (Some 2%Z) 1000 (1000 + access_lifetime)) /\
    next_jti ex_auth ∈ map ot_jti (outstanding st') /\
    blacklisted st' = blacklisted ex_auth /\ accounts st' = accounts ex_auth.
Proof. apply login_issues_tokens; reflexivity. Defined.

Lemma logout_refresh_once_witness :
  exists msg, logout_view ex_logged_out 1200 (PStr (refresh_str ex_body)) = (Response400 msg, ex_logged_out).
Proof.
  apply (logout_refresh_once (snd ex_login) 1100 (refresh_str ex_body) "Successfully logged out"
           ex_logged_out ex_logged_out 1200);
    [vm_compute; reflexivity|reflexivity].
Defined.

Lemma login_then_logout_witness :
  exists st2, logout_view (snd ex_login) 1100 (PStr (refresh_str ex_body)) =
    (Response200 "Successfully logged out", st2) /\ next_jti ex_auth ∈ blacklisted st2.
Proof.
  apply (login_then_logout ex_auth 1000 (PStr "alice") (PStr "s3cret"));
    [vm_compute; reflexivity|decide_closed|unfold refresh_lifetime; lia].
Defined.

Lemma access_survives_logout_witness :
  jwt_authenticate ex_logged_out 1200 (Some (access_str ex_body)) = Ok (login_user ex_body).
Proof.
  apply (access_survives_logout ex_auth 1000 (PStr "alice") (PStr "s3cret") ex_body (snd ex_login) 1100
           "Successfully logged out" ex_logged_out 1200);
    [decide_closed|vm_compute; reflexivity|vm_compute; reflexivity|unfold access_lifetime; lia].
Defined.

Lemma auth_views_inv_witness :
  auth_inv (snd (login_view ex_auth 1000 (PStr "alice") (PStr "s3cret"))) /\
  auth_inv (snd (logout_view ex_auth 1000 PNone)).
Proof. apply auth_views_inv. decide_closed. Defined.
End AuthExamples.
