(* ===== verification/System.v ===== *)
(** * The module as a system of requests

    The views of src/backend/core/views.py share one table and nothing
    else: each request reads the table and answers; the import, the view
    set's create, update and destroy, and the two workflow actions also
    write it.  This file composes the handlers into one request handler
    [handle], runs sequences of requests with [run], and defines the tables
    [reachable] from the empty table.  The theorems are proved by induction
    on [reachable]: every reachable table satisfies the store invariant and
    the days bound, and a serial number leaves the table only through the
    view set's DELETE, or a PUT or PATCH that renames it.  The two workflow
    actions are included as the source writes them, although as written
    they are never routed (see [Workflow]); an invariant of the larger
    system holds of the smaller. *)

From S2P Require Import Prelude PyValue Model ExcelImport Query Workflow Stats Crud.
Open Scope string_scope.

Module System.
Import Store Upload UploadCorrect Listing Workflow Stats Crud.

(** A request with its arguments: the caller where the view reads
    [request.user], the URL's primary key, the query or body fields. *)
Inductive request :=
| ReqUpload (u : user) (files : list (string * upload))
| ReqUpdateStatus (pk : Z) (st : data_field)
| ReqUpdateFeedback (pk : Z) (fb : data_field) (rm : option pyval)
| ReqList (u : user) (q : query_params)
| ReqDashboard (u : user)
| ReqPoliceStations
| ReqCategories
| ReqCreate (x : app_input)
| ReqRetrieve (pk : Z)
| ReqUpdate (pk : Z) (partial : bool) (x : app_input)
| ReqDestroy (pk : Z).

(** The body of the answer. *)
Inductive reply :=
| RImport (r : response import_body)
| RRecord (r : response application)
| RList (rs : list application)
| RDashboard (s : dashboard)
| RNames (l : list string)
| RDeleted (r : response unit).

(** One request against the table: the view it is routed to. *)
Definition handle (d : db) (rq : request) : reply * db :=
  match rq with
  | ReqUpload u files => let '(r, d') := upload_excel u files d in (RImport r, d')
  | ReqUpdateStatus pk st => let '(r, d') := update_status d pk st in (RRecord r, d')
  | ReqUpdateFeedback pk fb rm =>
      let '(r, d') := update_feedback d pk fb rm in (RRecord r, d')
  | ReqList u q => (RList (viewset_queryset u q d), d)
  | ReqDashboard u => (RDashboard (dashboard_stats u d), d)
  | ReqPoliceStations => (RNames (police_stations d), d)
  | ReqCategories => (RNames (categories d), d)
  | ReqCreate x => let '(r, d') := create d x in (RRecord r, d')
  | ReqRetrieve pk => (RRecord (retrieve d pk), d)
  | ReqUpdate pk partial x => let '(r, d') := update d pk partial x in (RRecord r, d')
  | ReqDestroy pk => let '(r, d') := destroy d pk in (RDeleted r, d')
  end.

(** The view set's PUT, PATCH and DELETE, the requests that can remove a
    serial number from the table. *)
Definition view_set_write (rq : request) : bool :=
  match rq with ReqUpdate _ _ _ | ReqDestroy _ => true | _ => false end.

(** Requests served one after the other, each on the table the previous
    one left. *)
Fixpoint run (d : db) (rqs : list request) : list reply * db :=
  match rqs with
  | [] => ([], d)
  | rq :: rest =>
      let '(r, d1) := handle d rq in
      let '(rs, d2) := run d1 rest in
      (r :: rs, d2)
  end.

(** The empty table of a fresh database: no rows, ids from 1. *)
Definition empty_db : db := mkDb [] 1.

Inductive reachable : db -> Prop :=
| reachable_init : reachable empty_db
| reachable_step d rq : reachable d -> reachable (snd (handle d rq)).

(** What every table the system reaches satisfies. *)
Definition system_inv (d : db) : Prop := inv d /\ days_in_range d.
End System.

Module SystemFacts.
Import Store StoreFacts UploadSpec Upload UploadCorrect Listing Workflow WorkflowFacts Crud CrudFacts System.

Lemma handle_table d rq :
  snd (handle d rq) =
  match rq with
  | ReqUpload u files => snd (upload_excel u files d)
  | ReqUpdateStatus pk st => snd (update_status d pk st)
  | ReqUpdateFeedback pk fb rm => snd (update_feedback d pk fb rm)
  | ReqCreate x => snd (create d x)
  | ReqUpdate pk partial x => snd (update d pk partial x)
  | ReqDestroy pk => snd (destroy d pk)
  | _ => d
  end.
Proof.
  destruct rq; simpl; try reflexivity.
  - by destruct (upload_excel u files d).
  - by destruct (update_status d pk st).
  - by destruct (update_feedback d pk fb rm).
  - by destruct (create d x).
  - by destruct (update d pk partial x).
  - by destruct (destroy d pk).
Qed.

Lemma run_table d rq rqs : snd (run d (rq :: rqs)) = snd (run (snd (handle d rq)) rqs).
Proof.
  simpl. destruct (handle d rq) as [r d1]. simpl. by destruct (run d1 rqs).
Qed.

Lemma run_reachable d rqs : reachable d -> reachable (snd (run d rqs)).
Proof.
  revert d. induction rqs as [|rq rqs IH]; intros d Hd; [done|].
  rewrite run_table. apply IH. by constructor.
Qed.

(** A write-back keeps the days bound. *)
Lemma writes_back_days d pk d' :
  inv d -> days_in_range d -> writes_back d pk d' -> days_in_range d'.
Proof.
  intros Hinv Hd [-> | (app & r & Hg & -> & Hi & _ & Hdays & _)]; [done|].
  apply lookup_id_some in Hg as [Hin _].
  unfold days_in_range in *. rewrite Forall_forall in *.
  intros x Hx%list_elem_of_In. apply in_save_inv in Hx as [-> | [Hx _]].
  - rewrite Hdays. apply Hd. by apply list_elem_of_In.
  - apply Hd. by apply list_elem_of_In.
Qed.

Lemma handle_system_inv d rq : system_inv d -> system_inv (snd (handle d rq)).
Proof.
  intros [Hinv Hd]. rewrite handle_table.
  destruct rq as [u files|pk st|pk fb rm| | | | |x|pk|pk partial x|pk]; try (split; assumption).
  - split.
    + apply upload_excel_preserve; [|done..]. intros d0 row o d1 Hinv0 _. by apply process_row_inv.
    + apply upload_excel_preserve; [|done..]. intros d0 row o d1. apply process_row_days_in_range.
  - pose proof (update_status_writes_back d pk st) as Hw.
    split; [exact (proj1 (writes_back_inv _ _ _ Hinv Hw))|exact (writes_back_days _ _ _ Hinv Hd Hw)].
  - pose proof (update_feedback_writes_back d pk fb rm) as Hw.
    split; [exact (proj1 (writes_back_inv _ _ _ Hinv Hw))|exact (writes_back_days _ _ _ Hinv Hd Hw)].
  - split; [by apply create_inv|by apply create_days].
  - split; [by apply update_inv|by apply update_days].
  - split; [by apply destroy_inv|by apply destroy_days].
Qed.

(** A request keeps the rows well typed for the user table [uids] when
    its caller, if it stamps one, is a user of [uids]. *)
Lemma handle_typed uids d rq :
  (forall u files, rq = ReqUpload u files -> user_id u ∈ uids) ->
  inv d -> rows_typed uids d -> rows_typed uids (snd (handle d rq)).
Proof.
  intros Hu Hinv Ht. rewrite handle_table.
  destruct rq as [u files|pk st|pk fb rm| | | | |x|pk|pk partial x|pk]; try exact Ht.
  - apply upload_excel_typed; [done|by apply (Hu u files)|done].
  - exact (writes_back_typed uids d pk _ Ht (update_status_writes_back d pk st)).
  - exact (writes_back_typed uids d pk _ Ht (update_feedback_writes_back d pk fb rm)).
  - by apply create_typed.
  - by apply update_typed.
  - by apply destroy_typed.
Qed.

(** Every table the system reaches from the empty database, by any
    sequence of imports, workflow actions, reads and view-set writes, has
    distinct primary keys below the id sequence, unique serial numbers,
    and days values that are non-negative 64-bit integers ([Server] lifts
    this to the deployed API). *)
Lemma reachable_system_inv d : reachable d -> system_inv d.
Proof.
  induction 1 as [|d rq _ IH]; [|by apply handle_system_inv].
  split; [decide_closed|constructor].
Qed.


(** Where a serial number goes: a request that removes one from a
    well-formed table is a DELETE of its record, or a PUT or PATCH of its
    record whose body carries another serial number. *)
Lemma handle_removes d rq k :
  inv d -> k ∈ keys d -> k ∉ keys (snd (handle d rq)) ->
  exists r, lookup_id d (app_id r) = Some r /\ sr_no r = k /\
    (rq = ReqDestroy (app_id r) \/
     exists partial x, rq = ReqUpdate (app_id r) partial x /\ in_sr_no x <> None /\ in_sr_no x <> Some k).
Proof.
  intros Hinv Hk Hk'. rewrite handle_table in Hk'. unfold keys in *. rewrite list_elem_of_In in Hk, Hk'.
  destruct rq as [u files|pk st|pk fb rm| | | | |x|pk|pk partial x|pk]; try contradiction.
  - exfalso. apply Hk'. apply list_elem_of_In. destruct (upload_excel_table u files d) as [-> | [sheet ->]].
    + by apply list_elem_of_In.
    + apply (proj1 (process_rows_keys u d (List.skipn 1 sheet) 2 no_counters Hinv)). by apply list_elem_of_In.
  - by rewrite (proj2 (writes_back_inv _ _ _ Hinv (update_status_writes_back d pk st))) in Hk'.
  - by rewrite (proj2 (writes_back_inv _ _ _ Hinv (update_feedback_writes_back d pk fb rm))) in Hk'.
  - exfalso. apply Hk'. unfold create, create_with. destruct (validate d None false (defaults (next_id d)) x); [|done].
    cbn [snd rows]. rewrite map_app. apply in_or_app. by left.
  - destruct (update_removes d pk partial x k Hinv Hk Hk') as (r & Hl & Hs & Hx).
    exists r. pose proof Hl as [_ <-]%lookup_id_some. split; [done|split; [done|right]]. by exists partial, x.
  - destruct (destroy_removes d pk k Hinv Hk Hk') as (r & Hl & Hs).
    exists r. pose proof Hl as [_ <-]%lookup_id_some. split; [done|split; [done|by left]].
Qed.

(** No request but the view set's PUT, PATCH and DELETE removes a
    serial number. *)
Lemma handle_keys d rq k :
  inv d -> view_set_write rq = false -> k ∈ keys d -> k ∈ keys (snd (handle d rq)).
Proof.
  intros Hinv Hw Hk. destruct (decide (k ∈ keys (snd (handle d rq)))) as [|Hk']; [done|].
  destruct (handle_removes d rq k Hinv Hk Hk') as (r & _ & _ & [->|(? & ? & -> & _)]); discriminate.
Qed.

(** Records are never deleted by the views the spec specifies (spec
    section 3, lifecycle): along any sequence of imports, workflow actions,
    creations and reads from a reachable table, every serial number present
    at the start is present at the end. *)
Theorem run_keys_monotone d rqs k :
  reachable d -> Forall (fun rq => view_set_write rq = false) rqs ->
  k ∈ keys d -> k ∈ keys (snd (run d rqs)).
Proof.
  revert d. induction rqs as [|rq rqs IH]; intros d Hd Hw Hk; [done|].
  apply Forall_cons in Hw as [Hw1 Hw]. rewrite run_table. apply IH; [by constructor|done|].
  apply handle_keys; [exact (proj1 (reachable_system_inv d Hd))|done|exact Hk].
Qed.
(** C9. Along any sequence of requests from a reachable table, a serial
    number present at the start and absent at the end was removed by one
    of the requests: a DELETE, or a PUT or PATCH whose body carries another
    serial number; the imports, the workflow actions, the creations and
    the reads never remove one (spec section 3, lifecycle: records are
    never deleted). *)
Theorem serial_removed_by_view_set d rqs k :
  reachable d -> k ∈ keys d -> k ∉ keys (snd (run d rqs)) ->
  exists rq, In rq rqs /\
    exists pk, rq = ReqDestroy pk \/
      exists partial x, rq = ReqUpdate pk partial x /\ in_sr_no x <> None /\ in_sr_no x <> Some k.
Proof.
  revert d. induction rqs as [|rq rqs IH]; intros d Hd Hk Hk'; [done|].
  rewrite run_table in Hk'. destruct (decide (k ∈ keys (snd (handle d rq)))) as [Hk1|Hk1].
  - destruct (IH _ (reachable_step d rq Hd) Hk1 Hk') as (rq' & Hin & Hrq). exists rq'. by split; [right|].
  - destruct (handle_removes d rq k (proj1 (reachable_system_inv d Hd)) Hk Hk1) as (r & _ & _ & Hrq).
    exists rq. split; [by left|]. exists (app_id r). exact Hrq.
Qed.
End SystemFacts.

(** ** A concrete session

    From the empty database: the example sheet of [ExcelImport] is
    imported, record 1 (serial number ["1"]) is marked [HEARD], and the
    same sheet is imported again. *)

Module SystemExamples.
Import Store StoreFacts UploadSpec Upload UploadCorrect UploadExamples Crud System SystemFacts.

Definition ex_session : list request :=
  [ReqUpload ex_user ex_files; ReqUpdateStatus 1 (Some "HEARD"); ReqUpload ex_user ex_files].

Definition ex_reviewed : db := snd (run empty_db (List.firstn 2 ex_session)).

Definition ex_final : db := snd (run empty_db ex_session).


Lemma serial_removed_by_view_set_witness :
  exists rq, In rq [ReqRetrieve 1; ReqDestroy 1] /\
    exists pk, rq = ReqDestroy pk \/
      exists partial x, rq = ReqUpdate pk partial x /\ in_sr_no x <> None /\ in_sr_no x <> Some "1".
Proof.
  apply (serial_removed_by_view_set ex_reviewed [ReqRetrieve 1; ReqDestroy 1] "1");
    [apply run_reachable; constructor|decide_closed|decide_closed].
Defined.

Lemma run_keys_monotone_witness :
  "1" ∈ keys ex_reviewed /\ "1" ∈ keys (snd (run ex_reviewed [ReqUpload ex_user ex_files])).
Proof.
  split; [decide_closed|].
  apply run_keys_monotone; [apply run_reachable; constructor|repeat constructor|decide_closed].
Defined.

(** Interleaving an import with the review loses the review (spec
    section 9): after the session's second step record ["1"] is [HEARD],
    and after re-importing the sheet it is [PENDING] again, with the
    caller stamped as its creator. *)
Theorem reimport_discards_review :
  map status (find_by_sr ex_reviewed "1") = [Status.HEARD] /\
  map status (find_by_sr ex_final "1") = [Status.PENDING] /\
  map created_by (find_by_sr ex_final "1") = [Some (user_id ex_user)].
Proof. vm_compute. repeat split. Qed.
End SystemExamples.
