(* ===== verification/Server.v ===== *)
(** * The API as deployed: authentication in front of the views

    Every view of src/backend/core/views.py except [login_view] carries
    [IsAuthenticated]: DRF runs simplejwt's [JWTAuthentication] on the
    bearer token and answers 401 when it yields no user, before the view's
    body runs.  This file composes [Auth] and [System]: a server state is
    the table with the token tables, [serve] answers one request, and
    [server_reachable] is the set of states reached from a fresh database
    whose user table was filled outside these views (by [createsuperuser]
    or the admin).  The theorems are by rule induction on it. *)

From S2P Require Import Prelude PyValue Model ExcelImport Query Workflow Stats Crud Auth System.
From stdpp Require Import gmap.
Open Scope string_scope.

Module Server.
Import Store Upload UploadCorrect Listing Workflow Crud Jwt Auth System.

(** The authenticated views, without the caller DRF supplies. *)
Inductive api_view :=
| ApiUpload (files : list (string * upload))
| ApiUpdateStatus (pk : Z) (st : data_field)
| ApiUpdateFeedback (pk : Z) (fb : data_field) (rm : option pyval)
| ApiList (q : query_params)
| ApiDashboard
| ApiPoliceStations
| ApiCategories
| ApiCreate (x : app_input)
| ApiRetrieve (pk : Z)
| ApiUpdate (pk : Z) (partial : bool) (x : app_input)
| ApiDestroy (pk : Z)
| ApiMe.

(** A request: its bearer token where the view needs one, and its body. *)
Inductive api_request :=
| ApiLogin (username password : pyval)
| ApiLogout (bearer : option string) (refresh : pyval)
| ApiCall (bearer : option string) (v : api_view).

Inductive api_reply :=
| RLogin (r : response login_body)
| RLogout (r : response string)
| RMe (r : response user)
| RView (r : reply)
| RDenied (r : response unit).

Record server := mkServer { srv_db : db; srv_auth : auth_state }.

(** The view request of an authenticated caller; [None] for
    [current_user], which only reads the caller. *)
Definition view_request (u : user) (v : api_view) : option request :=
  match v with
  | ApiUpload files => Some (ReqUpload u files)
  | ApiUpdateStatus pk st => Some (ReqUpdateStatus pk st)
  | ApiUpdateFeedback pk fb rm => Some (ReqUpdateFeedback pk fb rm)
  | ApiList q => Some (ReqList u q)
  | ApiDashboard => Some (ReqDashboard u)
  | ApiPoliceStations => Some ReqPoliceStations
  | ApiCategories => Some ReqCategories
  | ApiCreate x => Some (ReqCreate x)
  | ApiRetrieve pk => Some (ReqRetrieve pk)
  | ApiUpdate pk partial x => Some (ReqUpdate pk partial x)
  | ApiDestroy pk => Some (ReqDestroy pk)
  | ApiMe => None
  end.

Section Serve.
Context `{TokenCodec}.

(** One request at time [now]. *)
Definition serve (s : server) (now : Z) (rq : api_request) : api_reply * server :=
  match rq with
  | ApiLogin un pw =>
      let '(r, a') := login_view (srv_auth s) now un pw in (RLogin r, mkServer (srv_db s) a')
  | ApiLogout b refresh =>
      match jwt_authenticate (srv_auth s) now b with
      | Err msg => (RDenied (Response401 msg), s)
      | Ok _ => let '(r, a') := logout_view (srv_auth s) now refresh in
                (RLogout r, mkServer (srv_db s) a')
      end
  | ApiCall b v =>
      match jwt_authenticate (srv_auth s) now b with
      | Err msg => (RDenied (Response401 msg), s)
      | Ok u =>
          match view_request u v with
          | None => (RMe (current_user u), s)
          | Some vr => let '(r, d') := handle (srv_db s) vr in (RView r, mkServer d' (srv_auth s))
          end
      end
  end.

(** A fresh deployment: an empty table, the given users, no tokens. *)
Definition fresh_server (accts : list account) : server :=
  mkServer empty_db (mkAuthState accts [] ∅ 0).

Inductive server_reachable : server -> Prop :=
| server_init accts :
    NoDup (map (fun a => user_id (acc_user a)) accts) -> server_reachable (fresh_server accts)
| server_step s now rq : server_reachable s -> server_reachable (snd (serve s now rq)).
End Serve.

(** What every reachable server satisfies. *)
Definition server_inv (s : server) : Prop :=
  system_inv (srv_db s) /\ auth_inv (srv_auth s) /\ accounts_wf (srv_auth s).

(** The ids of the user table, the targets of [created_by]. *)
Definition account_ids (st : auth_state) : list Z :=
  map (fun a => user_id (acc_user a)) (accounts st).
End Server.

Module ServerFacts.
Import Store Upload UploadCorrect Listing Workflow Jwt Auth AuthFacts System SystemFacts Server.

Section Laws.
Context `{Hc : TokenCodecLaws}.

(** The state [serve] leaves, request by request. *)
Lemma serve_state s now rq :
  snd (serve s now rq) =
  match rq with
  | ApiLogin un pw => mkServer (srv_db s) (snd (login_view (srv_auth s) now un pw))
  | ApiLogout b r =>
      match jwt_authenticate (srv_auth s) now b with
      | Err _ => s
      | Ok _ => mkServer (srv_db s) (snd (logout_view (srv_auth s) now r))
      end
  | ApiCall b v =>
      match jwt_authenticate (srv_auth s) now b with
      | Err _ => s
      | Ok u =>
          match view_request u v with
          | None => s
          | Some vr => mkServer (snd (handle (srv_db s) vr)) (srv_auth s)
          end
      end
  end.
Proof.
  destruct rq as [un pw|b r|b v]; simpl.
  - by destruct (login_view (srv_auth s) now un pw).
  - destruct (jwt_authenticate (srv_auth s) now b); [|done]. by destruct (logout_view (srv_auth s) now r).
  - destruct (jwt_authenticate (srv_auth s) now b); [|done].
    destruct (view_request a v); [|done]. by destruct (handle (srv_db s) r).
Qed.

Lemma serve_server_inv s now rq : server_inv s -> server_inv (snd (serve s now rq)).
Proof.
  intros (Hsys & Hauth & Hwf). rewrite serve_state.
  destruct rq as [un pw|b r|b v].
  - destruct (login_view_auth (srv_auth s) now un pw Hauth) as [Ha Hacc].
    split; [done|split; [done|]]. unfold accounts_wf. cbn [srv_auth]. by rewrite Hacc.
  - destruct (jwt_authenticate (srv_auth s) now b); [|done].
    destruct (logout_view_auth (srv_auth s) now r Hauth) as (Ha & Hacc & _).
    split; [done|split; [done|]]. unfold accounts_wf. cbn [srv_auth]. by rewrite Hacc.
  - destruct (jwt_authenticate (srv_auth s) now b); [|done].
    destruct (view_request a v); [|done]. split; [by apply handle_system_inv|done].
Qed.

(** The invariants hold of every reachable state, by rule induction. *)
Lemma reachable_server_inv s : server_reachable s -> server_inv s.
Proof.
  induction 1 as [accts Hnd|s now rq _ IH]; [|by apply serve_server_inv].
  split; [apply reachable_system_inv; constructor|]. split; [|exact Hnd].
  intros j Hj. cbn in Hj. set_solver.
Qed.

(** C5. Every state of a deployed server, after any sequence of logins,
    logouts and authenticated view calls (imports, view-set creations,
    updates and deletions, reads) at any times, keeps the table's
    invariant and days bound, the token tables' invariant, and distinct
    user ids. *)
Theorem server_reachable_inv s : server_reachable s -> server_inv s.
Proof. apply reachable_server_inv. Qed.

Lemma view_request_upload u v u' files : view_request u v = Some (ReqUpload u' files) -> u' = u.
Proof. destruct v; simpl; congruence. Qed.

(** C11. Every row of a reachable server's table conforms to the model's
    column types: a non-blank serial number, and a creator that is NULL or
    a user of the user table.  The import stamps the authenticated caller,
    the view set validates serial numbers and never sets a creator, and no
    view changes the user table. *)
Theorem server_rows_typed s :
  server_reachable s -> rows_typed (account_ids (srv_auth s)) (srv_db s).
Proof.
  intros Hr. induction Hr as [accts Hnd|s now rq Hr IH]; [constructor|].
  destruct (reachable_server_inv s Hr) as ([Hinv _] & Hauth & _). rewrite serve_state.
  destruct rq as [un pw|b r|b v].
  - unfold account_ids. cbn [srv_db srv_auth]. by rewrite (proj2 (login_view_auth _ now un pw Hauth)).
  - destruct (jwt_authenticate (srv_auth s) now b); [|done].
    unfold account_ids. cbn [srv_db srv_auth]. by rewrite (proj1 (proj2 (logout_view_auth _ now r Hauth))).
  - destruct (jwt_authenticate (srv_auth s) now b) as [u|] eqn:Hj; [|done].
    destruct (view_request u v) as [vr|] eqn:Hv; [|done]. cbn [srv_db srv_auth].
    apply handle_typed; [|done|done]. intros u' files ->. rewrite (view_request_upload _ _ _ _ Hv).
    destruct (jwt_authenticate_ok _ _ _ _ Hj) as (a & Ha & _ & <-).
    apply list_elem_of_In, in_map_iff. by exists a.
Qed.

(** C6. Every change to the application table is made by a view call
    whose bearer token authenticates an active user of the user table. *)
Theorem table_writes_authenticated s now rq :
  srv_db (snd (serve s now rq)) <> srv_db s ->
  exists b v a, rq = ApiCall b v /\ jwt_authenticate (srv_auth s) now b = Ok (acc_user a) /\
    In a (accounts (srv_auth s)) /\ acc_active a = true.
Proof.
  rewrite serve_state. destruct rq as [un pw|b r|b v]; simpl.
  - done.
  - by destruct (jwt_authenticate (srv_auth s) now b).
  - destruct (jwt_authenticate (srv_auth s) now b) as [u|msg] eqn:Hj; [|done].
    intros _. destruct (jwt_authenticate_ok _ _ _ _ Hj) as (a & Ha & Hact & <-).
    by exists b, v, a.
Qed.

(** The blacklist only grows. *)
Lemma serve_blacklist s now rq :
  blacklisted (srv_auth s) ⊆ blacklisted (srv_auth (snd (serve s now rq))).
Proof.
  rewrite serve_state. destruct rq as [un pw|b r|b v].
  - cbn [srv_auth]. unfold login_view.
    destruct (negb (truthy un) || negb (truthy pw)); [done|].
    by destruct (authenticate (srv_auth s) un pw).
  - destruct (jwt_authenticate (srv_auth s) now b); [|done]. apply logout_view_blacklist.
  - destruct (jwt_authenticate (srv_auth s) now b); [|done]. by destruct (view_request a v).
Qed.

(** Requests served in order, each with its time. *)
Fixpoint run_server (s : server) (rqs : list (Z * api_request)) : server :=
  match rqs with
  | [] => s
  | (now, rq) :: rest => run_server (snd (serve s now rq)) rest
  end.

Lemma run_server_reachable s rqs : server_reachable s -> server_reachable (run_server s rqs).
Proof.
  revert s. induction rqs as [|[now rq] rqs IH]; intros s Hs; simpl; [done|].
  apply IH. by constructor.
Qed.

Lemma run_server_blacklist s rqs :
  blacklisted (srv_auth s) ⊆ blacklisted (srv_auth (run_server s rqs)).
Proof.
  revert s. induction rqs as [|[now rq] rqs IH]; intros s; simpl; [done|].
  etransitivity; [apply serve_blacklist|apply IH].
Qed.

(** C7. Logout is permanent across the whole API: once a logout has
    accepted a refresh token, no later logout, by any caller, after any
    sequence of requests, accepts it again. *)
Theorem logout_permanent s now b tok m s1 rqs now' b' :
  serve s now (ApiLogout b (PStr tok)) = (RLogout (Response200 m), s1) ->
  forall m', fst (serve (run_server s1 rqs) now' (ApiLogout b' (PStr tok))) <> RLogout (Response200 m').
Proof.
  intros Hs m'. simpl in Hs. destruct (jwt_authenticate (srv_auth s) now b); [|discriminate].
  destruct (logout_view (srv_auth s) now (PStr tok)) as [r a1] eqn:Hl. injection Hs as -> <-.
  destruct (logout_view_str_ok _ _ _ _ _ Hl) as (t & Hd & _ & _ & _ & ->).
  set (s2 := run_server _ rqs).
  assert (Hb : tok_jti t ∈ blacklisted (srv_auth s2)).
  { apply (run_server_blacklist (mkServer (srv_db s) (blacklist t (srv_auth s))) rqs).
    cbn [srv_auth]. rewrite blacklisted_blacklist. set_solver. }
  simpl. destruct (jwt_authenticate (srv_auth s2) now' b'); [|discriminate].
  destruct (logout_view_blacklisted _ now' _ _ Hd Hb) as [msg ->]. discriminate.
Qed.
End Laws.
End ServerFacts.

(** ** A concrete deployment

    Alice logs in, uploads the example sheet with her access token, and
    logs out; an anonymous caller then tries the same upload. *)

Module ServerExamples.
Import Store Upload UploadExamples Jwt Auth AuthExamples System Server ServerFacts.

Definition ex_server : server := fresh_server [ex_alice; ex_bob].

Definition ex_access : string := access_str ex_body.
Definition ex_refresh : string := refresh_str ex_body.

Definition ex_logged_in : server := snd (serve ex_server 1000 (ApiLogin (PStr "alice") (PStr "s3cret"))).

Definition ex_session : list (Z * api_request) :=
  [(1000%Z, ApiLogin (PStr "alice") (PStr "s3cret"));
   (1010%Z, ApiCall (Some ex_access) (ApiUpload ex_files));
   (1020%Z, ApiLogout (Some ex_access) (PStr ex_refresh));
   (1030%Z, ApiCall None (ApiUpload ex_files))].

Lemma server_reachable_inv_witness : server_inv (run_server ex_server ex_session).
Proof.
  apply server_reachable_inv. apply run_server_reachable. constructor. decide_closed.
Defined.

(** Alice imports the example sheet twice: the second import stamps her
    id on both records. *)
Definition ex_reimport : list (Z * api_request) :=
  [(1000%Z, ApiLogin (PStr "alice") (PStr "s3cret"));
   (1010%Z, ApiCall (Some ex_access) (ApiUpload ex_files));
   (1011%Z, ApiCall (Some ex_access) (ApiUpload ex_files))].

Lemma server_rows_typed_witness :
  rows_typed (account_ids (srv_auth (run_server ex_server ex_reimport)))
    (srv_db (run_server ex_server ex_reimport)).
Proof. apply server_rows_typed. apply run_server_reachable. constructor. decide_closed. Defined.

Lemma ex_reimport_creators :
  map created_by (rows (srv_db (run_server ex_server ex_reimport))) = [Some 2%Z; Some 2%Z].
Proof. vm_compute. reflexivity. Qed.

Lemma table_writes_authenticated_witness :
  exists b v a, ApiCall (Some ex_access) (ApiUpload ex_files) = ApiCall b v /\
    jwt_authenticate (srv_auth ex_logged_in) 1010 b = Ok (acc_user a) /\
    In a (accounts (srv_auth ex_logged_in)) /\ acc_active a = true.
Proof.
  apply (table_writes_authenticated ex_logged_in 1010). intros H. vm_compute in H. congruence.
Defined.

Lemma logout_permanent_witness :
  serve ex_logged_in 1020 (ApiLogout (Some ex_access) (PStr ex_refresh)) =
    (RLogout (Response200 "Successfully logged out"),
     snd (serve ex_logged_in 1020 (ApiLogout (Some ex_access) (PStr ex_refresh)))) /\
  fst (serve (run_server (snd (serve ex_logged_in 1020 (ApiLogout (Some ex_access) (PStr ex_refresh))))
                [(1030%Z, ApiLogin (PStr "alice") (PStr "s3cret"))])
             1040 (ApiLogout (Some ex_access) (PStr ex_refresh))) <>
    RLogout (Response200 "Successfully logged out").
Proof.
  split; [vm_compute; reflexivity|].
  apply (logout_permanent ex_logged_in 1020 (Some ex_access) ex_refresh "Successfully logged out").
  vm_compute. reflexivity.
Defined.
End ServerExamples.
